(** * TaskFlow: the task model, the task controller, the client store and the
    simulated token utilities, embedded from the sources

    - [Model]      server/models/Task.js
    - [Controller] server/controllers/taskController.js, with the query
                   validator of the validation middleware and routes/tasks.js
    - [Base64], [Json], [Auth]   src/utils/auth.ts and the platform
                   functions it calls (btoa, atob, JSON.stringify, JSON.parse)
    - [Api]        src/utils/api.ts
    - [Dashboard]  the comparator of Dashboard.filteredAndSortedTasks

    Conventions.  Instants (Date values, Date.now()) are integers, the
    milliseconds since the epoch.  Identifiers (ObjectId, the client's id
    strings) are strings.  Strings are sequences of code units below 256. *)

From Stdlib Require Import ZArith List String Ascii Bool Lia.
From Stdlib Require Import Sorted Permutation DecimalString DecimalN.
From Stdlib Require OrderedTypeEx.
Import ListNotations.

Local Open Scope string_scope.
Local Open Scope Z_scope.

(** ** Generic helpers *)

(** The outcome of code that may throw: a value, or the message of the
    Error that was thrown. *)
Inductive result (A : Type) : Type :=
| Ok (a : A)
| Throw (msg : string).
Arguments Ok {A} a.
Arguments Throw {A} msg.

(** A stable insertion sort: [x] goes before the first element it is not
    above.  It stands for the store's [sort] and for Array.prototype.sort;
    where two elements compare equal the real order is left open by both,
    and no statement below depends on it. *)
Fixpoint insert_by {A : Type} (le : A -> A -> bool) (x : A) (l : list A) : list A :=
  match l with
  | [] => [x]
  | y :: l' => if le x y then x :: l else y :: insert_by le x l'
  end.

Fixpoint sort_by {A : Type} (le : A -> A -> bool) (l : list A) : list A :=
  match l with
  | [] => []
  | x :: l' => insert_by le x (sort_by le l')
  end.

Definition count_if {A : Type} (p : A -> bool) (l : list A) : Z :=
  Z.of_nat (List.length (filter p l)).

(** Math.ceil(a / b) for a natural [a] and a positive [b]. *)
Definition ceil_div (a b : Z) : Z := (a + b - 1) / b.

(** The decimal digits of a natural number, and Number.prototype.toString
    on an integer (below 10^21 in absolute value, where JavaScript writes
    all the digits). *)
Definition show_N (n : N) : string := NilEmpty.string_of_uint (N.to_uint n).

Definition show_Z (z : Z) : string :=
  match z with
  | Zneg p => "-" ++ show_N (Npos p)
  | _ => show_N (Z.to_N z)
  end.

(** ** server/models/Task.js *)

Module Model.

Inductive Priority : Set := low | medium | high.
Inductive Status : Set := todo | in_progress | completed.

(** The strings the schema's enums store. *)
Definition priority_str (p : Priority) : string :=
  match p with low => "low" | medium => "medium" | high => "high" end.

Definition status_str (s : Status) : string :=
  match s with todo => "todo" | in_progress => "in-progress" | completed => "completed" end.

Definition Priority_eqb (a b : Priority) : bool :=
  match a, b with
  | low, low | medium, medium | high, high => true
  | _, _ => false
  end.

Definition Status_eqb (a b : Status) : bool :=
  match a, b with
  | todo, todo | in_progress, in_progress | completed, completed => true
  | _, _ => false
  end.

(** A path of type Date: the field is not in the document ([Absent],
    JavaScript's undefined), holds null, or holds an instant. *)
Inductive DateField : Set :=
| Absent
| IsNull
| At (ms : Z).

(** JavaScript truthiness of such a value: a Date object is truthy. *)
Definition truthy (d : DateField) : bool :=
  match d with At _ => true | _ => false end.

Record TaskDoc : Set := mkTask {
  _id : string;
  title : string;
  description : option string;
  priority : Priority;
  status : Status;
  user : string;
  dueDate : DateField;
  completedAt : DateField;
  tags : list string;
  isArchived : bool;
  createdAt : Z;
  updatedAt : Z
}.

Definition set_completedAt (d : DateField) (t : TaskDoc) : TaskDoc :=
  mkTask (_id t) (title t) (description t) (priority t) (status t) (user t)
         (dueDate t) d (tags t) (isArchived t) (createdAt t) (updatedAt t).

Definition set_isArchived (b : bool) (t : TaskDoc) : TaskDoc :=
  mkTask (_id t) (title t) (description t) (priority t) (status t) (user t)
         (dueDate t) (completedAt t) (tags t) b (createdAt t) (updatedAt t).

Definition set_updatedAt (now : Z) (t : TaskDoc) : TaskDoc :=
  mkTask (_id t) (title t) (description t) (priority t) (status t) (user t)
         (dueDate t) (completedAt t) (tags t) (isArchived t) (createdAt t) now.

(** TaskSchema.pre('save').  [status_modified] is this.isModified('status'),
    [now] the instant of new Date(). *)
Definition pre_save (status_modified : bool) (now : Z) (t : TaskDoc) : TaskDoc :=
  if status_modified then
    if Status_eqb (status t) completed && negb (truthy (completedAt t))
    then set_completedAt (At now) t
    else if negb (Status_eqb (status t) completed)
         then set_completedAt Absent t
         else t
  else t.

(** The virtual ageInDays:
    Math.floor((Date.now() - this.createdAt) / (1000 * 60 * 60 * 24)). *)
Definition ageInDays (now : Z) (t : TaskDoc) : Z :=
  (now - createdAt t) / (1000 * 60 * 60 * 24).

(** The virtual isOverdue:
    this.dueDate && this.dueDate < new Date() && this.status !== 'completed',
    read as a condition. *)
Definition isOverdue (now : Z) (t : TaskDoc) : bool :=
  match dueDate t with
  | At d => (d <? now) && negb (Status_eqb (status t) completed)
  | _ => false
  end.

(** The store's comparison of two values of different types goes by the
    rank of the type: a missing field ranks below null, null below every
    Date.  Two Dates compare by instant. *)
Definition bson_rank (d : DateField) : Z :=
  match d with Absent => 0 | IsNull => 5 | At _ => 45 end.

Definition bson_compare (a b : DateField) : comparison :=
  match a, b with
  | At x, At y => x ?= y
  | _, _ => bson_rank a ?= bson_rank b
  end.

(** The aggregation operators $lt and $ne on such values. *)
Definition agg_lt (a b : DateField) : bool :=
  match bson_compare a b with Lt => true | _ => false end.

Definition agg_ne (a b : DateField) : bool :=
  match bson_compare a b with Eq => false | _ => true end.

Record Stats : Set := mkStats {
  total : Z;
  s_completed : Z;
  s_inProgress : Z;
  s_todo : Z;
  s_highPriority : Z;
  s_overdue : Z
}.

(** The $match stage of getTaskStats. *)
Definition stats_match (userId : string) (t : TaskDoc) : bool :=
  String.eqb (user t) userId && Bool.eqb (isArchived t) false.

(** The condition of the overdue sum: $and of $lt, $ne and $ne. *)
Definition overdue_cond (now : Z) (t : TaskDoc) : bool :=
  agg_lt (dueDate t) (At now)
  && negb (Status_eqb (status t) completed)
  && agg_ne (dueDate t) IsNull.

(** The $group stage with _id null: one group document when at least one
    document reaches the stage, none otherwise. *)
Definition stats_group (now : Z) (docs : list TaskDoc) : list Stats :=
  match docs with
  | [] => []
  | _ :: _ =>
      [ mkStats (Z.of_nat (List.length docs))
                (count_if (fun t => Status_eqb (status t) completed) docs)
                (count_if (fun t => Status_eqb (status t) in_progress) docs)
                (count_if (fun t => Status_eqb (status t) todo) docs)
                (count_if (fun t => Priority_eqb (priority t) high) docs)
                (count_if (overdue_cond now) docs) ]
  end.

Definition aggregate_stats (now : Z) (userId : string) (coll : list TaskDoc) : list Stats :=
  stats_group now (filter (stats_match userId) coll).

Definition zero_stats : Stats := mkStats 0 0 0 0 0 0.

(** TaskSchema.statics.getTaskStats: stats[0] || { total: 0, ... }. *)
Definition getTaskStats (now : Z) (userId : string) (coll : list TaskDoc) : Stats :=
  match aggregate_stats now userId coll with
  | s :: _ => s
  | [] => zero_stats
  end.

End Model.

(** ** server/controllers/taskController.js *)

Module Controller.
Import Model.

(** What a handler leaves behind: a JSON response (HTTP status, the
    success flag, the message and the payload), or the error handed to
    next(error). *)
Inductive Payload : Type :=
| NoData
| OneTask (t : TaskDoc)
| Page (count total page limit pages : Z) (data : list TaskDoc)
| StatsData (s : Stats)
| ModifiedCount (n : Z).

Inductive Reply : Type :=
| Json (code : Z) (success : bool) (message : option string) (payload : Payload)
| NextError (msg : string).

Definition not_found : Reply := Json 404 false (Some "Task not found") NoData.

Definition TaskDoc_eq_dec (a b : TaskDoc) : {a = b} + {a <> b}.
Proof.
  repeat decide equality; try apply string_dec; try apply Z.eq_dec.
Defined.

(** *** The collection *)

(** Task.findOne({ _id, user }). *)
Definition findOne (id uid : string) (coll : list TaskDoc) : option TaskDoc :=
  find (fun t => String.eqb (_id t) id && String.eqb (user t) uid) coll.

(** Replace the first document whose _id is [id]. *)
Fixpoint update_by_id (id : string) (f : TaskDoc -> TaskDoc) (coll : list TaskDoc) : list TaskDoc :=
  match coll with
  | [] => []
  | t :: rest =>
      if String.eqb (_id t) id then f t :: rest else t :: update_by_id id f rest
  end.

(** Remove the first document whose _id is [id]. *)
Fixpoint delete_by_id (id : string) (coll : list TaskDoc) : list TaskDoc :=
  match coll with
  | [] => []
  | t :: rest => if String.eqb (_id t) id then rest else t :: delete_by_id id rest
  end.

(** *** Request bodies

    The bodies are the fields of the schema after casting (strings trimmed,
    dates parsed, enum strings recognised).  [None] is a field the client
    did not send; in a Date field [Some None] is an explicit null.

    Task.create takes every path of the schema from the body, the two the
    schema adds by itself included: an _id the client sent is the _id of
    the document, and a createdAt it sent is kept by the timestamps of the
    save ([None] there also stands for null, which the save replaces).
    An updatedAt in the body is overwritten by the save and is not kept
    here. *)

Record CreateBody : Set := mkCreate {
  c_title : string;
  c_description : option string;
  c_priority : Priority;
  c_status : Status;
  c_user : option string;
  c_dueDate : option (option Z);
  c_completedAt : option (option Z);
  c_tags : list string;
  c_isArchived : option bool;
  c_id : option string;
  c_createdAt : option Z
}.

Record Patch : Set := mkPatch {
  p_title : option string;
  p_description : option string;
  p_priority : option Priority;
  p_status : option Status;
  p_user : option string;
  p_dueDate : option (option Z);
  p_completedAt : option (option Z);
  p_tags : option (list string);
  p_isArchived : option bool
}.

Definition date_of (o : option Z) : DateField :=
  match o with Some d => At d | None => IsNull end.

Definition sent_date (o : option (option Z)) : DateField :=
  match o with Some v => date_of v | None => Absent end.

Definition or_else {A : Type} (o : option A) (d : A) : A :=
  match o with Some a => a | None => d end.

(** The schema's validators: title required and at most 200 characters,
    description at most 1000, every tag at most 50. *)
Definition title_ok (s : string) : bool :=
  negb (String.eqb s "") && (String.length s <=? 200)%nat.

Definition description_ok (s : string) : bool := (String.length s <=? 1000)%nat.

Definition tags_ok (l : list string) : bool :=
  forallb (fun s => (String.length s <=? 50)%nat) l.

Definition doc_valid (t : TaskDoc) : bool :=
  title_ok (title t)
  && match description t with Some d => description_ok d | None => true end
  && tags_ok (tags t).

(** runValidators: only the paths the update sets are validated. *)
Definition patch_valid (p : Patch) : bool :=
  match p_title p with Some s => title_ok s | None => true end
  && match p_description p with Some d => description_ok d | None => true end
  && match p_tags p with Some l => tags_ok l | None => true end.

(** What findByIdAndUpdate and updateMany write into one document: every
    field of the update, and updatedAt (the schema has timestamps).  No
    'save' middleware runs on these two calls. *)
Definition apply_patch (now : Z) (p : Patch) (t : TaskDoc) : TaskDoc :=
  mkTask (_id t)
         (or_else (p_title p) (title t))
         (match p_description p with Some d => Some d | None => description t end)
         (or_else (p_priority p) (priority t))
         (or_else (p_status p) (status t))
         (or_else (p_user p) (user t))
         (match p_dueDate p with Some v => date_of v | None => dueDate t end)
         (match p_completedAt p with Some v => date_of v | None => completedAt t end)
         (or_else (p_tags p) (tags t))
         (or_else (p_isArchived p) (isArchived t))
         (createdAt t)
         now.

(** *** Handlers

    A handler runs behind the protect middleware, which supplies
    req.user.id (here [uid]), and behind the validators of its route.
    populate('user', 'username email') only decorates the owner in the
    response; the model answers with the task as stored. *)

(** getTask. *)
Definition getTask (uid id : string) (coll : list TaskDoc) : Reply :=
  match findOne id uid coll with
  | None => not_found
  | Some task => Json 200 true None (OneTask task)
  end.

(** req.body.user = u. *)
Definition set_c_user (u : string) (b : CreateBody) : CreateBody :=
  mkCreate (c_title b) (c_description b) (c_priority b) (c_status b) (Some u)
           (c_dueDate b) (c_completedAt b) (c_tags b) (c_isArchived b)
           (c_id b) (c_createdAt b).

(** Task.create(body).  [newId] is the identifier a document gets whose
    body has no _id, [now] the instant of the save.  The timestamps of the
    save set createdAt to [now] unless the body has one, and updatedAt of
    a new document to its createdAt.  The path user is required.  The
    document is new and its status was given, so isModified('status')
    holds in the save hook.  The store has one document per _id: the
    insert of a second one fails with the duplicate key error E11000. *)
Definition new_doc (newId : string) (now : Z) (owner : string) (b : CreateBody) : TaskDoc :=
  let created := or_else (c_createdAt b) now in
  mkTask (or_else (c_id b) newId) (c_title b) (c_description b) (c_priority b) (c_status b)
         owner (sent_date (c_dueDate b)) (sent_date (c_completedAt b))
         (c_tags b) (or_else (c_isArchived b) false) created created.

Definition duplicate_key : string := "E11000 duplicate key error".

Definition Task_create (newId : string) (now : Z) (b : CreateBody)
    (coll : list TaskDoc) : result TaskDoc * list TaskDoc :=
  match c_user b with
  | None => (Throw "ValidationError", coll)
  | Some owner =>
      let doc := new_doc newId now owner b in
      if doc_valid doc then
        let task := pre_save true now doc in
        if existsb (String.eqb (_id doc)) (map _id coll) then (Throw duplicate_key, coll)
        else (Ok task, (coll ++ [task])%list)
      else (Throw "ValidationError", coll)
  end.

(** createTask: req.body.user = req.user.id, then Task.create(req.body). *)
Definition createTask (newId : string) (now : Z) (uid : string) (b : CreateBody)
    (coll : list TaskDoc) : Reply * list TaskDoc :=
  let body := set_c_user uid b in
  match Task_create newId now body coll with
  | (Ok task, coll') =>
      (Json 201 true (Some "Task created successfully") (OneTask task), coll')
  | (Throw e, coll') => (NextError e, coll')
  end.

(** updateTask. *)
Definition updateTask (now : Z) (uid id : string) (p : Patch)
    (coll : list TaskDoc) : Reply * list TaskDoc :=
  match findOne id uid coll with
  | None => (not_found, coll)
  | Some _ =>
      if patch_valid p then
        let coll' := update_by_id id (apply_patch now p) coll in
        match find (fun t => String.eqb (_id t) id) coll' with
        | Some task => (Json 200 true (Some "Task updated successfully") (OneTask task), coll')
        | None => (NextError "TypeError", coll')
        end
      else (NextError "ValidationError", coll)
  end.

(** deleteTask. *)
Definition deleteTask (uid id : string) (coll : list TaskDoc) : Reply * list TaskDoc :=
  match findOne id uid coll with
  | None => (not_found, coll)
  | Some task =>
      (Json 200 true (Some "Task deleted successfully") NoData, delete_by_id (_id task) coll)
  end.

(** The controller's getTaskStats. *)
Definition getTaskStats (now : Z) (uid : string) (coll : list TaskDoc) : Reply :=
  Json 200 true None (StatsData (Model.getTaskStats now uid coll)).

(** toggleArchiveTask: the flag is flipped and the document saved.  Status
    is not modified, so the save hook finds isModified('status') false and
    changes nothing; the save writes the modified path and updatedAt into
    the stored document of that _id. *)
Definition toggleArchiveTask (now : Z) (uid id : string)
    (coll : list TaskDoc) : Reply * list TaskDoc :=
  match findOne id uid coll with
  | None => (not_found, coll)
  | Some task =>
      let task' :=
        set_updatedAt now (pre_save false now (set_isArchived (negb (isArchived task)) task)) in
      (Json 200 true
            (Some (if isArchived task' then "Task archived successfully"
                   else "Task unarchived successfully"))
            (OneTask task'),
       update_by_id (_id task)
                    (fun stored => set_updatedAt now (set_isArchived (isArchived task') stored))
                    coll)
  end.

(** Task.updateMany({ _id: { $in: taskIds }, user }, updates): the filter,
    the documents after the write, and modifiedCount, the number of
    documents the write changed. *)
Definition bulk_match (uid : string) (taskIds : list string) (t : TaskDoc) : bool :=
  existsb (String.eqb (_id t)) taskIds && String.eqb (user t) uid.

Definition updateMany (now : Z) (uid : string) (taskIds : list string) (p : Patch)
    (coll : list TaskDoc) : list TaskDoc :=
  map (fun t => if bulk_match uid taskIds t then apply_patch now p t else t) coll.

Definition modified (now : Z) (uid : string) (taskIds : list string) (p : Patch)
    (t : TaskDoc) : bool :=
  bulk_match uid taskIds t
  && (if TaskDoc_eq_dec (apply_patch now p t) t then false else true).

(** bulkUpdateTasks.  [taskIds] is [None] when the body has no taskIds or
    it is not an array. *)
Definition bulkUpdateTasks (now : Z) (uid : string) (taskIds : option (list string))
    (updates : Patch) (coll : list TaskDoc) : Reply * list TaskDoc :=
  match taskIds with
  | None | Some [] =>
      (Json 400 false (Some "Task IDs array is required") NoData, coll)
  | Some ids =>
      if patch_valid updates then
        let n := count_if (modified now uid ids updates) coll in
        (Json 200 true (Some (show_Z n ++ " tasks updated successfully")) (ModifiedCount n),
         updateMany now uid ids updates coll)
      else (NextError "ValidationError", coll)
  end.

(** *** The task list: validateTaskQuery and getTasks

    The query is read after the validator's isIn and isInt checks have
    recognised its strings: priority, status, sortBy and sortOrder are
    values of their enums, page and limit the integers their strings
    denote.  The bounds of isInt are checked here.  includeArchived is not
    validated and stays a string. *)

Inductive SortField : Set := by_title | by_priority | by_status | by_createdAt | by_updatedAt.
Inductive SortOrder : Set := asc | desc.

Record TaskQuery : Set := mkQuery {
  q_page : option Z;
  q_limit : option Z;
  q_search : option string;
  q_priority : option Priority;
  q_status : option Status;
  q_sortBy : option SortField;
  q_sortOrder : option SortOrder;
  q_includeArchived : option string
}.

(** query('page').optional().isInt({ min: 1 }) and
    query('limit').optional().isInt({ min: 1, max: 100 }). *)
Definition validateTaskQuery (q : TaskQuery) : bool :=
  match q_page q with Some p => 1 <=? p | None => true end
  && match q_limit q with Some l => (1 <=? l) && (l <=? 100) | None => true end.

Definition validation_failed : Reply := Json 400 false (Some "Validation failed") NoData.

(** The order of the store on the sorted path.  priority, status and title
    are stored strings and compare as strings, code unit by code unit; the
    two timestamps compare as instants. *)
Definition stored_compare (f : SortField) (a b : TaskDoc) : comparison :=
  match f with
  | by_title => String.compare (title a) (title b)
  | by_priority => String.compare (priority_str (priority a)) (priority_str (priority b))
  | by_status => String.compare (status_str (status a)) (status_str (status b))
  | by_createdAt => createdAt a ?= createdAt b
  | by_updatedAt => updatedAt a ?= updatedAt b
  end.

(** sortObj[sortBy] = sortOrder === 'asc' ? 1 : -1. *)
Definition sort_le (f : SortField) (o : SortOrder) (a b : TaskDoc) : bool :=
  match o, stored_compare f a b with
  | asc, Gt => false
  | desc, Lt => false
  | _, _ => true
  end.

Section Listing.

(** [regex_i pattern s]: the store's $regex match with option i. *)
Variable regex_i : string -> string -> bool.

(** The query object of getTasks. *)
Definition query_match (uid : string) (q : TaskQuery) (t : TaskDoc) : bool :=
  String.eqb (user t) uid
  && (match q_includeArchived q with
      | Some s => if String.eqb s "true" then true else Bool.eqb (isArchived t) false
      | None => Bool.eqb (isArchived t) false
      end)
  && (match q_search q with
      | Some s =>
          if String.eqb s "" then true
          else regex_i s (title t)
               || match description t with Some d => regex_i s d | None => false end
      | None => true
      end)
  && (match q_priority q with Some p => Priority_eqb (priority t) p | None => true end)
  && (match q_status q with Some s => Status_eqb (status t) s | None => true end).

(** getTasks, for a query the validator let through.  Tasks that are
    equal on the sorted field come here in the order of the collection;
    the store leaves their order open, from one query to the next as
    well, so what is stated of list responses either holds for every
    order of them or is stated for matches that differ on the sorted
    field. *)
Definition getTasks (uid : string) (q : TaskQuery) (coll : list TaskDoc) : Reply :=
  let page := or_else (q_page q) 1 in
  let limit := or_else (q_limit q) 10 in
  let sortBy := or_else (q_sortBy q) by_createdAt in
  let sortOrder := or_else (q_sortOrder q) desc in
  let matched := filter (query_match uid q) coll in
  let tasks :=
    firstn (Z.to_nat limit)
           (skipn (Z.to_nat ((page - 1) * limit)) (sort_by (sort_le sortBy sortOrder) matched)) in
  let total := Z.of_nat (List.length matched) in
  Json 200 true None
       (Page (Z.of_nat (List.length tasks)) total page limit (ceil_div total limit) tasks).

(** GET /api/tasks: router.route('/').get(validateTaskQuery, getTasks). *)
Definition listTasks (uid : string) (q : TaskQuery) (coll : list TaskDoc) : Reply :=
  if validateTaskQuery q then getTasks uid q coll else validation_failed.

End Listing.

End Controller.

(** ** btoa and atob

    btoa writes three code units as four characters of the base64 alphabet
    and pads the last group with '='.  atob is the forgiving decoder of the
    platform: ASCII whitespace is dropped, one or two trailing '=' are
    dropped when the length is a multiple of four, a length of 1 modulo 4
    or a character outside the alphabet is an error, and the bits left
    over in the last group are discarded. *)

Module Base64.

(** Six bits, the most significant first. *)
Definition sextet : Set := (bool * bool * bool * bool * bool * bool)%type.

Definition N_of_sextet (x : sextet) : N :=
  let '(b5, b4, b3, b2, b1, b0) := x in
  (N.b2n b5 * 32 + N.b2n b4 * 16 + N.b2n b3 * 8 + N.b2n b2 * 4 + N.b2n b1 * 2 + N.b2n b0)%N.

Definition sextet_of_N (n : N) : sextet :=
  (N.testbit n 5, N.testbit n 4, N.testbit n 3, N.testbit n 2, N.testbit n 1, N.testbit n 0).

(** A-Z, a-z, 0-9, '+', '/'. *)
Definition b64_char (x : sextet) : ascii :=
  let n := N_of_sextet x in
  if (n <? 26)%N then ascii_of_N (65 + n)
  else if (n <? 52)%N then ascii_of_N (71 + n)
  else if (n <? 62)%N then ascii_of_N (n - 4)
  else if (n =? 62)%N then "+"%char
  else "/"%char.

Definition b64_val (c : ascii) : option sextet :=
  let n := N_of_ascii c in
  if ((65 <=? n) && (n <=? 90))%N then Some (sextet_of_N (n - 65))
  else if ((97 <=? n) && (n <=? 122))%N then Some (sextet_of_N (n - 71))
  else if ((48 <=? n) && (n <=? 57))%N then Some (sextet_of_N (n + 4))
  else if (n =? 43)%N then Some (sextet_of_N 62)
  else if (n =? 47)%N then Some (sextet_of_N 63)
  else None.

(** The characters of the data, without the padding. *)
Fixpoint btoa_data (s : string) : list ascii :=
  match s with
  | EmptyString => []
  | String (Ascii a0 a1 a2 a3 a4 a5 a6 a7) EmptyString =>
      [ b64_char (a7, a6, a5, a4, a3, a2);
        b64_char (a1, a0, false, false, false, false) ]
  | String (Ascii a0 a1 a2 a3 a4 a5 a6 a7)
      (String (Ascii b0 b1 b2 b3 b4 b5 b6 b7) EmptyString) =>
      [ b64_char (a7, a6, a5, a4, a3, a2);
        b64_char (a1, a0, b7, b6, b5, b4);
        b64_char (b3, b2, b1, b0, false, false) ]
  | String (Ascii a0 a1 a2 a3 a4 a5 a6 a7)
      (String (Ascii b0 b1 b2 b3 b4 b5 b6 b7)
         (String (Ascii c0 c1 c2 c3 c4 c5 c6 c7) rest)) =>
      b64_char (a7, a6, a5, a4, a3, a2)
      :: b64_char (a1, a0, b7, b6, b5, b4)
      :: b64_char (b3, b2, b1, b0, c7, c6)
      :: b64_char (c5, c4, c3, c2, c1, c0)
      :: btoa_data rest
  end.

(** The padding of the last group: two '=' after one code unit, one
    after two. *)
Fixpoint padding (s : string) : list ascii :=
  match s with
  | EmptyString => []
  | String _ EmptyString => ["="; "="]%char
  | String _ (String _ EmptyString) => ["="]%char
  | String _ (String _ (String _ rest)) => padding rest
  end.

Definition btoa (s : string) : string :=
  string_of_list_ascii (btoa_data s ++ padding s)%list.

Definition is_ascii_whitespace (c : ascii) : bool :=
  let n := N_of_ascii c in
  ((n =? 9) || (n =? 10) || (n =? 12) || (n =? 13) || (n =? 32))%N.

Definition strip_padding (l : list ascii) : list ascii :=
  if (List.length l mod 4 =? 0)%nat then
    match rev l with
    | "="%char :: "="%char :: r => rev r
    | "="%char :: r => rev r
    | _ => l
    end
  else l.

Fixpoint decode_chars (l : list ascii) : option string :=
  match l with
  | [] => Some EmptyString
  | [_] => None
  | [p; q] =>
      match b64_val p, b64_val q with
      | Some (a7, a6, a5, a4, a3, a2), Some (a1, a0, _, _, _, _) =>
          Some (String (Ascii a0 a1 a2 a3 a4 a5 a6 a7) EmptyString)
      | _, _ => None
      end
  | [p; q; r] =>
      match b64_val p, b64_val q, b64_val r with
      | Some (a7, a6, a5, a4, a3, a2), Some (a1, a0, b7, b6, b5, b4),
        Some (b3, b2, b1, b0, _, _) =>
          Some (String (Ascii a0 a1 a2 a3 a4 a5 a6 a7)
                  (String (Ascii b0 b1 b2 b3 b4 b5 b6 b7) EmptyString))
      | _, _, _ => None
      end
  | p :: q :: r :: t :: rest =>
      match b64_val p, b64_val q, b64_val r, b64_val t, decode_chars rest with
      | Some (a7, a6, a5, a4, a3, a2), Some (a1, a0, b7, b6, b5, b4),
        Some (b3, b2, b1, b0, c7, c6), Some (c5, c4, c3, c2, c1, c0), Some tail =>
          Some (String (Ascii a0 a1 a2 a3 a4 a5 a6 a7)
                  (String (Ascii b0 b1 b2 b3 b4 b5 b6 b7)
                     (String (Ascii c0 c1 c2 c3 c4 c5 c6 c7) tail)))
      | _, _, _, _, _ => None
      end
  end.

(** [None] is the InvalidCharacterError atob throws. *)
Definition atob (s : string) : option string :=
  decode_chars
    (strip_padding (filter (fun c => negb (is_ascii_whitespace c)) (list_ascii_of_string s))).

End Base64.

(** ** JSON.stringify and JSON.parse

    The values are those of JSON with integer numbers and strings of code
    units below 256.  A number literal with a fraction or an exponent and
    an escape above \u00ff are not in this fragment: [JSON_parse] gives
    [None] for them, as it does for a text that is not JSON. *)

Module Json.

#[warnings="-register-all"]
Inductive jsval : Type :=
| JNull
| JBool (b : bool)
| JNum (z : Z)
| JStr (s : string)
| JArr (items : list jsval)
| JObj (members : list (string * jsval)).

(** The double quote, code unit 34. *)
Definition dquote : ascii := Ascii false true false false false true false false.

(** *** JSON.stringify *)

Definition hex_digit (n : N) : ascii :=
  if (n <? 10)%N then ascii_of_N (48 + n) else ascii_of_N (87 + n).

(** One code unit inside a string literal. *)
Definition escape_char (c : ascii) : string :=
  let n := N_of_ascii c in
  if (n =? 34)%N then String "\" (String dquote EmptyString)
  else if (n =? 92)%N then "\\"
  else if (n =? 8)%N then "\b"
  else if (n =? 12)%N then "\f"
  else if (n =? 10)%N then "\n"
  else if (n =? 13)%N then "\r"
  else if (n =? 9)%N then "\t"
  else if (n <? 32)%N then
    "\u00" ++ String (hex_digit (n / 16)) (String (hex_digit (n mod 16)) EmptyString)
  else String c EmptyString.

Fixpoint escape (s : string) : string :=
  match s with
  | EmptyString => EmptyString
  | String c rest => escape_char c ++ escape rest
  end.

Definition quote (s : string) : string :=
  String dquote (escape s ++ String dquote EmptyString).

Fixpoint join_with (sep : string) (l : list string) : string :=
  match l with
  | [] => ""
  | [x] => x
  | x :: rest => x ++ sep ++ join_with sep rest
  end.

(** Members are written in the order of the list, the order of the
    object's own keys. *)
Fixpoint JSON_stringify (v : jsval) : string :=
  match v with
  | JNull => "null"
  | JBool true => "true"
  | JBool false => "false"
  | JNum z => show_Z z
  | JStr s => quote s
  | JArr items => "[" ++ join_with "," (map JSON_stringify items) ++ "]"
  | JObj members =>
      "{" ++ join_with "," (map (fun kv => quote (fst kv) ++ ":" ++ JSON_stringify (snd kv)) members)
          ++ "}"
  end.

(** *** JSON.parse, one character at a time

    The parser keeps the open arrays and objects on a stack.  A frame is
    an array with the items read so far, an object with the members read
    so far, or the key whose value is being read (all newest first). *)

Inductive frame : Type :=
| FArr (acc : list jsval)
| FObj (acc : list (string * jsval))
| FKey (k : string).

Inductive mode : Type :=
| MValue
| MArrFirst
| MObjFirst
| MObjKey
| MColon (k : string)
| MStr (iskey : bool) (acc : list ascii)
| MEsc (iskey : bool) (acc : list ascii)
| MHex (iskey : bool) (acc : list ascii) (digits : list N)
| MMinus
| MZero (neg : bool)
| MInt (neg : bool) (acc : list ascii)
| MLit (rest : string) (v : jsval)
| MAfter
| MDone (v : jsval).

Definition pstate : Type := (mode * list frame)%type.

Definition is_json_ws (c : ascii) : bool :=
  let n := N_of_ascii c in ((n =? 32) || (n =? 9) || (n =? 10) || (n =? 13))%N.

Definition is_digit (c : ascii) : bool :=
  let n := N_of_ascii c in ((48 <=? n) && (n <=? 57))%N.

Definition hex_val (c : ascii) : option N :=
  let n := N_of_ascii c in
  if ((48 <=? n) && (n <=? 57))%N then Some (n - 48)%N
  else if ((97 <=? n) && (n <=? 102))%N then Some (n - 87)%N
  else if ((65 <=? n) && (n <=? 70))%N then Some (n - 55)%N
  else None.

Definition string_of_rev (acc : list ascii) : string := string_of_list_ascii (rev acc).

(** A value is complete: it is the result, an item of the array on top
    of the stack, or the value of the pending key. *)
Definition complete (v : jsval) (stk : list frame) : option pstate :=
  match stk with
  | [] => Some (MDone v, [])
  | FArr acc :: r => Some (MAfter, FArr (v :: acc) :: r)
  | FKey k :: FObj acc :: r => Some (MAfter, FObj ((k, v) :: acc) :: r)
  | _ => None
  end.

Definition number_of (neg : bool) (acc : list ascii) : option jsval :=
  match NilEmpty.uint_of_string (string_of_rev acc) with
  | Some d => Some (JNum (if neg then - Z.of_N (N.of_uint d) else Z.of_N (N.of_uint d)))
  | None => None
  end.

(** After a complete value: a separator, a closing bracket or whitespace. *)
Definition step_after (m : mode) (stk : list frame) (c : ascii) : option pstate :=
  if is_json_ws c then Some (m, stk)
  else
    match m, stk with
    | MAfter, FArr acc :: r =>
        if Ascii.eqb c "," then Some (MValue, stk)
        else if Ascii.eqb c "]" then complete (JArr (rev acc)) r
        else None
    | MAfter, FObj acc :: r =>
        if Ascii.eqb c "," then Some (MObjKey, stk)
        else if Ascii.eqb c "}" then complete (JObj (rev acc)) r
        else None
    | _, _ => None
    end.

(** Where a value may start. *)
Definition step_value (stk : list frame) (c : ascii) : option pstate :=
  if Ascii.eqb c "{" then Some (MObjFirst, FObj [] :: stk)
  else if Ascii.eqb c "[" then Some (MArrFirst, FArr [] :: stk)
  else if Ascii.eqb c dquote then Some (MStr false [], stk)
  else if Ascii.eqb c "-" then Some (MMinus, stk)
  else if Ascii.eqb c "0" then Some (MZero false, stk)
  else if is_digit c then Some (MInt false [c], stk)
  else if Ascii.eqb c "t" then Some (MLit "rue" (JBool true), stk)
  else if Ascii.eqb c "f" then Some (MLit "alse" (JBool false), stk)
  else if Ascii.eqb c "n" then Some (MLit "ull" JNull, stk)
  else None.

Definition end_string (iskey : bool) (acc : list ascii) (stk : list frame) : option pstate :=
  if iskey then Some (MColon (string_of_rev acc), stk)
  else complete (JStr (string_of_rev acc)) stk.

Definition settle_number (neg : bool) (acc : list ascii) (stk : list frame) (c : ascii)
    : option pstate :=
  match number_of neg acc with
  | Some v =>
      match complete v stk with
      | Some (m, stk') => step_after m stk' c
      | None => None
      end
  | None => None
  end.

Definition step (st : pstate) (c : ascii) : option pstate :=
  let '(m, stk) := st in
  match m with
  | MValue => if is_json_ws c then Some st else step_value stk c
  | MArrFirst =>
      if is_json_ws c then Some st
      else if Ascii.eqb c "]" then
        match stk with
        | FArr acc :: r => complete (JArr (rev acc)) r
        | _ => None
        end
      else step_value stk c
  | MObjFirst =>
      if is_json_ws c then Some st
      else if Ascii.eqb c "}" then
        match stk with
        | FObj acc :: r => complete (JObj (rev acc)) r
        | _ => None
        end
      else if Ascii.eqb c dquote then Some (MStr true [], stk)
      else None
  | MObjKey =>
      if is_json_ws c then Some st
      else if Ascii.eqb c dquote then Some (MStr true [], stk)
      else None
  | MColon k =>
      if is_json_ws c then Some st
      else if Ascii.eqb c ":" then Some (MValue, FKey k :: stk)
      else None
  | MStr iskey acc =>
      if Ascii.eqb c dquote then end_string iskey acc stk
      else if Ascii.eqb c "\" then Some (MEsc iskey acc, stk)
      else if (N_of_ascii c <? 32)%N then None
      else Some (MStr iskey (c :: acc), stk)
  | MEsc iskey acc =>
      if Ascii.eqb c dquote then Some (MStr iskey (c :: acc), stk)
      else if Ascii.eqb c "\" then Some (MStr iskey (c :: acc), stk)
      else if Ascii.eqb c "/" then Some (MStr iskey (c :: acc), stk)
      else if Ascii.eqb c "b" then Some (MStr iskey (ascii_of_N 8 :: acc), stk)
      else if Ascii.eqb c "f" then Some (MStr iskey (ascii_of_N 12 :: acc), stk)
      else if Ascii.eqb c "n" then Some (MStr iskey (ascii_of_N 10 :: acc), stk)
      else if Ascii.eqb c "r" then Some (MStr iskey (ascii_of_N 13 :: acc), stk)
      else if Ascii.eqb c "t" then Some (MStr iskey (ascii_of_N 9 :: acc), stk)
      else if Ascii.eqb c "u" then Some (MHex iskey acc [], stk)
      else None
  | MHex iskey acc digits =>
      match hex_val c with
      | None => None
      | Some h =>
          match digits with
          | [d2; d1; d0] =>
              let code := (((d0 * 16 + d1) * 16 + d2) * 16 + h)%N in
              if (code <? 256)%N then Some (MStr iskey (ascii_of_N code :: acc), stk)
              else None
          | _ => Some (MHex iskey acc (h :: digits), stk)
          end
      end
  | MMinus =>
      if Ascii.eqb c "0" then Some (MZero true, stk)
      else if is_digit c then Some (MInt true [c], stk)
      else None
  | MZero neg =>
      if is_digit c then None
      else settle_number neg ["0"%char] stk c
  | MInt neg acc =>
      if is_digit c then Some (MInt neg (c :: acc), stk)
      else settle_number neg acc stk c
  | MLit rest v =>
      match rest with
      | String c' EmptyString => if Ascii.eqb c c' then complete v stk else None
      | String c' rest' => if Ascii.eqb c c' then Some (MLit rest' v, stk) else None
      | EmptyString => None
      end
  | MAfter => step_after MAfter stk c
  | MDone v => step_after (MDone v) stk c
  end.

Fixpoint run (st : pstate) (s : string) : option pstate :=
  match s with
  | EmptyString => Some st
  | String c rest =>
      match step st c with
      | Some st' => run st' rest
      | None => None
      end
  end.

(** The end of the text. *)
Definition finish (st : pstate) : option jsval :=
  match st with
  | (MDone v, []) => Some v
  | (MZero neg, []) => number_of neg ["0"%char]
  | (MInt neg acc, []) => number_of neg acc
  | _ => None
  end.

(** [None] is the SyntaxError JSON.parse throws. *)
Definition JSON_parse (s : string) : option jsval :=
  match run (MValue, []) s with
  | Some st => finish st
  | None => None
  end.

(** Reading the property [k] of a parsed value: the last member with that
    key for an object, undefined ([None]) for an array or a primitive
    without such a property, a TypeError for null. *)
Fixpoint last_member (k : string) (members : list (string * jsval)) : option jsval :=
  match members with
  | [] => None
  | (k', v) :: rest =>
      match last_member k rest with
      | Some v' => Some v'
      | None => if String.eqb k' k then Some v else None
      end
  end.

Definition get_prop (v : jsval) (k : string) : result (option jsval) :=
  match v with
  | JNull => Throw "TypeError"
  | JObj members => Ok (last_member k members)
  | _ => Ok None
  end.

End Json.

(** ** src/utils/auth.ts *)

Module Auth.
Import Json.

(** The User of the client types.  createdAt holds the ISO text of an
    instant; the model keeps the instant. *)
Record User : Set := mkUser {
  id : string;
  username : string;
  email : string;
  createdAt : Z
}.

(** 24 * 60 * 60 * 1000. *)
Definition TTL : Z := 24 * 60 * 60 * 1000.

Definition payload_of (now : Z) (u : User) : jsval :=
  JObj [ ("id", JStr (id u));
         ("username", JStr (username u));
         ("email", JStr (email u));
         ("exp", JNum (now + TTL)) ].

(** generateToken; [now] is Date.now(). *)
Definition generateToken (now : Z) (u : User) : string :=
  Base64.btoa (JSON_stringify (payload_of now u)).

(** What verifyToken returns besides null.  The fields are whatever the
    payload held, [None] being undefined; createdAt is the payload's when
    that is truthy and the ISO text of the current instant otherwise. *)
Inductive Stamp : Type :=
| FromPayload (v : jsval)
| IsoOfNow (now : Z).

Record Verified : Type := mkVerified {
  v_id : option jsval;
  v_username : option jsval;
  v_email : option jsval;
  v_createdAt : Stamp
}.

Definition is_js_space (c : ascii) : bool :=
  let n := N_of_ascii c in
  (((9 <=? n) && (n <=? 13)) || (n =? 32) || (n =? 160))%N.

Fixpoint drop_spaces (s : string) : string :=
  match s with
  | String c rest => if is_js_space c then drop_spaces rest else s
  | EmptyString => EmptyString
  end.

Definition rev_string (s : string) : string :=
  string_of_list_ascii (rev (list_ascii_of_string s)).

Definition trim (s : string) : string :=
  rev_string (drop_spaces (rev_string (drop_spaces s))).

(** ToNumber; [None] is NaN.  A string counts when, trimmed, it is empty or
    a signed run of decimal digits; the other numeric spellings (fraction,
    exponent, hexadecimal, Infinity) are outside the fragment and read as
    NaN here. *)
Definition string_to_number (s : string) : option Z :=
  match trim s with
  | EmptyString => Some 0
  | String c rest =>
      let '(neg, digits) :=
        if Ascii.eqb c "-" then (true, rest)
        else if Ascii.eqb c "+" then (false, rest)
        else (false, String c rest) in
      match digits with
      | EmptyString => None
      | _ =>
          match NilEmpty.uint_of_string digits with
          | Some d => Some (if neg then - Z.of_N (N.of_uint d) else Z.of_N (N.of_uint d))
          | None => None
          end
      end
  end.

Fixpoint to_number (v : jsval) : option Z :=
  match v with
  | JNull => Some 0
  | JBool b => Some (if b then 1 else 0)
  | JNum z => Some z
  | JStr s => string_to_number s
  | JArr [] => Some 0
  | JArr [JBool _] => None
  | JArr [x] => to_number x
  | JArr _ => None
  | JObj _ => None
  end.

(** [v < n] for a value read from the payload and a number. *)
Definition lt_number (v : option jsval) (n : Z) : bool :=
  match v with
  | None => false
  | Some x => match to_number x with Some z => z <? n | None => false end
  end.

Definition js_truthy (v : option jsval) : bool :=
  match v with
  | None | Some JNull | Some (JBool false) | Some (JNum 0) | Some (JStr EmptyString) => false
  | Some _ => true
  end.

(** verifyToken; [now] is Date.now().  Whatever is thrown inside the try
    block is caught and answered with null. *)
Definition verifyToken (now : Z) (token : string) : option Verified :=
  match Base64.atob token with
  | None => None
  | Some text =>
      match JSON_parse text with
      | None => None
      | Some payload =>
          match get_prop payload "exp", get_prop payload "id",
                get_prop payload "username", get_prop payload "email",
                get_prop payload "createdAt" with
          | Ok exp, Ok i, Ok n, Ok e, Ok c =>
              if lt_number exp now then None
              else Some (mkVerified i n e
                           (match c with
                            | Some v => if js_truthy c then FromPayload v else IsoOfNow now
                            | None => IsoOfNow now
                            end))
          | _, _, _, _, _ => None
          end
      end
  end.

Section Hashing.

(** [sha256_hex bytes]: the SHA-256 digest of the UTF-8 text, in lower-case
    hexadecimal (TextEncoder, crypto.subtle.digest and the hex map). *)
Variable sha256_hex : string -> string.

Definition hashPassword (password : string) : string :=
  sha256_hex (password ++ "salt").

Definition comparePassword (password hash : string) : bool :=
  String.eqb (hashPassword password) hash.

End Hashing.

End Auth.

(** ** src/utils/api.ts *)

Module Api.
Import Model Auth.

(** The Task of the client types. *)
Record Task : Set := mkTask {
  t_id : string;
  t_userId : string;
  t_title : string;
  t_description : string;
  t_priority : Priority;
  t_status : Status;
  t_createdAt : Z;
  t_updatedAt : Z
}.

Record StoredUser : Set := mkStored {
  su_id : string;
  su_username : string;
  su_email : string;
  su_password : string;
  su_createdAt : Z
}.

(** const { password: _, ...userWithoutPassword } = user. *)
Definition without_password (u : StoredUser) : User :=
  mkUser (su_id u) (su_username u) (su_email u) (su_createdAt u).

(** The two arrays of TaskAPI. *)
Record Store : Set := mkStore {
  users : list StoredUser;
  tasks : list Task
}.

(** Omit<Task, 'id' | 'userId' | 'createdAt' | 'updatedAt'>. *)
Record TaskData : Set := mkData {
  d_title : string;
  d_description : string;
  d_priority : Priority;
  d_status : Status
}.

(** Partial<Task>. *)
Record Updates : Set := mkUpdates {
  u_id : option string;
  u_userId : option string;
  u_title : option string;
  u_description : option string;
  u_priority : option Priority;
  u_status : option Status;
  u_createdAt : option Z;
  u_updatedAt : option Z
}.

Definition or_else {A : Type} (o : option A) (d : A) : A :=
  match o with Some a => a | None => d end.

(** this.tasks.findIndex(t => t.id === taskId && t.userId === userId);
    [None] is -1. *)
Fixpoint findIndex {A : Type} (p : A -> bool) (l : list A) : option nat :=
  match l with
  | [] => None
  | x :: rest =>
      if p x then Some 0%nat
      else match findIndex p rest with Some i => Some (S i) | None => None end
  end.

Fixpoint set_nth {A : Type} (i : nat) (x : A) (l : list A) : list A :=
  match l, i with
  | [], _ => []
  | _ :: rest, O => x :: rest
  | y :: rest, S j => y :: set_nth j x rest
  end.

(** splice(i, 1). *)
Fixpoint remove_nth {A : Type} (i : nat) (l : list A) : list A :=
  match l, i with
  | [], _ => []
  | _ :: rest, O => rest
  | y :: rest, S j => y :: remove_nth j rest
  end.

Definition owns (userId taskId : string) (t : Task) : bool :=
  String.eqb (t_id t) taskId && String.eqb (t_userId t) userId.

Section WithDigest.

Variable sha256_hex : string -> string.

(** register.  [now] is the Date.now() of the id, [created] the instant of
    createdAt, [issued] the Date.now() inside generateToken. *)
Definition register (now created issued : Z) (username email password : string)
    (st : Store) : result (User * string) * Store :=
  match find (fun u => String.eqb (su_email u) email) (users st) with
  | Some _ => (Throw "User already exists with this email", st)
  | None =>
      let hashedPassword := hashPassword sha256_hex password in
      let user := mkStored (show_Z now) username email hashedPassword created in
      let st' := mkStore (users st ++ [user])%list (tasks st) in
      let userWithoutPassword := without_password user in
      (Ok (userWithoutPassword, generateToken issued userWithoutPassword), st')
  end.

(** login.  [issued] is the Date.now() inside generateToken. *)
Definition login (issued : Z) (email password : string) (st : Store)
    : result (User * string) :=
  match find (fun u => String.eqb (su_email u) email) (users st) with
  | None => Throw "Invalid credentials"
  | Some user =>
      if comparePassword sha256_hex password (su_password user) then
        let userWithoutPassword := without_password user in
        Ok (userWithoutPassword, generateToken issued userWithoutPassword)
      else Throw "Invalid credentials"
  end.

End WithDigest.

Definition getTasks (userId : string) (st : Store) : list Task :=
  filter (fun task => String.eqb (t_userId task) userId) (tasks st).

(** createTask.  [now] is the Date.now() of the id, [stamp] the instant of
    the two timestamps. *)
Definition createTask (now stamp : Z) (userId : string) (taskData : TaskData)
    (st : Store) : Task * Store :=
  let task := mkTask (show_Z now) userId (d_title taskData) (d_description taskData)
                     (d_priority taskData) (d_status taskData) stamp stamp in
  (task, mkStore (users st) (tasks st ++ [task])%list).

(** { ...this.tasks[taskIndex], ...updates, updatedAt: ... }. *)
Definition merge (stamp : Z) (old : Task) (updates : Updates) : Task :=
  mkTask (or_else (u_id updates) (t_id old))
         (or_else (u_userId updates) (t_userId old))
         (or_else (u_title updates) (t_title old))
         (or_else (u_description updates) (t_description old))
         (or_else (u_priority updates) (t_priority old))
         (or_else (u_status updates) (t_status old))
         (or_else (u_createdAt updates) (t_createdAt old))
         stamp.

Definition updateTask (stamp : Z) (userId taskId : string) (updates : Updates)
    (st : Store) : result Task * Store :=
  match findIndex (owns userId taskId) (tasks st) with
  | None => (Throw "Task not found", st)
  | Some taskIndex =>
      match nth_error (tasks st) taskIndex with
      | Some old =>
          let task := merge stamp old updates in
          (Ok task, mkStore (users st) (set_nth taskIndex task (tasks st)))
      | None => (Throw "Task not found", st) (* not reached: the index is findIndex's *)
      end
  end.

Definition deleteTask (userId taskId : string) (st : Store) : result unit * Store :=
  match findIndex (owns userId taskId) (tasks st) with
  | None => (Throw "Task not found", st)
  | Some taskIndex => (Ok tt, mkStore (users st) (remove_nth taskIndex (tasks st)))
  end.

End Api.

(** ** Dashboard.filteredAndSortedTasks *)

Module Dashboard.
Import Model Api.
Export Controller (SortField(..), SortOrder(..)).

Record FilterOptions : Set := mkFilters {
  search : string;
  f_priority : string;
  f_status : string;
  sortBy : SortField;
  sortOrder : SortOrder
}.

(** String.prototype.toLowerCase on code units below 256. *)
Definition lower_char (c : ascii) : ascii :=
  let n := N_of_ascii c in
  if ((65 <=? n) && (n <=? 90))%N then ascii_of_N (n + 32)
  else if ((192 <=? n) && (n <=? 222) && negb (n =? 215))%N then ascii_of_N (n + 32)
  else c.

Fixpoint toLowerCase (s : string) : string :=
  match s with
  | EmptyString => EmptyString
  | String c rest => String (lower_char c) (toLowerCase rest)
  end.

(** String.prototype.includes. *)
Fixpoint includes (s sub : string) : bool :=
  String.prefix sub s
  || match s with
     | EmptyString => false
     | String _ rest => includes rest sub
     end.

Definition matches (filters : FilterOptions) (task : Task) : bool :=
  let matchesSearch :=
    String.eqb (search filters) ""
    || includes (toLowerCase (t_title task)) (toLowerCase (search filters))
    || includes (toLowerCase (t_description task)) (toLowerCase (search filters)) in
  let matchesPriority :=
    String.eqb (f_priority filters) ""
    || String.eqb (priority_str (t_priority task)) (f_priority filters) in
  let matchesStatus :=
    String.eqb (f_status filters) ""
    || String.eqb (status_str (t_status task)) (f_status filters) in
  matchesSearch && matchesPriority && matchesStatus.

(** const priorityOrder = { high: 3, medium: 2, low: 1 }. *)
Definition priorityOrder (p : Priority) : Z :=
  match p with high => 3 | medium => 2 | low => 1 end.

(** const statusOrder = { todo: 1, 'in-progress': 2, completed: 3 }. *)
Definition statusOrder (s : Status) : Z :=
  match s with todo => 1 | in_progress => 2 | completed => 3 end.

(** aValue and bValue: a number or a string. *)
Inductive value : Set :=
| VNum (z : Z)
| VStr (s : string).

Definition sort_value (f : SortField) (t : Task) : value :=
  match f with
  | by_priority => VNum (priorityOrder (t_priority t))
  | by_status => VNum (statusOrder (t_status t))
  | by_createdAt => VNum (t_createdAt t)
  | by_updatedAt => VNum (t_updatedAt t)
  | by_title => VStr (t_title t)
  end.

(** [a > b] on two numbers or two strings. *)
Definition gt (a b : value) : bool :=
  match a, b with
  | VNum x, VNum y => y <? x
  | VStr x, VStr y => String.ltb y x
  | _, _ => false
  end.

(** The function given to filtered.sort. *)
Definition compareFn (filters : FilterOptions) (a b : Task) : Z :=
  let aValue := sort_value (sortBy filters) a in
  let bValue := sort_value (sortBy filters) b in
  match sortOrder filters with
  | asc => if gt aValue bValue then 1 else -1
  | desc => if gt bValue aValue then 1 else -1
  end.

Definition filteredAndSortedTasks (tasks : list Task) (filters : FilterOptions) : list Task :=
  let filtered := filter (matches filters) tasks in
  sort_by (fun a b => compareFn filters a b <? 0) filtered.

End Dashboard.

(** ** contexts/TaskContext.tsx

    The provider keeps the task list the components show, a loading flag
    and an error message.  Each function runs against the client store
    and, where the source rethrows, ends in the thrown message.  [user] is
    the user of the auth context, [None] when nobody is signed in. *)

Module TaskContext.
Import Api.

Record Ctx : Set := mkCtx {
  tasks : list Task;
  loading : bool;
  error : option string
}.

(** useState([]), useState(false), useState(null). *)
Definition initial : Ctx := mkCtx [] false None.

(** getTasks. *)
Definition getTasks (user : option Auth.User) (st : Store) (c : Ctx) : Ctx :=
  match user with
  | None => c
  | Some u => mkCtx (Api.getTasks (Auth.id u) st) false None
  end.

(** createTask: setTasks(prev => [...prev, newTask]). *)
Definition createTask (now stamp : Z) (user : option Auth.User) (taskData : TaskData)
    (st : Store) (c : Ctx) : result unit * Ctx * Store :=
  match user with
  | None => (Ok tt, c, st)
  | Some u =>
      let '(newTask, st') := Api.createTask now stamp (Auth.id u) taskData st in
      (Ok tt, mkCtx (tasks c ++ [newTask])%list false None, st')
  end.

(** updateTask: setTasks(prev => prev.map(task => task.id === id ?
    updatedTask : task)); on an error the message is kept and the error
    thrown again. *)
Definition updateTask (stamp : Z) (user : option Auth.User) (id : string) (taskData : Updates)
    (st : Store) (c : Ctx) : result unit * Ctx * Store :=
  match user with
  | None => (Ok tt, c, st)
  | Some u =>
      match Api.updateTask stamp (Auth.id u) id taskData st with
      | (Ok updatedTask, st') =>
          (Ok tt,
           mkCtx (map (fun task => if String.eqb (t_id task) id then updatedTask else task)
                      (tasks c))
                 false None,
           st')
      | (Throw msg, st') => (Throw msg, mkCtx (tasks c) false (Some msg), st')
      end
  end.

(** deleteTask: setTasks(prev => prev.filter(task => task.id !== id)). *)
Definition deleteTask (user : option Auth.User) (id : string)
    (st : Store) (c : Ctx) : result unit * Ctx * Store :=
  match user with
  | None => (Ok tt, c, st)
  | Some u =>
      match Api.deleteTask (Auth.id u) id st with
      | (Ok _, st') =>
          (Ok tt,
           mkCtx (filter (fun task => negb (String.eqb (t_id task) id)) (tasks c)) false None,
           st')
      | (Throw msg, st') => (Throw msg, mkCtx (tasks c) false (Some msg), st')
      end
  end.

End TaskContext.

(** ** contexts/AuthContext.tsx

    The provider keeps the signed-in user, the token and a loading flag;
    the token is also kept in localStorage under 'taskapp_token', here
    [saved]. *)

Module AuthContext.

(** The user of the state: the one the store returned, or the one
    verifyToken rebuilt from a saved token. *)
Inductive SignedIn : Type :=
| FromStore (u : Auth.User)
| FromToken (v : Auth.Verified).

Record Ctx : Type := mkCtx {
  user : option SignedIn;
  token : option string;
  loading : bool;
  saved : option string
}.

(** The state before the effect has run: useState(null), useState(null),
    useState(true), with what localStorage holds. *)
Definition initial (saved : option string) : Ctx := mkCtx None None true saved.

(** The effect run once after mounting; [now] is the Date.now() of
    verifyToken.  An empty saved token is falsy. *)
Definition mount (now : Z) (c : Ctx) : Ctx :=
  match saved c with
  | None => mkCtx (user c) (token c) false (saved c)
  | Some savedToken =>
      if String.eqb savedToken "" then mkCtx (user c) (token c) false (saved c)
      else
        match Auth.verifyToken now savedToken with
        | Some verifiedUser => mkCtx (Some (FromToken verifiedUser)) (Some savedToken) false (saved c)
        | None => mkCtx (user c) (token c) false None
        end
  end.

Section WithDigest.

Variable sha256_hex : string -> string.

(** login: the error of the store is thrown again, and loading ends
    either way. *)
Definition login (issued : Z) (email password : string) (st : Api.Store) (c : Ctx)
    : result unit * Ctx :=
  match Api.login sha256_hex issued email password st with
  | Ok (u, tok) => (Ok tt, mkCtx (Some (FromStore u)) (Some tok) false (Some tok))
  | Throw msg => (Throw msg, mkCtx (user c) (token c) false (saved c))
  end.

(** register. *)
Definition register (now created issued : Z) (username email password : string)
    (st : Api.Store) (c : Ctx) : result unit * Ctx * Api.Store :=
  match Api.register sha256_hex now created issued username email password st with
  | (Ok (u, tok), st') => (Ok tt, mkCtx (Some (FromStore u)) (Some tok) false (Some tok), st')
  | (Throw msg, st') => (Throw msg, mkCtx (user c) (token c) false (saved c), st')
  end.

End WithDigest.

(** logout. *)
Definition logout (c : Ctx) : Ctx := mkCtx None None (loading c) None.

End AuthContext.

(** * Derived notions and sample data *)

(** ** Notions the statements use *)

(** The update that only sets status, and the one that only sets the
    owner. *)
Definition status_patch (s : Model.Status) : Controller.Patch :=
  Controller.mkPatch None None None (Some s) None None None None None.

Definition owner_patch (u : string) : Controller.Patch :=
  Controller.mkPatch None None None None (Some u) None None None None.

(** The pairs of identifier and owner, in the order of the collection. *)
Definition owners (coll : list Model.TaskDoc) : list (string * string) :=
  map (fun t => (Model._id t, Model.user t)) coll.

(** Whether a write changed a document: the document before and after. *)
Definition changed (tt : Model.TaskDoc * Model.TaskDoc) : bool :=
  if Controller.TaskDoc_eq_dec (fst tt) (snd tt) then false else true.

(** The data of a list response. *)
Definition page_data (r : Controller.Reply) : list Model.TaskDoc :=
  match r with
  | Controller.Json _ _ _ (Controller.Page _ _ _ _ _ data) => data
  | _ => []
  end.

(** The order the store gives the enum strings: high before low before
    medium, completed before in-progress before todo. *)
Definition stored_priority_rank (p : Model.Priority) : Z :=
  match p with Model.high => 1 | Model.low => 2 | Model.medium => 3 end.

Definition stored_status_rank (s : Model.Status) : Z :=
  match s with Model.completed => 1 | Model.in_progress => 2 | Model.todo => 3 end.

(** The number the Dashboard compares for a numeric sort field. *)
Definition ordinal (f : Controller.SortField) (t : Api.Task) : Z :=
  match Dashboard.sort_value f t with Dashboard.VNum z => z | Dashboard.VStr _ => 0 end.

(** The calls of the client store, as they follow one another, and the
    store after them. *)
Inductive ApiCall : Set :=
| CallRegister (now created issued : Z) (username email password : string)
| CallLogin (issued : Z) (email password : string)
| CallCreateTask (now stamp : Z) (userId : string) (data : Api.TaskData)
| CallUpdateTask (stamp : Z) (userId taskId : string) (updates : Api.Updates)
| CallDeleteTask (userId taskId : string).

Definition after_call (sha256_hex : string -> string) (st : Api.Store) (c : ApiCall) : Api.Store :=
  match c with
  | CallRegister now created issued username email password =>
      snd (Api.register sha256_hex now created issued username email password st)
  | CallLogin _ _ _ => st
  | CallCreateTask now stamp userId data => snd (Api.createTask now stamp userId data st)
  | CallUpdateTask stamp userId taskId updates =>
      snd (Api.updateTask stamp userId taskId updates st)
  | CallDeleteTask userId taskId => snd (Api.deleteTask userId taskId st)
  end.

Definition after_calls (sha256_hex : string -> string) (st : Api.Store)
    (calls : list ApiCall) : Api.Store :=
  fold_left (after_call sha256_hex) calls st.

(** The characters btoa writes before the padding are of the alphabet. *)
Definition in_alphabet (c : ascii) : Prop := exists x, c = Base64.b64_char x.

(** What strip_padding does with the reversed characters. *)
Definition strip_rev (r l : list ascii) : list ascii :=
  match r with
  | "="%char :: "="%char :: r' => rev r'
  | "="%char :: r' => rev r'
  | _ => l
  end.

(** The same query for another page. *)
Definition with_page (k : Z) (q : Controller.TaskQuery) : Controller.TaskQuery :=
  Controller.mkQuery (Some k) (Controller.q_limit q) (Controller.q_search q)
                     (Controller.q_priority q) (Controller.q_status q)
                     (Controller.q_sortBy q) (Controller.q_sortOrder q)
                     (Controller.q_includeArchived q).

(** The order a sorted list response is in: no task before one that the
    store ranks strictly lower (asc) or strictly higher (desc) on the
    sorted field. *)
Definition in_order (f : Controller.SortField) (o : Controller.SortOrder)
    (a b : Model.TaskDoc) : Prop :=
  match o with
  | Controller.asc => Controller.stored_compare f a b <> Gt
  | Controller.desc => Controller.stored_compare f a b <> Lt
  end.

(** ** Sample data

    Two users of the server, by their ObjectId, and tasks of theirs. *)

Definition alice_id : string := "64a11ce00000000000000001".
Definition bob_id : string := "64b0b000000000000000002b".

Definition archived_task : Model.TaskDoc :=
  Model.mkTask "650000000000000000000a01" "Write report" None Model.high Model.todo alice_id
               (Model.At 5) Model.Absent [] true 1 2.

(** A task created without a due date. *)
Definition undated_task : Model.TaskDoc :=
  Model.mkTask "650000000000000000000a02" "Buy milk" None Model.medium Model.todo alice_id
               Model.Absent Model.Absent [] false 1 1.

Definition todo_id : string := "650000000000000000000a03".

Definition todo_task : Model.TaskDoc :=
  Model.mkTask todo_id "Ship release" None Model.high Model.todo alice_id
               Model.Absent Model.Absent [] false 1 1.

Definition bobs_id : string := "650000000000000000000b04".

Definition bobs_task : Model.TaskDoc :=
  Model.mkTask bobs_id "Plan trip" None Model.low Model.todo bob_id
               Model.Absent Model.Absent [] false 1 1.

Definition task_with (i : string) (p : Model.Priority) (s : Model.Status) : Model.TaskDoc :=
  Model.mkTask i i None p s alice_id Model.Absent Model.Absent [] false 1 1.

(** A body that names bob as the owner, sent by alice. *)
Definition spoofed_body : Controller.CreateBody :=
  Controller.mkCreate "Pay rent" None Model.medium Model.todo (Some bob_id) None None [] None
                      None None.

Definition new_id : string := "650000000000000000000a09".

(** A body that names bob as the owner and carries a createdAt. *)
Definition backdated_body : Controller.CreateBody :=
  Controller.mkCreate "Pay rent" None Model.medium Model.todo (Some bob_id) None None [] None
                      None (Some 1).

Definition sort_query (f : Controller.SortField) (o : Controller.SortOrder) : Controller.TaskQuery :=
  Controller.mkQuery None None None None None (Some f) (Some o) None.

Definition query_with_limit (l : Z) : Controller.TaskQuery :=
  Controller.mkQuery (Some 1) (Some l) None None None None None None.

(** 250 tasks of alice, created at the instants 1 to 250. *)
Definition many_tasks : list Model.TaskDoc :=
  map (fun n => Model.mkTask (show_N (N.of_nat n)) "task" None Model.medium Model.todo alice_id
                             Model.Absent Model.Absent [] false (Z.of_nat n) (Z.of_nat n))
      (seq 1 250).

(** The client store: ids are the decimal text of Date.now(). *)
Definition bobs_client_task : Api.Task :=
  Api.mkTask "1700000000004" "1700000000002" "Plan trip" "" Model.low Model.todo 1 1.

Definition client_task (i : string) (p : Model.Priority) (s : Model.Status) : Api.Task :=
  Api.mkTask i "1700000000001" i "" p s 1 1.

Definition no_filter (f : Controller.SortField) (o : Controller.SortOrder) : Dashboard.FilterOptions :=
  Dashboard.mkFilters "" "" "" f o.

Definition no_updates : Api.Updates := Api.mkUpdates None None None None None None None None.

Definition empty_store : Api.Store := Api.mkStore [] [].

(** A digest with collisions, for examples: the decimal text of the
    length of the input. *)
Definition length_digest (s : string) : string := show_N (N.of_nat (String.length s)).

Definition alice : Auth.User := Auth.mkUser "1" "alice" "a@x.com" 0.

(** Claims without an expiry, for an identity of the forger's choice. *)
Definition forged_claims : Json.jsval :=
  Json.JObj [ ("id", Json.JStr "admin");
              ("username", Json.JStr "root");
              ("email", Json.JStr "root@x.com") ].

Definition forged_token : string := Base64.btoa (Json.JSON_stringify forged_claims).

(** * Properties *)

(** ** The task statistics *)

Section StatsFacts.
Import Model.

Lemma count_if_nonneg {A : Type} (p : A -> bool) (l : list A) : 0 <= count_if p l.
Proof. unfold count_if. lia. Qed.

Lemma count_if_nil {A : Type} (p : A -> bool) : count_if p [] = 0.
Proof. reflexivity. Qed.

(** The $match stage lets through the owner's documents that are not
    archived, and nothing else. *)
Lemma stats_match_iff (uid : string) (t : TaskDoc) :
  stats_match uid t = true <-> user t = uid /\ isArchived t = false.
Proof.
  unfold stats_match. rewrite andb_true_iff, String.eqb_eq, eqb_true_iff. tauto.
Qed.

(** The statistics only depend on the documents the $match stage lets
    through: an archived document, or a document of another user, can be
    taken out of the collection without changing any count. *)
Lemma getTaskStats_only_matched (now : Z) (uid : string) (coll : list TaskDoc) :
  getTaskStats now uid coll = getTaskStats now uid (filter (stats_match uid) coll).
Proof.
  unfold getTaskStats, aggregate_stats.
  assert (E : filter (stats_match uid) (filter (stats_match uid) coll)
              = filter (stats_match uid) coll).
  { induction coll as [|t coll IH]; simpl; [reflexivity|].
    destruct (stats_match uid t) eqn:M; simpl; rewrite ?M, IH; reflexivity. }
  rewrite E. reflexivity.
Qed.

(** What the overdue sum counts: a document that is not completed and
    whose due date is before now, or is not in the document at all. *)
Lemma overdue_cond_iff (now : Z) (t : TaskDoc) :
  overdue_cond now t = true <->
  status t <> completed /\ (dueDate t = Absent \/ exists d, dueDate t = At d /\ d < now).
Proof.
  unfold overdue_cond, agg_lt, agg_ne, bson_compare.
  destruct (dueDate t) as [| |d]; destruct (status t); simpl;
    try destruct (Z.compare_spec d now); simpl; split;
    try discriminate; try tauto;
    try (intros [? [?|[d' [? ?]]]]; congruence);
    try (intros _; split; [discriminate | right; eexists; split; [reflexivity|lia]]);
    try (intros _; split; [discriminate | left; reflexivity]);
    try (intros [_ [?|[d' [E ?]]]]; [discriminate | injection E as E; lia]).
Qed.

(** The virtual isOverdue is the overdue of the specification. *)
Lemma isOverdue_iff (now : Z) (t : TaskDoc) :
  isOverdue now t = true <->
  (exists d, dueDate t = At d /\ d < now) /\ status t <> completed.
Proof.
  unfold isOverdue.
  destruct (dueDate t) as [| |d].
  - split; [discriminate | intros [[d [E _]] _]; discriminate].
  - split; [discriminate | intros [[d [E _]] _]; discriminate].
  - rewrite andb_true_iff, Z.ltb_lt, negb_true_iff. split.
    + intros [H1 H2]. split; [exists d; auto|]. intros E. rewrite E in H2. discriminate.
    + intros [[d' [E H1]] H2]. injection E as ->. split; [assumption|].
      destruct (status t); try reflexivity. congruence.
Qed.

End StatsFacts.

(** C10.  A user none of whose tasks is unarchived (a user without tasks
    among them) gets the all-zero record: the statistics succeed with
    total, completed, inProgress, todo, highPriority and overdue all 0. *)
Theorem stats_of_no_active_tasks (now : Z) (uid : string) (coll : list Model.TaskDoc)
    (Hnone : forall t, In t coll -> Model.user t = uid -> Model.isArchived t = true) :
  Model.getTaskStats now uid coll = Model.mkStats 0 0 0 0 0 0
  /\ Controller.getTaskStats now uid coll
     = Controller.Json 200 true None (Controller.StatsData (Model.mkStats 0 0 0 0 0 0)).
Proof.
  assert (E : filter (Model.stats_match uid) coll = []).
  { induction coll as [|t coll IH]; [reflexivity|].
    simpl. destruct (Model.stats_match uid t) eqn:M.
    - apply stats_match_iff in M. destruct M as [Hu Ha].
      rewrite (Hnone t (or_introl eq_refl) Hu) in Ha. discriminate.
    - apply IH. intros t' Hin. apply Hnone. right. exact Hin. }
  assert (G : Model.getTaskStats now uid coll = Model.mkStats 0 0 0 0 0 0).
  { unfold Model.getTaskStats, Model.aggregate_stats. rewrite E. reflexivity. }
  split; [exact G|]. unfold Controller.getTaskStats. rewrite G. reflexivity.
Qed.

Lemma stats_of_no_active_tasks_witness :
  Model.getTaskStats 10 alice_id [archived_task] = Model.mkStats 0 0 0 0 0 0
  /\ Controller.getTaskStats 10 alice_id [archived_task]
     = Controller.Json 200 true None (Controller.StatsData (Model.mkStats 0 0 0 0 0 0)).
Proof.
  apply (stats_of_no_active_tasks 10 alice_id [archived_task]).
  intros t [<-|[]] _. reflexivity.
Defined.

(** C8.  The overdue count of the statistics takes in a task that has no
    due date: for a document without the dueDate path, that is not
    completed and not archived, $lt finds the missing value below the
    current Date and $ne finds it different from null, so the $and holds
    and the task is counted, while the virtual isOverdue of the same
    document is false. *)
Theorem stats_count_undated_task_overdue (now : Z) (t : Model.TaskDoc)
    (Hdue : Model.dueDate t = Model.Absent)
    (Hstatus : Model.status t <> Model.completed)
    (Hactive : Model.isArchived t = false) :
  Model.s_overdue (Model.getTaskStats now (Model.user t) [t]) = 1
  /\ Model.isOverdue now t = false.
Proof.
  split.
  - unfold Model.getTaskStats, Model.aggregate_stats. simpl.
    assert (M : Model.stats_match (Model.user t) t = true).
    { apply stats_match_iff. auto. }
    rewrite M. simpl.
    assert (O : Model.overdue_cond now t = true).
    { apply overdue_cond_iff. auto. }
    unfold count_if. simpl. rewrite O. reflexivity.
  - unfold Model.isOverdue. rewrite Hdue. reflexivity.
Qed.

Lemma stats_count_undated_task_overdue_witness :
  Model.s_overdue (Model.getTaskStats 10 alice_id [undated_task]) = 1
  /\ Model.isOverdue 10 undated_task = false.
Proof.
  apply (stats_count_undated_task_overdue 10 undated_task).
  - reflexivity.
  - discriminate.
  - reflexivity.
Defined.

(** With a due date in the document the two agree: the sum counts the task
    exactly when the virtual says it is overdue. *)
Lemma overdue_cond_dated (now d : Z) (t : Model.TaskDoc) :
  Model.dueDate t = Model.At d -> Model.overdue_cond now t = Model.isOverdue now t.
Proof.
  intros E. unfold Model.overdue_cond, Model.isOverdue, Model.agg_lt, Model.agg_ne,
    Model.bson_compare. rewrite E. simpl.
  rewrite Z.ltb_compare. destruct (d ?= now); simpl; rewrite ?andb_true_r; reflexivity.
Qed.

(** An explicit null due date is never counted. *)
Lemma overdue_cond_null (now : Z) (t : Model.TaskDoc) :
  Model.dueDate t = Model.IsNull -> Model.overdue_cond now t = false.
Proof.
  intros E. unfold Model.overdue_cond, Model.agg_ne. rewrite E. simpl.
  apply andb_false_r.
Qed.

(** Archiving takes a task out of every count and leaves the number of
    documents as it was. *)
Lemma archived_not_counted (now : Z) (uid : string) (t : Model.TaskDoc)
    (coll : list Model.TaskDoc) :
  Model.isArchived t = true ->
  Model.getTaskStats now uid (t :: coll) = Model.getTaskStats now uid coll.
Proof.
  intros A. unfold Model.getTaskStats, Model.aggregate_stats. simpl.
  assert (M : Model.stats_match uid t = false).
  { unfold Model.stats_match. rewrite A. apply andb_false_r. }
  rewrite M. reflexivity.
Qed.

(** ** completedAt *)

Section CompletedAt.
Import Model Controller.

(** Through a save on which status is modified (a new document) the
    invariant holds afterwards: completed exactly when completedAt is a
    Date. *)
Lemma pre_save_invariant (now : Z) (t : TaskDoc) :
  let t' := pre_save true now t in
  status t' = status t
  /\ (status t' = completed <-> exists d, completedAt t' = At d).
Proof.
  unfold pre_save.
  destruct (status t) eqn:S; destruct (completedAt t) as [| |d] eqn:C; simpl;
    rewrite ?S, ?C; simpl; (split; [assumption || reflexivity|]);
    split; intros H; try discriminate; try (destruct H; discriminate); eauto.
Qed.

Lemma createTask_invariant (newId : string) (now : Z) (uid : string) (b : CreateBody)
    (coll : list TaskDoc) (t : TaskDoc) (r : Reply) (coll' : list TaskDoc) :
  createTask newId now uid b coll = (r, coll') ->
  In t coll' -> ~ In t coll ->
  (status t = completed <-> exists d, completedAt t = At d).
Proof.
  unfold createTask, Task_create.
  change (c_user (set_c_user uid b)) with (Some uid). cbv beta zeta iota.
  destruct (doc_valid (new_doc newId now uid (set_c_user uid b)));
    [destruct (existsb _ _)|];
    intros E; injection E as <- <-; intros Hin Hnot.
  - contradiction.
  - apply in_app_or in Hin. destruct Hin as [Hin|[<-|[]]]; [contradiction|].
    apply (pre_save_invariant now (new_doc newId now uid (set_c_user uid b))).
  - contradiction.
Qed.

(** The write of an update without a completedAt field stores the status
    of the update, when it has one, and does not touch completedAt. *)
Lemma apply_patch_keeps_completedAt (now : Z) (p : Patch) (t : TaskDoc) :
  p_completedAt p = None ->
  status (apply_patch now p t) = or_else (p_status p) (status t)
  /\ completedAt (apply_patch now p t) = completedAt t.
Proof. intros E. unfold apply_patch. simpl. rewrite E. split; reflexivity. Qed.

(** A save on which status is not modified (the archive toggle) leaves
    status and completedAt alone. *)
Lemma pre_save_unmodified (now : Z) (t : TaskDoc) : pre_save false now t = t.
Proof. reflexivity. Qed.

End CompletedAt.

(** C1.  updateTask and bulkUpdateTasks write the new status and leave
    completedAt as it was: findByIdAndUpdate and updateMany run no save
    hook.  A todo task without completedAt that is updated to completed is
    stored completed without completedAt, and a completed task updated to
    todo keeps its completedAt. *)
Theorem update_status_keeps_completedAt (now : Z) (t : Model.TaskDoc) (s : Model.Status) :
  let t' := Controller.apply_patch now (status_patch s) t in
  Controller.updateTask now (Model.user t) (Model._id t) (status_patch s) [t]
  = (Controller.Json 200 true (Some "Task updated successfully") (Controller.OneTask t'), [t'])
  /\ snd (Controller.bulkUpdateTasks now (Model.user t) (Some [Model._id t]) (status_patch s) [t])
     = [t']
  /\ Model.status t' = s
  /\ Model.completedAt t' = Model.completedAt t.
Proof.
  simpl. repeat split.
  - unfold Controller.updateTask, Controller.findOne. simpl.
    repeat (rewrite String.eqb_refl; simpl). reflexivity.
  - unfold Controller.bulkUpdateTasks. simpl. unfold Controller.bulk_match. simpl.
    repeat (rewrite String.eqb_refl; simpl). reflexivity.
Qed.

(** The failing input of C1, evaluated. *)
Example update_to_completed_without_completedAt :
  let coll' := snd (Controller.updateTask 7 alice_id todo_id (status_patch Model.completed) [todo_task]) in
  map Model.status coll' = [Model.completed]
  /\ map Model.completedAt coll' = [Model.Absent].
Proof. split; reflexivity. Qed.

(** ** Ownership *)

Section Ownership.
Import Model Controller.

Lemma findOne_none (id uid : string) (coll : list TaskDoc) :
  (forall t, In t coll -> _id t = id -> user t <> uid) ->
  findOne id uid coll = None.
Proof.
  intros H. unfold findOne. induction coll as [|t coll IH]; [reflexivity|].
  simpl. destruct (String.eqb_spec (_id t) id) as [Ei|Ni]; simpl.
  - destruct (String.eqb_spec (user t) uid) as [Eu|Nu].
    + exfalso. exact (H t (or_introl eq_refl) Ei Eu).
    + apply IH. intros t' Hin. apply H. right. exact Hin.
  - apply IH. intros t' Hin. apply H. right. exact Hin.
Qed.

Lemma findOne_some (id uid : string) (coll : list TaskDoc) (t : TaskDoc) :
  findOne id uid coll = Some t -> In t coll /\ _id t = id /\ user t = uid.
Proof.
  unfold findOne. intros H. apply find_some in H. destruct H as [Hin Hb].
  apply andb_true_iff in Hb. destruct Hb as [Hi Hu].
  apply String.eqb_eq in Hi. apply String.eqb_eq in Hu. auto.
Qed.

Lemma findIndex_none {A : Type} (p : A -> bool) (l : list A) :
  (forall x, In x l -> p x = false) -> Api.findIndex p l = None.
Proof.
  induction l as [|x l IH]; intros H; [reflexivity|].
  simpl. rewrite (H x (or_introl eq_refl)). rewrite IH; [reflexivity|].
  intros y Hy. apply H. right. exact Hy.
Qed.

Lemma owns_false (uid id : string) (t : Api.Task) :
  (Api.t_id t = id -> Api.t_userId t <> uid) -> Api.owns uid id t = false.
Proof.
  intros H. unfold Api.owns.
  destruct (String.eqb_spec (Api.t_id t) id) as [Ei|Ni]; [|reflexivity].
  destruct (String.eqb_spec (Api.t_userId t) uid) as [Eu|Nu]; [|reflexivity].
  exfalso. exact (H Ei Eu).
Qed.

Lemma update_by_id_owners (id : string) (f : TaskDoc -> TaskDoc) (coll : list TaskDoc) :
  (forall t, _id (f t) = _id t /\ user (f t) = user t) ->
  owners (update_by_id id f coll) = owners coll.
Proof.
  intros Hf. unfold owners. induction coll as [|t coll IH]; [reflexivity|].
  simpl. destruct (String.eqb (_id t) id); simpl.
  - destruct (Hf t) as [-> ->]. reflexivity.
  - rewrite IH. reflexivity.
Qed.

Lemma delete_by_id_incl (id : string) (coll : list TaskDoc) (t : TaskDoc) :
  In t (delete_by_id id coll) -> In t coll.
Proof.
  induction coll as [|x coll IH]; simpl; [tauto|].
  destruct (String.eqb (_id x) id); simpl; intuition.
Qed.

Lemma apply_patch_owner (now : Z) (p : Patch) (t : TaskDoc) :
  p_user p = None ->
  _id (apply_patch now p t) = _id t /\ user (apply_patch now p t) = user t.
Proof. intros E. unfold apply_patch. simpl. rewrite E. auto. Qed.

End Ownership.

(** C2.  A read, an update or a delete by a user, for an identifier under
    which the collection holds no task of that user (no such task at all,
    or only tasks of other users), answers the one "Task not found"
    response and leaves the collection as it was; the two cases give the
    same response.  The archive toggle does the same, and the client
    store throws the one "Task not found" error. *)
Theorem not_owned_is_not_found (now : Z) (uid id : string) (p : Controller.Patch)
    (coll : list Model.TaskDoc) (userId taskId : string) (up : Api.Updates) (st : Api.Store)
    (Hserver : forall t, In t coll -> Model._id t = id -> Model.user t <> uid)
    (Hclient : forall t, In t (Api.tasks st) -> Api.t_id t = taskId -> Api.t_userId t <> userId) :
  Controller.getTask uid id coll
    = Controller.Json 404 false (Some "Task not found") Controller.NoData
  /\ Controller.updateTask now uid id p coll
    = (Controller.Json 404 false (Some "Task not found") Controller.NoData, coll)
  /\ Controller.deleteTask uid id coll
    = (Controller.Json 404 false (Some "Task not found") Controller.NoData, coll)
  /\ Controller.toggleArchiveTask now uid id coll
    = (Controller.Json 404 false (Some "Task not found") Controller.NoData, coll)
  /\ Api.updateTask now userId taskId up st = (Throw "Task not found", st)
  /\ Api.deleteTask userId taskId st = (Throw "Task not found", st).
Proof.
  pose proof (findOne_none id uid coll Hserver) as F.
  assert (G : Api.findIndex (Api.owns userId taskId) (Api.tasks st) = None).
  { apply findIndex_none. intros t Hin. apply owns_false. apply Hclient. exact Hin. }
  unfold Controller.getTask, Controller.updateTask, Controller.deleteTask,
    Controller.toggleArchiveTask, Api.updateTask, Api.deleteTask.
  rewrite F, G. repeat split; reflexivity.
Qed.

(** The same request for a task of another user and for a task that does
    not exist. *)
Lemma not_owned_is_not_found_witness :
  Controller.getTask alice_id bobs_id [bobs_task] = Controller.getTask alice_id bobs_id []
  /\ Controller.updateTask 9 alice_id bobs_id (status_patch Model.completed) [bobs_task]
     = (Controller.Json 404 false (Some "Task not found") Controller.NoData, [bobs_task])
  /\ Api.deleteTask "1700000000001" "1700000000004" (Api.mkStore [] [bobs_client_task])
     = (Throw "Task not found", Api.mkStore [] [bobs_client_task]).
Proof.
  assert (H1 : forall t, In t [bobs_task] -> Model._id t = bobs_id -> Model.user t <> alice_id).
  { intros t [<-|[]] _. discriminate. }
  assert (H0 : forall t : Model.TaskDoc,
             In t [] -> Model._id t = bobs_id -> Model.user t <> alice_id).
  { intros t []. }
  assert (H2 : forall t, In t (Api.tasks (Api.mkStore [] [bobs_client_task])) ->
                         Api.t_id t = "1700000000004" -> Api.t_userId t <> "1700000000001").
  { intros t [<-|[]] _. discriminate. }
  pose proof (not_owned_is_not_found 9 alice_id bobs_id (status_patch Model.completed)
                [bobs_task] "1700000000001" "1700000000004" no_updates
                (Api.mkStore [] [bobs_client_task]) H1 H2) as [A [B [C [_ [_ D]]]]].
  pose proof (not_owned_is_not_found 9 alice_id bobs_id (status_patch Model.completed)
                [] "1700000000001" "1700000000004" no_updates
                (Api.mkStore [] [bobs_client_task]) H0 H2) as [A0 _].
  split; [rewrite A, A0; reflexivity|]. split; assumption.
Defined.

(** C3.  The owner is not kept by every update: an update whose body
    carries a user field hands the task to that user.  After alice's
    update of her task with {user: bob} the stored task belongs to bob,
    alice gets "Task not found" for it and bob reads it.  createTask, on
    the same collection, does drop the owner a body names: the task alice
    creates with {user: bob} is hers. *)
Lemma update_can_change_owner :
  owners (snd (Controller.updateTask 7 alice_id todo_id (owner_patch bob_id) [todo_task]))
  = [(todo_id, bob_id)]
  /\ Controller.getTask alice_id todo_id
       (snd (Controller.updateTask 7 alice_id todo_id (owner_patch bob_id) [todo_task]))
     = Controller.Json 404 false (Some "Task not found") Controller.NoData
  /\ Controller.getTask bob_id todo_id
       (snd (Controller.updateTask 7 alice_id todo_id (owner_patch bob_id) [todo_task]))
     = Controller.Json 200 true None
         (Controller.OneTask
            (Model.mkTask todo_id "Ship release" None Model.high Model.todo bob_id
                          Model.Absent Model.Absent [] false 1 7))
  /\ owners (snd (Controller.createTask new_id 7 alice_id spoofed_body [todo_task]))
     = [(todo_id, alice_id); (new_id, alice_id)]
  /\ ~ (forall (now : Z) (uid id : string) (p : Controller.Patch) (coll : list Model.TaskDoc),
          owners (snd (Controller.updateTask now uid id p coll)) = owners coll).
Proof.
  split; [reflexivity|]. split; [reflexivity|]. split; [reflexivity|].
  split; [reflexivity|].
  intros H.
  specialize (H 7 alice_id todo_id (owner_patch bob_id) [todo_task]).
  vm_compute in H. discriminate H.
Qed.

Example bulk_update_can_change_owner :
  owners (snd (Controller.bulkUpdateTasks 7 alice_id (Some [todo_id]) (owner_patch bob_id) [todo_task]))
  = [(todo_id, bob_id)].
Proof. reflexivity. Qed.

Example client_update_can_change_owner :
  map Api.t_userId
      (Api.tasks (snd (Api.updateTask 7 "1700000000002" "1700000000004"
                         (Api.mkUpdates None (Some "1700000000001") None None None None None None)
                         (Api.mkStore [] [bobs_client_task]))))
  = ["1700000000001"].
Proof. reflexivity. Qed.

Section OwnerKept.
Import Model Controller.

Lemma updateMany_owners (now : Z) (uid : string) (ids : list string) (p : Patch)
    (coll : list TaskDoc) :
  p_user p = None -> owners (updateMany now uid ids p coll) = owners coll.
Proof.
  intros E. unfold owners, updateMany. rewrite map_map. apply map_ext.
  intros t. destruct (bulk_match uid ids t); [|reflexivity].
  destruct (apply_patch_owner now p t E) as [-> ->]. reflexivity.
Qed.

Lemma set_nth_map {A B : Type} (f : A -> B) (i : nat) (x y : A) (l : list A) :
  nth_error l i = Some y -> f x = f y -> map f (Api.set_nth i x l) = map f l.
Proof.
  revert i. induction l as [|z l IH]; intros [|i]; simpl; try discriminate.
  - intros E Hf. injection E as ->. rewrite Hf. reflexivity.
  - intros E Hf. rewrite (IH i E Hf). reflexivity.
Qed.

End OwnerKept.

(** The paths that keep the owner.  The owner of a new task is the
    authenticated caller, whatever user the body named.  Read, delete and
    the archive toggle never change the owner of a stored task, and an
    update or a bulk update whose body has no user field leaves every
    owner as it was; the same holds in the client store for updates
    without a userId. *)
Theorem owner_set_at_creation_and_kept (newId : string) (now : Z) (uid id : string)
    (b : Controller.CreateBody) (p : Controller.Patch) (ids : option (list string))
    (coll : list Model.TaskDoc) (data : Api.TaskData) (up : Api.Updates) (st : Api.Store)
    (Hpatch : Controller.p_user p = None)
    (Hup : Api.u_userId up = None) :
  (let '(r, coll') := Controller.createTask newId now uid b coll in
   (exists t, r = Controller.Json 201 true (Some "Task created successfully") (Controller.OneTask t)
              /\ coll' = (coll ++ [t])%list /\ Model.user t = uid
              /\ Model._id t = Controller.or_else (Controller.c_id b) newId)
   \/ (exists e, r = Controller.NextError e /\ coll' = coll))
  /\ owners (snd (Controller.updateTask now uid id p coll)) = owners coll
  /\ owners (snd (Controller.bulkUpdateTasks now uid ids p coll)) = owners coll
  /\ owners (snd (Controller.toggleArchiveTask now uid id coll)) = owners coll
  /\ (forall t, In t (snd (Controller.deleteTask uid id coll)) -> In t coll)
  /\ Api.t_userId (fst (Api.createTask now now uid data st)) = uid
  /\ map Api.t_userId (Api.tasks (snd (Api.updateTask now uid id up st)))
     = map Api.t_userId (Api.tasks st).
Proof.
  repeat split.
  - unfold Controller.createTask, Controller.Task_create.
    change (Controller.c_user (Controller.set_c_user uid b)) with (Some uid).
    cbv beta zeta iota.
    destruct (Controller.doc_valid
                (Controller.new_doc newId now uid (Controller.set_c_user uid b)));
      [destruct (existsb _ _)|].
    + right. eexists. split; reflexivity.
    + left. eexists. repeat split.
      * unfold Model.pre_save. simpl.
        destruct (Model.Status_eqb _ _ && _); [reflexivity|].
        destruct (negb _); reflexivity.
      * unfold Model.pre_save. simpl.
        destruct (Model.Status_eqb _ _ && _); [reflexivity|].
        destruct (negb _); reflexivity.
    + right. eexists. split; reflexivity.
  - unfold Controller.updateTask.
    destruct (Controller.findOne id uid coll); [|reflexivity].
    destruct (Controller.patch_valid p); [|reflexivity].
    assert (E : owners (Controller.update_by_id id (Controller.apply_patch now p) coll)
                = owners coll).
    { apply update_by_id_owners. intros x. apply apply_patch_owner. exact Hpatch. }
    destruct (find _ _); simpl; exact E.
  - unfold Controller.bulkUpdateTasks.
    destruct ids as [[|i ids]|]; try reflexivity.
    destruct (Controller.patch_valid p); [|reflexivity].
    simpl. apply updateMany_owners. exact Hpatch.
  - unfold Controller.toggleArchiveTask.
    destruct (Controller.findOne id uid coll); [|reflexivity].
    simpl. apply update_by_id_owners. intros x. split; reflexivity.
  - unfold Controller.deleteTask.
    destruct (Controller.findOne id uid coll); simpl; [|tauto].
    apply delete_by_id_incl.
  - unfold Api.updateTask.
    destruct (Api.findIndex (Api.owns uid id) (Api.tasks st)) as [i|]; [|reflexivity].
    destruct (nth_error (Api.tasks st) i) as [old|] eqn:E; [|reflexivity].
    simpl. apply (set_nth_map Api.t_userId i _ old); [exact E|].
    unfold Api.merge. simpl. rewrite Hup. reflexivity.
Qed.

Lemma owner_set_at_creation_and_kept_witness :
  map Model.user (snd (Controller.createTask new_id 3 alice_id spoofed_body [])) = [alice_id]
  /\ owners (snd (Controller.updateTask 3 alice_id todo_id (status_patch Model.completed) [todo_task]))
     = [(todo_id, alice_id)].
Proof.
  pose proof (owner_set_at_creation_and_kept new_id 3 alice_id todo_id spoofed_body
                (status_patch Model.completed) None [todo_task]
                (Api.mkData "x" "y" Model.low Model.todo)
                no_updates
                (Api.mkStore [] []) eq_refl eq_refl) as [_ [H _]].
  split; [reflexivity | exact H].
Defined.

(** ** Sorting and pagination *)

Section SortFacts.
Context {A : Type} (le : A -> A -> bool).

Lemma insert_by_perm (x : A) (l : list A) : Permutation (insert_by le x l) (x :: l).
Proof.
  induction l as [|y l IH]; simpl; [apply Permutation_refl|].
  destruct (le x y); [apply Permutation_refl|].
  apply Permutation_trans with (y :: x :: l).
  - apply perm_skip. exact IH.
  - apply perm_swap.
Qed.

Lemma sort_by_perm (l : list A) : Permutation (sort_by le l) l.
Proof.
  induction l as [|x l IH]; simpl; [apply perm_nil|].
  apply Permutation_trans with (x :: sort_by le l).
  - apply insert_by_perm.
  - apply perm_skip. exact IH.
Qed.

Lemma sort_by_length (l : list A) : List.length (sort_by le l) = List.length l.
Proof. apply Permutation_length. apply sort_by_perm. Qed.

Hypothesis le_total : forall a b, le a b = false -> le b a = true.

Lemma insert_by_sorted (x : A) (l : list A) :
  Sorted (fun a b => le a b = true) l ->
  Sorted (fun a b => le a b = true) (insert_by le x l).
Proof.
  induction l as [|y l IH]; intros S; simpl.
  - repeat constructor.
  - destruct (le x y) eqn:E.
    + constructor; [exact S|]. constructor. exact E.
    + inversion S as [|? ? S' Hd]; subst. constructor; [apply IH; exact S'|].
      destruct l as [|z l]; simpl.
      * constructor. apply le_total. exact E.
      * destruct (le x z); constructor.
        -- apply le_total. exact E.
        -- inversion Hd; subst. assumption.
Qed.

Lemma sort_by_sorted (l : list A) : Sorted (fun a b => le a b = true) (sort_by le l).
Proof.
  induction l as [|x l IH]; simpl; [constructor|].
  apply insert_by_sorted. exact IH.
Qed.

End SortFacts.

Lemma ceil_div_spec (a b : Z) :
  0 <= a -> 1 <= b -> a <= ceil_div a b * b /\ (ceil_div a b - 1) * b < a.
Proof.
  intros Ha Hb. unfold ceil_div.
  pose proof (Z.div_mod (a + b - 1) b ltac:(lia)) as D.
  pose proof (Z.mod_pos_bound (a + b - 1) b ltac:(lia)) as M.
  split; nia.
Qed.

Lemma incl_firstn_skipn {A : Type} (n m : nat) (l : list A) : incl (firstn n (skipn m l)) l.
Proof.
  intros x Hx.
  rewrite <- (firstn_skipn m l). apply in_or_app. right.
  rewrite <- (firstn_skipn n (skipn m l)). apply in_or_app. left. exact Hx.
Qed.

(** C6.  For a task list query the validator lets through, the limit is
    between 1 and 100, the total of the response is the number of tasks
    that match the query before the page is cut, the page holds at most
    limit tasks, all of them matching, and pages is the ceiling of total
    over limit (the least number of pages of that size that hold total
    tasks).  A limit outside 1..100 fails the validation. *)
Theorem listTasks_pagination (regex_i : string -> string -> bool) (uid : string)
    (q : Controller.TaskQuery) (coll : list Model.TaskDoc) :
  let L := Controller.or_else (Controller.q_limit q) 10 in
  let matched := filter (Controller.query_match regex_i uid q) coll in
  (Controller.validateTaskQuery q = true ->
   1 <= L <= 100
   /\ exists data pages,
        Controller.listTasks regex_i uid q coll
        = Controller.Json 200 true None
            (Controller.Page (Z.of_nat (List.length data)) (Z.of_nat (List.length matched))
                             (Controller.or_else (Controller.q_page q) 1) L pages data)
        /\ Z.of_nat (List.length data) <= L
        /\ incl data matched
        /\ Z.of_nat (List.length matched) <= pages * L
        /\ (pages - 1) * L < Z.of_nat (List.length matched))
  /\ (forall l, Controller.q_limit q = Some l -> l < 1 \/ 100 < l ->
      Controller.listTasks regex_i uid q coll
      = Controller.Json 400 false (Some "Validation failed") Controller.NoData).
Proof.
  intros L matched. split.
  - intros V.
    assert (HL : 1 <= L <= 100).
    { unfold Controller.validateTaskQuery in V. apply andb_true_iff in V.
      destruct V as [_ V]. unfold L.
      destruct (Controller.q_limit q) as [l|]; simpl; [|lia].
      apply andb_true_iff in V. destruct V as [V1 V2]. lia. }
    split; [exact HL|].
    unfold Controller.listTasks. rewrite V. unfold Controller.getTasks.
    fold L. fold matched.
    eexists. eexists. split; [reflexivity|].
    split; [|split].
    + pose proof (firstn_le_length (Z.to_nat L)
        (skipn (Z.to_nat ((Controller.or_else (Controller.q_page q) 1 - 1) * L))
           (sort_by (Controller.sort_le
                       (Controller.or_else (Controller.q_sortBy q) Controller.by_createdAt)
                       (Controller.or_else (Controller.q_sortOrder q) Controller.desc))
                    matched))) as F.
      lia.
    + intros x Hx. apply incl_firstn_skipn in Hx.
      revert Hx. apply Permutation_in. apply sort_by_perm.
    + apply ceil_div_spec; lia.
  - intros l El Hout. unfold Controller.listTasks, Controller.validateTaskQuery.
    rewrite El.
    assert (B : (1 <=? l) && (l <=? 100) = false).
    { apply andb_false_iff. destruct Hout; [left|right]; lia. }
    rewrite B, andb_false_r. reflexivity.
Qed.

(** limit=100, page=1 on 250 matching tasks: 100 tasks, total 250, three
    pages.  limit=101 fails the validation. *)
Lemma listTasks_pagination_witness :
  (exists data,
     Controller.listTasks (fun _ _ => true) alice_id (query_with_limit 100) many_tasks
     = Controller.Json 200 true None (Controller.Page (Z.of_nat (List.length data)) 250 1 100 3 data)
     /\ Z.of_nat (List.length data) <= 100)
  /\ Controller.listTasks (fun _ _ => true) alice_id (query_with_limit 101) many_tasks
     = Controller.Json 400 false (Some "Validation failed") Controller.NoData.
Proof.
  split.
  - destruct (listTasks_pagination (fun _ _ => true) alice_id (query_with_limit 100) many_tasks)
      as [H _].
    destruct (H eq_refl) as [_ [data [pages [E [Hlen [_ [Hlo Hhi]]]]]]].
    assert (T : Z.of_nat (List.length
                  (filter (Controller.query_match (fun _ _ => true) alice_id (query_with_limit 100))
                          many_tasks)) = 250) by (vm_compute; reflexivity).
    rewrite T in E, Hlo, Hhi. simpl in E, Hlen, Hlo, Hhi.
    assert (P : pages = 3) by lia. subst pages.
    exists data. split; assumption.
  - destruct (listTasks_pagination (fun _ _ => true) alice_id (query_with_limit 101) many_tasks)
      as [_ H].
    apply (H 101 eq_refl). right. lia.
Defined.

Lemma stored_compare_priority (a b : Model.TaskDoc) :
  Controller.stored_compare Controller.by_priority a b
  = (stored_priority_rank (Model.priority a) ?= stored_priority_rank (Model.priority b)).
Proof. simpl. destruct (Model.priority a), (Model.priority b); reflexivity. Qed.

Lemma stored_compare_status (a b : Model.TaskDoc) :
  Controller.stored_compare Controller.by_status a b
  = (stored_status_rank (Model.status a) ?= stored_status_rank (Model.status b)).
Proof. simpl. destruct (Model.status a), (Model.status b); reflexivity. Qed.

(** C4.  The server's task list sorts priority and status as the stored
    strings: sorted by priority desc, the tasks low, high, medium come
    back as medium, low, high, and sorted by status asc, the tasks
    completed, todo, in-progress come back as completed, in-progress,
    todo. *)
Theorem server_list_sorts_enum_strings (regex_i : string -> string -> bool) :
  map Model.priority
      (page_data (Controller.listTasks regex_i alice_id
                    (sort_query Controller.by_priority Controller.desc)
                    [ task_with "a" Model.low Model.todo;
                      task_with "b" Model.high Model.todo;
                      task_with "c" Model.medium Model.todo ]))
  = [Model.medium; Model.low; Model.high]
  /\ map Model.status
      (page_data (Controller.listTasks regex_i alice_id
                    (sort_query Controller.by_status Controller.asc)
                    [ task_with "a" Model.low Model.completed;
                      task_with "b" Model.low Model.todo;
                      task_with "c" Model.low Model.in_progress ]))
  = [Model.completed; Model.in_progress; Model.todo].
Proof. split; reflexivity. Qed.

Section DashboardFacts.
Import Model Api Dashboard.

(** The Dashboard orders the same tasks by the ordinal mapping. *)
Example dashboard_priority_desc :
  map t_priority
      (filteredAndSortedTasks
         [client_task "a" low todo; client_task "b" high todo; client_task "c" medium todo]
         (no_filter by_priority desc))
  = [high; medium; low].
Proof. reflexivity. Qed.

Example dashboard_status_asc :
  map t_status
      (filteredAndSortedTasks
         [client_task "a" low completed; client_task "b" low todo; client_task "c" low in_progress]
         (no_filter by_status asc))
  = [todo; in_progress; completed].
Proof. reflexivity. Qed.

(** For priority, status and the two dates the Dashboard's view is sorted
    by the ordinal: non-decreasing for asc, non-increasing for desc. *)
Lemma dashboard_sorted_by_ordinal (tasks : list Task) (filters : FilterOptions) :
  sortBy filters <> by_title ->
  Sorted (fun a b =>
            match sortOrder filters with
            | asc => ordinal (sortBy filters) a <= ordinal (sortBy filters) b
            | desc => ordinal (sortBy filters) b <= ordinal (sortBy filters) a
            end)
         (filteredAndSortedTasks tasks filters).
Proof.
  intros Hf. unfold filteredAndSortedTasks.
  set (le := fun a b => compareFn filters a b <? 0).
  assert (K : forall a b, le a b = true <->
              match sortOrder filters with
              | asc => ordinal (sortBy filters) a <= ordinal (sortBy filters) b
              | desc => ordinal (sortBy filters) b <= ordinal (sortBy filters) a
              end).
  { intros a b. unfold le, compareFn, ordinal.
    destruct (sortBy filters); try congruence;
      destruct (sortOrder filters); cbn [sort_value gt];
      match goal with
      | |- context [if (?x <? ?y) then _ else _] => destruct (Z.ltb_spec x y)
      end;
      (split; [intros _; lia | intros _; reflexivity])
      || (split; [intros D; discriminate D | intros; lia]). }
  assert (T : forall a b, le a b = false -> le b a = true).
  { intros a b E. apply K. destruct (le a b) eqn:E'; [discriminate|].
    assert (N : ~ le a b = true) by congruence. rewrite K in N.
    destruct (sortOrder filters); lia. }
  pose proof (sort_by_sorted le T (filter (matches filters) tasks)) as S.
  induction S as [|x l S IH Hd]; constructor; [exact IH|].
  destruct Hd; constructor. apply K. assumption.
Qed.

End DashboardFacts.

(** ** Bulk update *)

Section BulkFacts.
Import Model Controller.

Lemma bulk_match_iff (uid : string) (ids : list string) (t : TaskDoc) :
  bulk_match uid ids t = true <-> In (_id t) ids /\ user t = uid.
Proof.
  unfold bulk_match. rewrite andb_true_iff, existsb_exists, String.eqb_eq. split.
  - intros [[x [Hin E]] Hu]. apply String.eqb_eq in E. subst x. auto.
  - intros [Hin Hu]. split; [|exact Hu]. exists (_id t). split; [exact Hin|].
    apply String.eqb_refl.
Qed.

Lemma modified_changed (now : Z) (uid : string) (ids : list string) (p : Patch) (t : TaskDoc) :
  modified now uid ids p t
  = changed (t, if bulk_match uid ids t then apply_patch now p t else t).
Proof.
  unfold modified, changed. cbn [fst snd].
  destruct (bulk_match uid ids t); cbn [andb].
  - destruct (TaskDoc_eq_dec (apply_patch now p t) t) as [E|N];
      destruct (TaskDoc_eq_dec t (apply_patch now p t)) as [E'|N'];
      congruence.
  - destruct (TaskDoc_eq_dec t t) as [_|N]; congruence.
Qed.

Lemma count_modified (now : Z) (uid : string) (ids : list string) (p : Patch)
    (coll : list TaskDoc) :
  count_if (modified now uid ids p) coll
  = Z.of_nat (List.length (filter changed (combine coll (updateMany now uid ids p coll)))).
Proof.
  unfold count_if. f_equal. induction coll as [|t coll IH]; [reflexivity|].
  cbn [filter combine updateMany map]. rewrite modified_changed.
  fold (updateMany now uid ids p coll).
  destruct (changed _); cbn [List.length]; rewrite IH; reflexivity.
Qed.

Lemma updateMany_pointwise (now : Z) (uid : string) (ids : list string) (p : Patch)
    (coll : list TaskDoc) :
  Forall2 (fun t t' =>
             (In (_id t) ids /\ user t = uid -> t' = apply_patch now p t)
             /\ (~ (In (_id t) ids /\ user t = uid) -> t' = t))
          coll (updateMany now uid ids p coll).
Proof.
  induction coll as [|t coll IH]; simpl; constructor; [|exact IH].
  destruct (bulk_match uid ids t) eqn:M.
  - apply bulk_match_iff in M. split; [reflexivity | tauto].
  - split; [|reflexivity]. intros H. apply bulk_match_iff in H. congruence.
Qed.

(** Unique identifiers stay unique among the documents a filter keeps. *)
Lemma filtered_ids_unique (keep : TaskDoc -> bool) (coll : list TaskDoc) :
  NoDup (map _id coll) -> NoDup (map _id (filter keep coll)).
Proof.
  intros N. induction coll as [|t coll IH]; [constructor|].
  cbn [map] in N. apply NoDup_cons_iff in N. destruct N as [Ht N].
  cbn [filter]. destruct (keep t); [|exact (IH N)].
  cbn [map]. apply NoDup_cons; [|exact (IH N)].
  intros Hin. apply Ht. apply in_map_iff in Hin. destruct Hin as [y [E Hy]].
  apply filter_In in Hy. apply in_map_iff. exists y. tauto.
Qed.

(** With one document per identifier, no more documents are modified than
    identifiers were given. *)
Lemma modified_le_ids (now : Z) (uid : string) (ids : list string) (p : Patch)
    (coll : list TaskDoc) :
  NoDup (map _id coll) ->
  count_if (modified now uid ids p) coll <= Z.of_nat (List.length ids).
Proof.
  intros N. unfold count_if. apply Nat2Z.inj_le.
  rewrite <- (length_map _id).
  apply NoDup_incl_length.
  - apply filtered_ids_unique. exact N.
  - intros i Hi. apply in_map_iff in Hi. destruct Hi as [t [<- Ht]].
    apply filter_In in Ht. destruct Ht as [_ M]. unfold modified in M.
    apply andb_true_iff in M. destruct M as [M _].
    apply bulk_match_iff in M. tauto.
Qed.

End BulkFacts.

(** C7.  A bulk update with an empty list of identifiers is refused with
    status 400.  Otherwise the update is written into exactly the listed
    tasks of the caller: in each of them every field the update carries
    gets the value of the update, every other field is kept, the
    identifier and createdAt with them, and updatedAt becomes the instant
    of the write.  A listed task of another user is left as it was and is
    no error.  modifiedCount is the number of documents the write
    changed, and with one document per identifier that is at most the
    number of identifiers given. *)
Theorem bulkUpdate_modifies_own_listed_tasks (now : Z) (uid : string) (p : Controller.Patch)
    (coll : list Model.TaskDoc) (i : string) (ids : list string)
    (Hvalid : Controller.patch_valid p = true) :
  Controller.bulkUpdateTasks now uid (Some []) p coll
  = (Controller.Json 400 false (Some "Task IDs array is required") Controller.NoData, coll)
  /\ exists n coll',
       Controller.bulkUpdateTasks now uid (Some (i :: ids)) p coll
       = (Controller.Json 200 true (Some (show_Z n ++ " tasks updated successfully"))
                          (Controller.ModifiedCount n), coll')
       /\ Forall2 (fun t t' =>
                     (In (Model._id t) (i :: ids) /\ Model.user t = uid ->
                      t' = Controller.apply_patch now p t
                      /\ Model._id t' = Model._id t
                      /\ Model.title t' = Controller.or_else (Controller.p_title p) (Model.title t)
                      /\ Model.description t'
                         = match Controller.p_description p with
                           | Some d => Some d
                           | None => Model.description t
                           end
                      /\ Model.priority t'
                         = Controller.or_else (Controller.p_priority p) (Model.priority t)
                      /\ Model.status t'
                         = Controller.or_else (Controller.p_status p) (Model.status t)
                      /\ Model.user t' = Controller.or_else (Controller.p_user p) (Model.user t)
                      /\ Model.dueDate t'
                         = match Controller.p_dueDate p with
                           | Some (Some d) => Model.At d
                           | Some None => Model.IsNull
                           | None => Model.dueDate t
                           end
                      /\ Model.completedAt t'
                         = match Controller.p_completedAt p with
                           | Some (Some d) => Model.At d
                           | Some None => Model.IsNull
                           | None => Model.completedAt t
                           end
                      /\ Model.tags t' = Controller.or_else (Controller.p_tags p) (Model.tags t)
                      /\ Model.isArchived t'
                         = Controller.or_else (Controller.p_isArchived p) (Model.isArchived t)
                      /\ Model.createdAt t' = Model.createdAt t
                      /\ Model.updatedAt t' = now)
                     /\ (~ (In (Model._id t) (i :: ids) /\ Model.user t = uid) -> t' = t))
                  coll coll'
       /\ n = Z.of_nat (List.length (filter changed (combine coll coll')))
       /\ (NoDup (map Model._id coll) -> n <= Z.of_nat (List.length (i :: ids))).
Proof.
  split; [reflexivity|].
  unfold Controller.bulkUpdateTasks. rewrite Hvalid.
  eexists. eexists. split; [reflexivity|].
  split; [|split; [apply count_modified | apply modified_le_ids]].
  refine (Forall2_impl _ _ (updateMany_pointwise now uid (i :: ids) p coll)).
  intros t t' [Hown Hother]. split; [|exact Hother].
  intros H. rewrite (Hown H). split; [reflexivity|].
  cbn [Controller.apply_patch Model._id Model.title Model.description Model.priority
       Model.status Model.user Model.dueDate Model.completedAt Model.tags Model.isArchived
       Model.createdAt Model.updatedAt].
  repeat split.
Qed.

(** bulkUpdate(alice, [alice's task, bob's task], {status: completed})
    modifies one record and reports modifiedCount 1: alice's task is
    completed and written at the instant 8, bob's is as it was. *)
Lemma bulkUpdate_modifies_own_listed_tasks_witness :
  Controller.bulkUpdateTasks 8 alice_id (Some [todo_id; bobs_id]) (status_patch Model.completed)
                             [todo_task; bobs_task]
  = (Controller.Json 200 true (Some "1 tasks updated successfully") (Controller.ModifiedCount 1),
     [Model.mkTask todo_id "Ship release" None Model.high Model.completed alice_id
                   Model.Absent Model.Absent [] false 1 8;
      bobs_task]).
Proof.
  destruct (bulkUpdate_modifies_own_listed_tasks 8 alice_id (status_patch Model.completed)
              [todo_task; bobs_task] todo_id [bobs_id] eq_refl) as [_ [n [coll' [E _]]]].
  rewrite E. vm_compute in E. injection E as En Ec. subst n coll'. reflexivity.
Defined.

(** ** Register and login *)

Section ApiRuns.

Variable sha256_hex : string -> string.

Lemma find_app_some {A : Type} (p : A -> bool) (l l' : list A) (x : A) :
  find p l = Some x -> find p (l ++ l') = Some x.
Proof.
  induction l as [|y l IH]; simpl; [discriminate|].
  destruct (p y); [trivial | exact IH].
Qed.

Lemma find_app_none {A : Type} (p : A -> bool) (l l' : list A) :
  find p l = None -> find p (l ++ l') = find p l'.
Proof.
  induction l as [|y l IH]; simpl; [reflexivity|].
  destruct (p y); [discriminate | exact IH].
Qed.

(** No call removes or replaces the first user found under an email. *)
Lemma after_call_keeps_user (st : Api.Store) (c : ApiCall) (email : string) (u : Api.StoredUser) :
  find (fun x => String.eqb (Api.su_email x) email) (Api.users st) = Some u ->
  find (fun x => String.eqb (Api.su_email x) email) (Api.users (after_call sha256_hex st c)) = Some u.
Proof.
  intros F. destruct c as [now created issued un em pw| | | |]; simpl.
  - unfold Api.register.
    destruct (find (fun x => String.eqb (Api.su_email x) em) (Api.users st)); simpl.
    + exact F.
    + apply find_app_some. exact F.
  - exact F.
  - exact F.
  - unfold Api.updateTask.
    destruct (Api.findIndex _ _); [|exact F].
    destruct (nth_error _ _); exact F.
  - unfold Api.deleteTask. destruct (Api.findIndex _ _); exact F.
Qed.

Lemma after_calls_keep_user (calls : list ApiCall) (st : Api.Store) (email : string)
    (u : Api.StoredUser) :
  find (fun x => String.eqb (Api.su_email x) email) (Api.users st) = Some u ->
  find (fun x => String.eqb (Api.su_email x) email) (Api.users (after_calls sha256_hex st calls)) = Some u.
Proof.
  revert st. induction calls as [|c calls IH]; intros st F; [exact F|].
  simpl. apply IH. apply after_call_keeps_user. exact F.
Qed.

End ApiRuns.

(** C9.  After a successful register, and whatever calls of the store
    follow it, a login with the registered email and password returns the
    user register returned, with a token for that user.  A login whose
    email no stored user has, or whose password does not hash to the
    stored hash, throws the one "Invalid credentials" error, and with it
    no token. *)
Theorem register_then_login (sha256_hex : string -> string)
    (now created issued : Z) (username email password : string) (st st' : Api.Store)
    (u : Auth.User) (tok : string) (calls : list ApiCall) (issued' : Z)
    (Hreg : Api.register sha256_hex now created issued username email password st
            = (Ok (u, tok), st')) :
  Api.login sha256_hex issued' email password (after_calls sha256_hex st' calls)
  = Ok (u, Auth.generateToken issued' u)
  /\ (forall st0 e pw,
        find (fun x => String.eqb (Api.su_email x) e) (Api.users st0) = None ->
        Api.login sha256_hex issued' e pw st0 = Throw "Invalid credentials")
  /\ (forall st0 e pw su,
        find (fun x => String.eqb (Api.su_email x) e) (Api.users st0) = Some su ->
        Auth.comparePassword sha256_hex pw (Api.su_password su) = false ->
        Api.login sha256_hex issued' e pw st0 = Throw "Invalid credentials").
Proof.
  split; [|split].
  - unfold Api.register in Hreg.
    destruct (find (fun x => String.eqb (Api.su_email x) email) (Api.users st)) eqn:F;
      [discriminate|].
    injection Hreg as Eu _ Est. subst u st'.
    set (su := Api.mkStored (show_Z now) username email
                            (Auth.hashPassword sha256_hex password) created).
    assert (G : find (fun x => String.eqb (Api.su_email x) email)
                     (Api.users (Api.mkStore (Api.users st ++ [su])%list (Api.tasks st)))
                = Some su).
    { simpl. rewrite (find_app_none _ _ _ F). simpl. rewrite String.eqb_refl. reflexivity. }
    unfold Api.login.
    rewrite (after_calls_keep_user sha256_hex calls _ email su G).
    unfold Auth.comparePassword. simpl. rewrite String.eqb_refl. reflexivity.
  - intros st0 e pw F. unfold Api.login. rewrite F. reflexivity.
  - intros st0 e pw su F C. unfold Api.login. rewrite F, C. reflexivity.
Qed.

(** register("alice", "a@x.com", "Passw0rd") on the empty store, a second
    registration, then login("a@x.com", "Passw0rd"). *)
Lemma register_then_login_witness :
  Api.login (fun s => s) 50 "a@x.com" "Passw0rd"
            (after_calls (fun s => s)
               (snd (Api.register (fun s => s) 10 10 10 "alice" "a@x.com" "Passw0rd" empty_store))
               [CallRegister 20 20 20 "bob" "b@x.com" "Secret1"])
  = Ok (Auth.mkUser "10" "alice" "a@x.com" 10,
        Auth.generateToken 50 (Auth.mkUser "10" "alice" "a@x.com" 10)).
Proof.
  apply (register_then_login (fun s => s) 10 10 10 "alice" "a@x.com" "Passw0rd" empty_store
           _ _ (Auth.generateToken 10 (Auth.mkUser "10" "alice" "a@x.com" 10))).
  reflexivity.
Defined.

(** ** The token: btoa and atob *)

Section Base64Facts.
Import Base64.

Lemma b64_val_char (x : sextet) : b64_val (b64_char x) = Some x.
Proof. destruct x as [[[[[[] []] []] []] []] []]; reflexivity. Qed.

Lemma b64_char_not_space (x : sextet) : is_ascii_whitespace (b64_char x) = false.
Proof. destruct x as [[[[[[] []] []] []] []] []]; reflexivity. Qed.

Lemma b64_char_not_pad (x : sextet) : b64_char x <> "="%char.
Proof. destruct x as [[[[[[] []] []] []] []] []]; discriminate. Qed.

(** Strings three code units at a time. *)
Lemma string_ind3 (P : string -> Prop) :
  P EmptyString ->
  (forall a, P (String a EmptyString)) ->
  (forall a b, P (String a (String b EmptyString))) ->
  (forall a b c s, P s -> P (String a (String b (String c s)))) ->
  forall s, P s.
Proof.
  intros H0 H1 H2 H3.
  assert (G : forall s, P s /\ (forall a, P (String a s)) /\ (forall a b, P (String a (String b s)))).
  { induction s as [|c s [IH0 [IH1 IH2]]].
    - repeat split; auto.
    - repeat split; auto. }
  intros s. apply G.
Qed.

Lemma btoa_data_alphabet (s : string) : Forall in_alphabet (btoa_data s).
Proof.
  induction s as [|[] |[] [] |[] [] [] s IH] using string_ind3; cbn [btoa_data];
    repeat (constructor; [eexists; reflexivity|]); auto.
Qed.

Lemma padding_cases (s : string) :
  padding s = [] \/ padding s = ["="%char] \/ padding s = ["="%char; "="%char].
Proof.
  induction s as [| | |a b c s IH] using string_ind3; cbn [padding]; auto.
Qed.

Lemma btoa_length (s : string) : (List.length (btoa_data s ++ padding s) mod 4 = 0)%nat.
Proof.
  induction s as [|[] |[] [] |[] [] [] s IH] using string_ind3;
    cbn [btoa_data padding]; try reflexivity.
  cbn [app List.length].
  replace (S (S (S (S (List.length (btoa_data s ++ padding s))))))
    with (List.length (btoa_data s ++ padding s) + 1 * 4)%nat by lia.
  rewrite Nat.Div0.mod_add. exact IH.
Qed.

Lemma filter_all {A : Type} (p : A -> bool) (l : list A) :
  Forall (fun x => p x = true) l -> filter p l = l.
Proof.
  induction 1 as [|x l Hx H IH]; simpl; [reflexivity|]. rewrite Hx, IH. reflexivity.
Qed.

Lemma btoa_no_space (s : string) :
  filter (fun c => negb (is_ascii_whitespace c)) (btoa_data s ++ padding s)
  = (btoa_data s ++ padding s)%list.
Proof.
  apply filter_all. apply Forall_app. split.
  - eapply Forall_impl; [|apply btoa_data_alphabet].
    intros c [x ->]. rewrite b64_char_not_space. reflexivity.
  - destruct (padding_cases s) as [-> | [-> | ->]]; repeat constructor.
Qed.

Lemma strip_rev_other (c : ascii) (r l : list ascii) :
  c <> "="%char -> strip_rev (c :: r) l = l.
Proof.
  intros H. destruct c as [[] [] [] [] [] [] [] []]; try reflexivity.
  exfalso. apply H. reflexivity.
Qed.

Lemma strip_rev_one (c : ascii) (r l : list ascii) :
  c <> "="%char -> strip_rev ("="%char :: c :: r) l = rev (c :: r).
Proof.
  intros H. destruct c as [[] [] [] [] [] [] [] []]; try reflexivity.
  exfalso. apply H. reflexivity.
Qed.

Lemma rev_head_alphabet (l : list ascii) :
  Forall in_alphabet l -> rev l = [] \/ exists c r, rev l = c :: r /\ c <> "="%char.
Proof.
  intros F. apply Forall_rev in F. destruct (rev l) as [|c r]; [left; reflexivity|].
  right. exists c, r. split; [reflexivity|].
  inversion F as [|? ? [x ->] _]; subst. apply b64_char_not_pad.
Qed.

Lemma strip_padding_btoa (s : string) :
  strip_padding (btoa_data s ++ padding s) = btoa_data s.
Proof.
  unfold strip_padding. rewrite btoa_length. cbn [Nat.eqb].
  fold (strip_rev (rev (btoa_data s ++ padding s)) (btoa_data s ++ padding s)).
  rewrite rev_app_distr.
  destruct (rev_head_alphabet _ (btoa_data_alphabet s)) as [E | [c [r [E Hc]]]];
    destruct (padding_cases s) as [-> | [-> | ->]]; cbn [rev app];
    rewrite ?app_nil_r.
  - rewrite E. reflexivity.
  - rewrite E. cbn [strip_rev]. rewrite <- E. apply rev_involutive.
  - cbn [strip_rev]. apply rev_involutive.
  - rewrite E. apply strip_rev_other. exact Hc.
  - rewrite E. rewrite (strip_rev_one c r _ Hc). rewrite <- E. apply rev_involutive.
  - cbn [strip_rev]. apply rev_involutive.
Qed.

Lemma decode_btoa_data (s : string) : decode_chars (btoa_data s) = Some s.
Proof.
  induction s as [|[] |[] [] |[] [] [] s IH] using string_ind3;
    cbn [btoa_data decode_chars]; rewrite ?b64_val_char, ?IH; reflexivity.
Qed.

(** atob undoes btoa. *)
Lemma atob_btoa (s : string) : atob (btoa s) = Some s.
Proof.
  unfold atob, btoa. rewrite list_ascii_of_string_of_list_ascii.
  rewrite btoa_no_space, strip_padding_btoa. apply decode_btoa_data.
Qed.

End Base64Facts.

(** ** The token: JSON.parse after JSON.stringify *)

Section JsonFacts.
Import Json.

Lemma append_assoc (a b c : string) : ((a ++ b) ++ c = a ++ (b ++ c))%string.
Proof. induction a as [|x a IH]; simpl; [reflexivity|]. rewrite IH. reflexivity. Qed.

Lemma run_app (st : pstate) (a b : string) :
  run st (a ++ b) = match run st a with Some st' => run st' b | None => None end.
Proof.
  revert st. induction a as [|c a IH]; intros st; simpl; [reflexivity|].
  destruct (step st c); [apply IH | reflexivity].
Qed.

(** Inside a string literal, the escape of a code unit reads back as that
    code unit. *)
Lemma run_escape_char (c : ascii) (k : bool) (acc : list ascii) (stk : list frame) :
  run (MStr k acc, stk) (escape_char c) = Some (MStr k (c :: acc), stk).
Proof. destruct c as [[] [] [] [] [] [] [] []]; reflexivity. Qed.

Lemma run_escape (s : string) (k : bool) (acc : list ascii) (stk : list frame) :
  run (MStr k acc, stk) (escape s)
  = Some (MStr k (rev (list_ascii_of_string s) ++ acc)%list, stk).
Proof.
  revert acc. induction s as [|c s IH]; intros acc; [reflexivity|].
  cbn [escape list_ascii_of_string rev]. rewrite run_app, run_escape_char, IH.
  rewrite <- app_assoc. reflexivity.
Qed.

Lemma string_of_rev_rev (s : string) :
  string_of_rev (rev (list_ascii_of_string s) ++ []) = s.
Proof.
  unfold string_of_rev. rewrite app_nil_r, rev_involutive.
  apply string_of_list_ascii_of_string.
Qed.

(** A quoted string where a value may start. *)
Lemma run_quote_value (s rest : string) (stk : list frame) :
  run (MValue, stk) (quote s ++ rest)
  = match complete (JStr s) stk with Some st => run st rest | None => None end.
Proof.
  unfold quote. cbn [append run]. change (step (MValue, stk) dquote) with (Some (MStr false [], stk)).
  cbv iota. rewrite append_assoc, run_app, run_escape.
  cbn [append run]. change (step (MStr false (rev (list_ascii_of_string s) ++ []), stk) dquote)
    with (end_string false (rev (list_ascii_of_string s) ++ []) stk).
  unfold end_string. rewrite string_of_rev_rev. reflexivity.
Qed.

(** A quoted key and its colon, in a mode [m] that opens a key at a
    double quote (first in the object, or after a comma). *)
Lemma run_quote_key (m : mode) (k rest : string) (stk : list frame) :
  step (m, stk) dquote = Some (MStr true [], stk) ->
  run (m, stk) (quote k ++ String ":" rest) = run (MValue, FKey k :: stk) rest.
Proof.
  intros E. unfold quote. cbn [append run].
  rewrite E. rewrite append_assoc, run_app, run_escape.
  cbn [append run]. change (step (MStr true (rev (list_ascii_of_string k) ++ []), stk) dquote)
    with (end_string true (rev (list_ascii_of_string k) ++ []) stk).
  unfold end_string. rewrite string_of_rev_rev. reflexivity.
Qed.

(** Decimal digits. *)
Lemma run_digits (d : Decimal.uint) (neg : bool) (acc : list ascii) (stk : list frame) :
  run (MInt neg acc, stk) (NilEmpty.string_of_uint d)
  = Some (MInt neg (rev (list_ascii_of_string (NilEmpty.string_of_uint d)) ++ acc)%list, stk).
Proof.
  revert acc. induction d as [|d IH|d IH|d IH|d IH|d IH|d IH|d IH|d IH|d IH|d IH];
    intros acc; [reflexivity| ..];
    cbn [NilEmpty.string_of_uint list_ascii_of_string rev run];
    (match goal with |- context [step ?st ?c] =>
       change (step st c) with (Some (MInt neg (c :: acc), stk)) end);
    cbv iota; rewrite IH, <- app_assoc; reflexivity.
Qed.

Lemma to_uint_no_leading_zero (p : positive) (d : Decimal.uint) :
  Pos.to_uint p <> Decimal.D0 d.
Proof.
  intros E.
  assert (U : Decimal.unorm (Pos.to_uint p) = Pos.to_uint p).
  { change (Pos.to_uint p) with (N.to_uint (Npos p)).
    rewrite <- (DecimalN.Unsigned.of_to (Npos p)) at 2.
    symmetry. apply DecimalN.Unsigned.to_of. }
  rewrite E in U. rewrite DecimalFacts.unorm_D0 in U.
  destruct (Decimal.uint_eq_dec (Decimal.nzhead d) Decimal.Nil) as [Z|NZ].
  - apply DecimalFacts.unorm_0 in Z. rewrite Z in U.
    apply (DecimalPos.Unsigned.to_uint_nonzero p). rewrite E. symmetry. exact U.
  - rewrite (DecimalFacts.unorm_nzhead _ NZ) in U.
    exact (DecimalFacts.nzhead_nonzero _ _ U).
Qed.

(** The digits of a positive number, after an optional minus sign, up to
    a character [c] that is not a digit. *)
Lemma run_positive (p : positive) (neg : bool) (stk : list frame) (c : ascii) (rest : string) :
  is_digit c = false ->
  run (if neg then MMinus else MValue, stk) (show_N (Npos p) ++ String c rest)
  = match settle_number neg (rev (list_ascii_of_string (show_N (Npos p)))) stk c with
    | Some st => run st rest
    | None => None
    end.
Proof.
  intros Hc. unfold show_N. change (N.to_uint (Npos p)) with (Pos.to_uint p).
  pose proof (to_uint_no_leading_zero p) as NZ.
  pose proof (DecimalPos.Unsigned.to_uint_nonnil p) as NN.
  destruct (Pos.to_uint p) as [|d|d|d|d|d|d|d|d|d|d];
    [ exfalso; apply NN; reflexivity
    | exfalso; apply (NZ d); reflexivity
    | .. ];
    cbn [NilEmpty.string_of_uint append run];
    (match goal with |- context [step ?st ?x] =>
       replace (step st x) with (Some (MInt neg [x], stk)) by (destruct neg; reflexivity) end);
    rewrite run_app, run_digits; cbn [run list_ascii_of_string rev];
    (match goal with |- context [step (MInt neg ?a, stk) c] =>
       replace (step (MInt neg a, stk) c) with (settle_number neg a stk c)
         by (cbn [step]; rewrite Hc; reflexivity) end);
    reflexivity.
Qed.

Lemma number_of_show (p : positive) (neg : bool) :
  number_of neg (rev (list_ascii_of_string (show_N (Npos p))))
  = Some (JNum (if neg then Zneg p else Zpos p)).
Proof.
  unfold number_of, string_of_rev. rewrite rev_involutive, string_of_list_ascii_of_string.
  unfold show_N. rewrite NilEmpty.usu, DecimalN.Unsigned.of_to.
  destruct neg; reflexivity.
Qed.

(** An integer where a value may start, up to a character that is not a
    digit. *)
Lemma run_number (z : Z) (stk : list frame) (c : ascii) (rest : string) :
  is_digit c = false ->
  run (MValue, stk) (show_Z z ++ String c rest)
  = match complete (JNum z) stk with
    | Some (m, stk') =>
        match step_after m stk' c with Some st => run st rest | None => None end
    | None => None
    end.
Proof.
  intros Hc. destruct z as [|p|p].
  - cbn [show_Z Z.to_N]. change (show_N 0) with "0"%string. cbn [append run].
    change (step (MValue, stk) "0") with (Some (MZero false, stk)). cbv iota.
    cbn [step]. rewrite Hc. unfold settle_number.
    change (number_of false ["0"%char]) with (Some (JNum 0)). cbv iota.
    destruct (complete (JNum 0) stk) as [[m stk']|]; reflexivity.
  - cbn [show_Z Z.to_N]. rewrite (run_positive p false stk c rest Hc).
    unfold settle_number. rewrite number_of_show.
    destruct (complete (JNum (Zpos p)) stk) as [[m stk']|]; reflexivity.
  - cbn [show_Z append run].
    change (step (MValue, stk) "-") with (Some (MMinus, stk)). cbv iota.
    rewrite (run_positive p true stk c rest Hc).
    unfold settle_number. rewrite number_of_show.
    destruct (complete (JNum (Zneg p)) stk) as [[m stk']|]; reflexivity.
Qed.

End JsonFacts.

Section TokenFacts.
Import Json Auth.

(** JSON.parse reads the payload of generateToken back. *)
Lemma parse_payload (now : Z) (u : User) :
  JSON_parse (JSON_stringify (payload_of now u)) = Some (payload_of now u).
Proof.
  unfold JSON_parse.
  cbn [JSON_stringify payload_of map join_with fst snd].
  rewrite !append_assoc. cbn [append run].
  change (step (MValue, []) "{") with (Some (MObjFirst, [FObj []])). cbv iota.
  rewrite (run_quote_key MObjFirst) by reflexivity.
  rewrite run_quote_value. cbn [complete run].
  change (step (MAfter, [FObj [("id"%string, JStr (id u))]]) ",")
    with (Some (MObjKey, [FObj [("id"%string, JStr (id u))]])). cbv iota.
  rewrite (run_quote_key MObjKey) by reflexivity.
  rewrite run_quote_value. cbn [complete run].
  match goal with |- context [step (MAfter, ?stk) ","%char] =>
    change (step (MAfter, stk) ","%char) with (Some (MObjKey, stk)) end. cbv iota.
  rewrite (run_quote_key MObjKey) by reflexivity.
  rewrite run_quote_value. cbn [complete run].
  match goal with |- context [step (MAfter, ?stk) ","%char] =>
    change (step (MAfter, stk) ","%char) with (Some (MObjKey, stk)) end. cbv iota.
  rewrite (run_quote_key MObjKey) by reflexivity.
  rewrite run_number by reflexivity.
  reflexivity.
Qed.

Lemma decode_issued (now : Z) (u : User) :
  Base64.atob (generateToken now u) = Some (JSON_stringify (payload_of now u)).
Proof. apply atob_btoa. Qed.

(** verifyToken on a token of generateToken: null once the expiry is
    behind the clock, the identity otherwise. *)
Lemma verify_issued (now later : Z) (u : User) :
  verifyToken later (generateToken now u)
  = if now + TTL <? later then None
    else Some (mkVerified (Some (JStr (id u))) (Some (JStr (username u)))
                          (Some (JStr (email u))) (IsoOfNow later)).
Proof.
  unfold verifyToken. rewrite decode_issued, parse_payload. reflexivity.
Qed.

End TokenFacts.

(** C5, as stated, fails: nothing in a token ties its claims to the
    issuer.  The forged token was never produced by generateToken, for any
    user at any instant, and verifyToken accepts it at every instant and
    returns the identity it names. *)
Lemma forged_token_verifies :
  (forall now u, Auth.generateToken now u <> forged_token)
  /\ (forall later,
        Auth.verifyToken later forged_token
        = Some (Auth.mkVerified (Some (Json.JStr "admin")) (Some (Json.JStr "root"))
                                (Some (Json.JStr "root@x.com")) (Auth.IsoOfNow later))).
Proof.
  split.
  - intros now u E.
    assert (D : Base64.atob (Auth.generateToken now u) = Base64.atob forged_token)
      by (rewrite E; reflexivity).
    unfold forged_token in D. rewrite decode_issued, atob_btoa in D.
    assert (T : Json.JSON_stringify (Auth.payload_of now u) = Json.JSON_stringify forged_claims)
      by congruence.
    assert (P : Json.JSON_parse (Json.JSON_stringify (Auth.payload_of now u))
                = Json.JSON_parse (Json.JSON_stringify forged_claims))
      by (rewrite T; reflexivity).
    rewrite parse_payload in P.
    change (Json.JSON_parse (Json.JSON_stringify forged_claims)) with (Some forged_claims) in P.
    discriminate P.
  - intros later. unfold Auth.verifyToken, forged_token. rewrite atob_btoa.
    reflexivity.
Qed.

(** The text of that token. *)
Example forged_token_text :
  forged_token = "eyJpZCI6ImFkbWluIiwidXNlcm5hbWUiOiJyb290IiwiZW1haWwiOiJyb290QHguY29tIn0=".
Proof. reflexivity. Qed.

(** A token that is not even an object: "NQ==" decodes to the JSON number
    5, whose exp is undefined, and is accepted with undefined fields. *)
Example number_token_verifies (later : Z) :
  Auth.verifyToken later "NQ=="
  = Some (Auth.mkVerified None None None (Auth.IsoOfNow later)).
Proof. reflexivity. Qed.

(** C5, amended.  For a token produced by generateToken, verifyToken
    returns the identity claims it was issued with as long as the clock
    has not passed the expiry (24 hours after the issue), and null once it
    has; it also returns null for a text that atob or JSON.parse rejects.
    The failures are the one null, not told apart, and no check ties the
    claims to the issuer. *)
Theorem verifyToken_of_issued (now later : Z) (u : Auth.User) (tok : string) :
  (later <= now + Auth.TTL ->
   Auth.verifyToken later (Auth.generateToken now u)
   = Some (Auth.mkVerified (Some (Json.JStr (Auth.id u))) (Some (Json.JStr (Auth.username u)))
                           (Some (Json.JStr (Auth.email u))) (Auth.IsoOfNow later)))
  /\ (now + Auth.TTL < later -> Auth.verifyToken later (Auth.generateToken now u) = None)
  /\ (Base64.atob tok = None -> Auth.verifyToken later tok = None)
  /\ (forall text, Base64.atob tok = Some text -> Json.JSON_parse text = None ->
      Auth.verifyToken later tok = None).
Proof.
  split; [|split; [|split]].
  - intros H. rewrite verify_issued.
    destruct (Z.ltb_spec (now + Auth.TTL) later); [lia | reflexivity].
  - intros H. rewrite verify_issued.
    destruct (Z.ltb_spec (now + Auth.TTL) later); [reflexivity | lia].
  - intros H. unfold Auth.verifyToken. rewrite H. reflexivity.
  - intros text H1 H2. unfold Auth.verifyToken. rewrite H1, H2. reflexivity.
Qed.

(** A token issued at 1000 is good at 86401000 and void one millisecond
    later; "!" is not base64 and "e30" with a brace cut off is not JSON. *)
Lemma verifyToken_of_issued_witness :
  Auth.verifyToken 86401000 (Auth.generateToken 1000 alice)
  = Some (Auth.mkVerified (Some (Json.JStr "1")) (Some (Json.JStr "alice"))
                          (Some (Json.JStr "a@x.com")) (Auth.IsoOfNow 86401000))
  /\ Auth.verifyToken 86401001 (Auth.generateToken 1000 alice) = None
  /\ Auth.verifyToken 5 "!" = None
  /\ Auth.verifyToken 5 "ew==" = None.
Proof.
  destruct (verifyToken_of_issued 1000 86401000 alice "!") as [A [_ [C _]]].
  destruct (verifyToken_of_issued 1000 86401001 alice "ew==") as [_ [B [_ D]]].
  split; [apply A; vm_compute; discriminate|].
  split; [apply B; reflexivity|].
  split; [apply C; reflexivity|].
  apply (D "{"%string); reflexivity.
Defined.

(** * Further properties of the handlers *)

(** ** One document per identifier *)

Section UniqueIds.
Import Model Controller.

Lemma id_not_in_rest (id : string) (coll : list TaskDoc) (g : TaskDoc -> TaskDoc) :
  ~ In id (map _id coll) ->
  map (fun x => if String.eqb (_id x) id then g x else x) coll = coll.
Proof.
  induction coll as [|x coll IH]; intros H; [reflexivity|].
  cbn [map]. destruct (String.eqb_spec (_id x) id) as [E|N].
  - exfalso. apply H. left. exact E.
  - rewrite IH; [reflexivity|]. intros Hin. apply H. right. exact Hin.
Qed.

Lemma update_by_id_unique (id : string) (f : TaskDoc -> TaskDoc) (coll : list TaskDoc) :
  NoDup (map _id coll) ->
  update_by_id id f coll = map (fun x => if String.eqb (_id x) id then f x else x) coll.
Proof.
  induction coll as [|x coll IH]; intros N; [reflexivity|].
  cbn [map] in N. apply NoDup_cons_iff in N. destruct N as [Hx N].
  cbn [update_by_id map]. destruct (String.eqb_spec (_id x) id) as [E|Ne].
  - rewrite id_not_in_rest; [reflexivity|]. rewrite <- E. exact Hx.
  - rewrite (IH N). reflexivity.
Qed.

Lemma id_not_in_filter (id : string) (coll : list TaskDoc) :
  ~ In id (map _id coll) ->
  filter (fun x => negb (String.eqb (_id x) id)) coll = coll.
Proof.
  induction coll as [|x coll IH]; intros H; [reflexivity|].
  cbn [filter]. destruct (String.eqb_spec (_id x) id) as [E|N].
  - exfalso. apply H. left. exact E.
  - cbn [negb]. rewrite IH; [reflexivity|]. intros Hin. apply H. right. exact Hin.
Qed.

Lemma delete_by_id_unique (id : string) (coll : list TaskDoc) :
  NoDup (map _id coll) ->
  delete_by_id id coll = filter (fun x => negb (String.eqb (_id x) id)) coll.
Proof.
  induction coll as [|x coll IH]; intros N; [reflexivity|].
  cbn [map] in N. apply NoDup_cons_iff in N. destruct N as [Hx N].
  cbn [delete_by_id filter]. destruct (String.eqb_spec (_id x) id) as [E|Ne].
  - cbn [negb]. rewrite id_not_in_filter; [reflexivity|]. rewrite <- E. exact Hx.
  - cbn [negb]. rewrite (IH N). reflexivity.
Qed.

(** With unique identifiers the lookup by identifier and owner finds the
    owner's document. *)
Lemma findOne_unique (uid : string) (t : TaskDoc) (coll : list TaskDoc) :
  NoDup (map _id coll) -> In t coll -> user t = uid ->
  findOne (_id t) uid coll = Some t.
Proof.
  unfold findOne. induction coll as [|x coll IH]; intros N Hin Hu; [destruct Hin|].
  cbn [map] in N. apply NoDup_cons_iff in N. destruct N as [Hx N].
  cbn [find]. destruct Hin as [->|Hin].
  - rewrite String.eqb_refl, Hu, String.eqb_refl. reflexivity.
  - destruct (String.eqb_spec (_id x) (_id t)) as [E|Ne].
    + exfalso. apply Hx. rewrite E. apply in_map. exact Hin.
    + cbn [andb]. apply IH; assumption.
Qed.

Lemma find_by_id_unique (t : TaskDoc) (coll : list TaskDoc) :
  NoDup (map _id coll) -> In t coll ->
  find (fun x => String.eqb (_id x) (_id t)) coll = Some t.
Proof.
  induction coll as [|x coll IH]; intros N Hin; [destruct Hin|].
  cbn [map] in N. apply NoDup_cons_iff in N. destruct N as [Hx N].
  cbn [find]. destruct Hin as [->|Hin].
  - rewrite String.eqb_refl. reflexivity.
  - destruct (String.eqb_spec (_id x) (_id t)) as [E|Ne].
    + exfalso. apply Hx. rewrite E. apply in_map. exact Hin.
    + apply IH; assumption.
Qed.

Lemma find_by_id_map (t : TaskDoc) (g : TaskDoc -> TaskDoc) (coll : list TaskDoc) :
  (forall x, _id (g x) = _id x) ->
  find (fun x => String.eqb (_id x) (_id t)) coll = Some t ->
  find (fun x => String.eqb (_id x) (_id t))
       (map (fun x => if String.eqb (_id x) (_id t) then g x else x) coll)
  = Some (g t).
Proof.
  intros Hg. induction coll as [|x coll IH]; [discriminate|].
  cbn [find map]. destruct (String.eqb (_id x) (_id t)) eqn:E.
  - intros H. injection H as ->. rewrite Hg, String.eqb_refl. reflexivity.
  - rewrite E. exact IH.
Qed.

Lemma find_absent_id (id : string) (coll : list TaskDoc) (p : TaskDoc -> bool) :
  ~ In id (map _id coll) ->
  find (fun x => String.eqb (_id x) id && p x) coll = None.
Proof.
  induction coll as [|x coll IH]; intros H; [reflexivity|].
  cbn [find]. destruct (String.eqb_spec (_id x) id) as [E|N].
  - exfalso. apply H. left. exact E.
  - cbn [andb]. apply IH. intros Hin. apply H. right. exact Hin.
Qed.

End UniqueIds.

(** ** Create, read, update, delete *)

Section Crud.
Import Model Controller.

Lemma pre_save_fields (m : bool) (now : Z) (t : TaskDoc) :
  _id (pre_save m now t) = _id t /\ user (pre_save m now t) = user t
  /\ status (pre_save m now t) = status t
  /\ createdAt (pre_save m now t) = createdAt t
  /\ updatedAt (pre_save m now t) = updatedAt t.
Proof.
  unfold pre_save. destruct m; [|repeat split].
  destruct (Status_eqb (status t) completed && negb (truthy (completedAt t)));
    [repeat split|].
  destruct (negb (Status_eqb (status t) completed)); repeat split.
Qed.

Lemma createTask_valid (newId : string) (now : Z) (uid : string) (b : CreateBody)
    (coll : list TaskDoc) :
  ~ In (or_else (c_id b) newId) (map _id coll) ->
  doc_valid (new_doc newId now uid (set_c_user uid b)) = true ->
  createTask newId now uid b coll
  = (Json 201 true (Some "Task created successfully")
          (OneTask (pre_save true now (new_doc newId now uid (set_c_user uid b)))),
     (coll ++ [pre_save true now (new_doc newId now uid (set_c_user uid b))])%list).
Proof.
  intros F V. unfold createTask, Task_create.
  change (c_user (set_c_user uid b)) with (Some uid). cbv beta zeta iota.
  rewrite V.
  change (_id (new_doc newId now uid (set_c_user uid b))) with (or_else (c_id b) newId).
  destruct (existsb (String.eqb (or_else (c_id b) newId)) (map _id coll)) eqn:E;
    [|reflexivity].
  exfalso. apply F. apply existsb_exists in E. destruct E as [x [Hx Ex]].
  apply String.eqb_eq in Ex. subst x. exact Hx.
Qed.

Lemma createTask_duplicate (newId : string) (now : Z) (uid : string) (b : CreateBody)
    (coll : list TaskDoc) :
  In (or_else (c_id b) newId) (map _id coll) ->
  exists e, createTask newId now uid b coll = (NextError e, coll).
Proof.
  intros F. unfold createTask, Task_create.
  change (c_user (set_c_user uid b)) with (Some uid). cbv beta zeta iota.
  destruct (doc_valid (new_doc newId now uid (set_c_user uid b)));
    [|eexists; reflexivity].
  change (_id (new_doc newId now uid (set_c_user uid b))) with (or_else (c_id b) newId).
  destruct (existsb (String.eqb (or_else (c_id b) newId)) (map _id coll)) eqn:E;
    [eexists; reflexivity|].
  exfalso. assert (T : existsb (String.eqb (or_else (c_id b) newId)) (map _id coll) = true).
  { apply existsb_exists. exists (or_else (c_id b) newId). split; [exact F|].
    apply String.eqb_refl. }
  congruence.
Qed.

End Crud.

(** X1.  A valid task whose identifier (the _id of the body, or else
    the one the store gives it) no document has yet is stored at the end
    of the collection with the caller as owner.  Its createdAt is the one
    the body sent, or else the instant of the save, and its updatedAt is
    its createdAt.  The owner reads it back by that identifier, any other
    user gets "Task not found", and identifiers stay unique.  A create
    under an identifier some document has is an error that leaves the
    collection as it was. *)
Theorem create_then_get (newId : string) (now : Z) (uid : string)
    (b : Controller.CreateBody) (coll : list Model.TaskDoc)
    (Hfresh : ~ In (Controller.or_else (Controller.c_id b) newId) (map Model._id coll))
    (Hvalid : Controller.doc_valid
                (Controller.new_doc newId now uid (Controller.set_c_user uid b)) = true) :
  (exists t,
    Controller.createTask newId now uid b coll
    = (Controller.Json 201 true (Some "Task created successfully") (Controller.OneTask t),
       (coll ++ [t])%list)
    /\ Model._id t = Controller.or_else (Controller.c_id b) newId /\ Model.user t = uid
    /\ Model.createdAt t = Controller.or_else (Controller.c_createdAt b) now
    /\ Model.updatedAt t = Model.createdAt t
    /\ Controller.getTask uid (Model._id t) (coll ++ [t])
       = Controller.Json 200 true None (Controller.OneTask t)
    /\ (forall other, other <> uid ->
        Controller.getTask other (Model._id t) (coll ++ [t])
        = Controller.Json 404 false (Some "Task not found") Controller.NoData)
    /\ (NoDup (map Model._id coll) -> NoDup (map Model._id (coll ++ [t])))
    /\ (forall newId' now' uid' b',
        Controller.c_id b' = Some (Model._id t) ->
        exists e, Controller.createTask newId' now' uid' b' (coll ++ [t])
                  = (Controller.NextError e, (coll ++ [t])%list))).
Proof.
  set (doc := Controller.new_doc newId now uid (Controller.set_c_user uid b)).
  set (i := Controller.or_else (Controller.c_id b) newId) in *.
  exists (Model.pre_save true now doc).
  destruct (pre_save_fields true now doc) as [Hi [Hu [_ [Hc Hm]]]].
  split; [apply createTask_valid; [exact Hfresh | exact Hvalid]|].
  split; [exact Hi|]. split; [exact Hu|]. split; [exact Hc|].
  split; [rewrite Hc, Hm; reflexivity|].
  rewrite Hi. change (Model._id doc) with i.
  split; [|split; [|split]].
  - unfold Controller.getTask, Controller.findOne.
    rewrite find_app_none by (apply find_absent_id; exact Hfresh).
    cbn [find]. rewrite Hi, Hu. change (Model._id doc) with i.
    change (Model.user doc) with uid. rewrite !String.eqb_refl. reflexivity.
  - intros other Ho. unfold Controller.getTask, Controller.findOne.
    rewrite find_app_none by (apply find_absent_id; exact Hfresh).
    cbn [find]. rewrite Hi, Hu. change (Model._id doc) with i.
    change (Model.user doc) with uid. rewrite String.eqb_refl.
    destruct (String.eqb_spec uid other) as [E|N]; [congruence | reflexivity].
  - intros N. rewrite map_app. cbn [map]. rewrite Hi. change (Model._id doc) with i.
    apply NoDup_app; [exact N | repeat constructor; intros [] |].
    intros x Hx [<-|[]]. exact (Hfresh Hx).
  - intros newId' now' uid' b' Eb. apply createTask_duplicate.
    rewrite Eb. cbn [Controller.or_else]. rewrite map_app. apply in_or_app. right.
    cbn [map]. rewrite Hi. left. reflexivity.
Qed.

(** Alice creates a task whose body names bob as owner and carries a
    createdAt of its own: it is hers, created at the instant the body
    gave, and bob cannot read it. *)
Lemma create_then_get_witness :
  exists t,
    Controller.createTask new_id 3 alice_id backdated_body [todo_task; bobs_task]
    = (Controller.Json 201 true (Some "Task created successfully") (Controller.OneTask t),
       [todo_task; bobs_task; t])
    /\ Model.createdAt t = 1 /\ Model.updatedAt t = 1
    /\ Controller.getTask alice_id new_id [todo_task; bobs_task; t]
       = Controller.Json 200 true None (Controller.OneTask t)
    /\ Controller.getTask bob_id new_id [todo_task; bobs_task; t]
       = Controller.Json 404 false (Some "Task not found") Controller.NoData.
Proof.
  destruct (create_then_get new_id 3 alice_id backdated_body [todo_task; bobs_task])
    as [t [A [I [_ [Hc [Hu [B [C _]]]]]]]].
  - intros [E|[E|[]]]; discriminate E.
  - reflexivity.
  - exists t. cbn in I. rewrite I in B, C.
    split; [exact A|]. split; [exact Hc|]. split; [rewrite Hu; exact Hc|].
    split; [exact B|]. apply C. discriminate.
Defined.

(** X2.  The completedAt of a created task follows its status: it is a
    Date exactly when the status is completed.  A completedAt sent with a
    task that is not completed is dropped, one sent with a completed task
    is kept, and a completed task sent without one (or with null) gets
    the instant of the save. *)
Theorem create_sets_completedAt (newId : string) (now : Z) (uid : string)
    (b : Controller.CreateBody) (coll coll' : list Model.TaskDoc) (t : Model.TaskDoc)
    (Hcreated : Controller.createTask newId now uid b coll
                = (Controller.Json 201 true (Some "Task created successfully")
                                   (Controller.OneTask t), coll')) :
  Model.status t = Controller.c_status b
  /\ (Model.status t = Model.completed <-> exists d, Model.completedAt t = Model.At d)
  /\ (Model.status t <> Model.completed -> Model.completedAt t = Model.Absent)
  /\ (forall d, Controller.c_status b = Model.completed ->
                Controller.c_completedAt b = Some (Some d) -> Model.completedAt t = Model.At d)
  /\ (Controller.c_status b = Model.completed ->
      Controller.c_completedAt b = None \/ Controller.c_completedAt b = Some None ->
      Model.completedAt t = Model.At now).
Proof.
  unfold Controller.createTask, Controller.Task_create in Hcreated.
  change (Controller.c_user (Controller.set_c_user uid b)) with (Some uid) in Hcreated.
  cbv beta zeta iota in Hcreated.
  destruct (Controller.doc_valid
              (Controller.new_doc newId now uid (Controller.set_c_user uid b)));
    [|discriminate].
  destruct (existsb _ _); [discriminate|].
  injection Hcreated as <- _. unfold Model.pre_save. cbn.
  destruct (Controller.c_status b) eqn:S;
    destruct (Controller.c_completedAt b) as [[d0|]|] eqn:C; cbn;
    repeat split; intros; rewrite ?C; cbn;
    try discriminate; try congruence; eauto;
    try (destruct H; discriminate);
    try (destruct H0; discriminate).
Qed.

(** A completed task sent with a completedAt of its own, and a todo task
    sent with one. *)
Lemma create_sets_completedAt_witness :
  map Model.completedAt
      (snd (Controller.createTask new_id 9 alice_id
              (Controller.mkCreate "Done" None Model.low Model.completed None None
                                   (Some (Some 4)) [] None None None) []))
  = [Model.At 4]
  /\ map Model.completedAt
      (snd (Controller.createTask new_id 9 alice_id
              (Controller.mkCreate "Open" None Model.low Model.todo None None
                                   (Some (Some 4)) [] None None None) []))
  = [Model.Absent].
Proof.
  pose proof (create_sets_completedAt new_id 9 alice_id
                (Controller.mkCreate "Done" None Model.low Model.completed None None
                                     (Some (Some 4)) [] None None None) [] _ _ eq_refl)
    as [_ [_ [_ [H1 _]]]].
  pose proof (create_sets_completedAt new_id 9 alice_id
                (Controller.mkCreate "Open" None Model.low Model.todo None None
                                     (Some (Some 4)) [] None None None) [] _ _ eq_refl)
    as [_ [_ [H2 _]]].
  split.
  - change (map Model.completedAt
              (snd (Controller.createTask new_id 9 alice_id
                      (Controller.mkCreate "Done" None Model.low Model.completed None None
                                           (Some (Some 4)) [] None None None) [])))
      with [Model.completedAt
              (Model.pre_save true 9
                 (Controller.new_doc new_id 9 alice_id
                    (Controller.set_c_user alice_id
                       (Controller.mkCreate "Done" None Model.low Model.completed None None
                                            (Some (Some 4)) [] None None None))))].
    exact (f_equal (fun x => [x]) (H1 4 eq_refl eq_refl)).
  - change (map Model.completedAt
              (snd (Controller.createTask new_id 9 alice_id
                      (Controller.mkCreate "Open" None Model.low Model.todo None None
                                           (Some (Some 4)) [] None None None) [])))
      with [Model.completedAt
              (Model.pre_save true 9
                 (Controller.new_doc new_id 9 alice_id
                    (Controller.set_c_user alice_id
                       (Controller.mkCreate "Open" None Model.low Model.todo None None
                                            (Some (Some 4)) [] None None None))))].
    refine (f_equal (fun x => [x]) (H2 _)). discriminate.
Defined.

Section CrudFacts.
Import Model Controller.

Lemma filter_one_out (t : TaskDoc) (coll : list TaskDoc) :
  NoDup (map _id coll) -> In t coll ->
  S (List.length (filter (fun x => negb (String.eqb (_id x) (_id t))) coll))
  = List.length coll.
Proof.
  induction coll as [|x coll IH]; intros N Hin; [destruct Hin|].
  cbn [map] in N. apply NoDup_cons_iff in N. destruct N as [Hx N].
  cbn [filter List.length]. destruct Hin as [->|Hin].
  - rewrite String.eqb_refl. cbn [negb].
    rewrite id_not_in_filter by exact Hx. reflexivity.
  - destruct (String.eqb_spec (_id x) (_id t)) as [E|Ne].
    + exfalso. apply Hx. rewrite E. apply in_map. exact Hin.
    + cbn [negb List.length]. rewrite (IH N Hin). reflexivity.
Qed.

Lemma map_ids_same (g : TaskDoc -> TaskDoc) (coll : list TaskDoc) :
  (forall x, _id (g x) = _id x) -> map _id (map g coll) = map _id coll.
Proof. intros H. rewrite map_map. apply map_ext. exact H. Qed.

End CrudFacts.

(** X3.  With one document per identifier, an update of a task by its
    owner with a valid body answers with the task as written and changes
    that document only: every other document of the collection is kept
    as it was, and the identifier and createdAt of the task stay while
    updatedAt becomes the instant of the write. *)
Theorem update_touches_one_task (now : Z) (uid : string) (p : Controller.Patch)
    (coll : list Model.TaskDoc) (t : Model.TaskDoc)
    (Hunique : NoDup (map Model._id coll))
    (Hin : In t coll)
    (Howner : Model.user t = uid)
    (Hvalid : Controller.patch_valid p = true) :
  Controller.updateTask now uid (Model._id t) p coll
  = (Controller.Json 200 true (Some "Task updated successfully")
                     (Controller.OneTask (Controller.apply_patch now p t)),
     map (fun x => if String.eqb (Model._id x) (Model._id t)
                   then Controller.apply_patch now p x else x) coll)
  /\ (forall x, In x coll -> x <> t ->
      In x (snd (Controller.updateTask now uid (Model._id t) p coll)))
  /\ Model._id (Controller.apply_patch now p t) = Model._id t
  /\ Model.createdAt (Controller.apply_patch now p t) = Model.createdAt t
  /\ Model.updatedAt (Controller.apply_patch now p t) = now.
Proof.
  assert (E : Controller.updateTask now uid (Model._id t) p coll
              = (Controller.Json 200 true (Some "Task updated successfully")
                                 (Controller.OneTask (Controller.apply_patch now p t)),
                 map (fun x => if String.eqb (Model._id x) (Model._id t)
                               then Controller.apply_patch now p x else x) coll)).
  { unfold Controller.updateTask.
    rewrite (findOne_unique uid t coll Hunique Hin Howner), Hvalid.
    cbv zeta. rewrite (update_by_id_unique _ _ _ Hunique).
    rewrite (find_by_id_map t (Controller.apply_patch now p) coll (fun x => eq_refl)
               (find_by_id_unique t coll Hunique Hin)).
    reflexivity. }
  split; [exact E|]. split; [|repeat split].
  intros x Hx Hne. rewrite E. cbn [snd]. apply in_map_iff. exists x. split; [|exact Hx].
  destruct (String.eqb_spec (Model._id x) (Model._id t)) as [Ei|Ni]; [|reflexivity].
  exfalso. apply Hne. clear - Hunique Hin Hx Ei.
  induction coll as [|y coll IH]; [destruct Hin|].
  cbn [map] in Hunique. apply NoDup_cons_iff in Hunique. destruct Hunique as [Hy N].
  destruct Hin as [->|Hin], Hx as [->|Hx]; auto.
  - exfalso. apply Hy. rewrite <- Ei. apply in_map. exact Hx.
  - exfalso. apply Hy. rewrite Ei. apply in_map. exact Hin.
Qed.

Lemma update_touches_one_task_witness :
  Controller.updateTask 8 alice_id todo_id (status_patch Model.in_progress) [todo_task; bobs_task]
  = (Controller.Json 200 true (Some "Task updated successfully")
       (Controller.OneTask (Controller.apply_patch 8 (status_patch Model.in_progress) todo_task)),
     [Controller.apply_patch 8 (status_patch Model.in_progress) todo_task; bobs_task]).
Proof.
  refine (proj1 (update_touches_one_task 8 alice_id (status_patch Model.in_progress)
                   [todo_task; bobs_task] todo_task _ _ eq_refl eq_refl)).
  - repeat constructor; cbn; intuition discriminate.
  - left. reflexivity.
Defined.

(** X4.  With one document per identifier, a delete by the owner removes
    that document and nothing else: the collection is one document
    shorter, every other document is still there, and from then on a
    read of that identifier answers "Task not found" for every user,
    the former owner included. *)
Theorem delete_removes_one_task (uid : string) (coll : list Model.TaskDoc) (t : Model.TaskDoc)
    (Hunique : NoDup (map Model._id coll))
    (Hin : In t coll)
    (Howner : Model.user t = uid) :
  let coll' := filter (fun x => negb (String.eqb (Model._id x) (Model._id t))) coll in
  Controller.deleteTask uid (Model._id t) coll
  = (Controller.Json 200 true (Some "Task deleted successfully") Controller.NoData, coll')
  /\ S (List.length coll') = List.length coll
  /\ (forall x, In x coll -> Model._id x <> Model._id t -> In x coll')
  /\ (forall anyone, Controller.getTask anyone (Model._id t) coll'
                     = Controller.Json 404 false (Some "Task not found") Controller.NoData)
  /\ Controller.deleteTask uid (Model._id t) coll'
     = (Controller.Json 404 false (Some "Task not found") Controller.NoData, coll').
Proof.
  intros coll'.
  assert (A : ~ In (Model._id t) (map Model._id coll')).
  { intros H. apply in_map_iff in H. destruct H as [x [E Hx]].
    apply filter_In in Hx. destruct Hx as [_ Hx]. rewrite E, String.eqb_refl in Hx.
    discriminate. }
  assert (F : forall anyone, Controller.findOne (Model._id t) anyone coll' = None).
  { intros anyone. unfold Controller.findOne. apply find_absent_id. exact A. }
  split; [|split; [|split; [|split]]].
  - unfold Controller.deleteTask.
    rewrite (findOne_unique uid t coll Hunique Hin Howner).
    rewrite (delete_by_id_unique _ _ Hunique). reflexivity.
  - apply filter_one_out; assumption.
  - intros x Hx Hne. apply filter_In. split; [exact Hx|].
    destruct (String.eqb_spec (Model._id x) (Model._id t)); [contradiction | reflexivity].
  - intros anyone. unfold Controller.getTask. rewrite F. reflexivity.
  - unfold Controller.deleteTask. rewrite F. reflexivity.
Qed.

Lemma delete_removes_one_task_witness :
  Controller.deleteTask alice_id todo_id [todo_task; bobs_task]
  = (Controller.Json 200 true (Some "Task deleted successfully") Controller.NoData, [bobs_task])
  /\ Controller.getTask alice_id todo_id [bobs_task]
     = Controller.Json 404 false (Some "Task not found") Controller.NoData.
Proof.
  assert (N : NoDup (map Model._id [todo_task; bobs_task]))
    by (repeat constructor; cbn; intuition discriminate).
  destruct (delete_removes_one_task alice_id [todo_task; bobs_task] todo_task N
              (or_introl eq_refl) eq_refl) as [A [_ [_ [B _]]]].
  split; [exact A | exact (B alice_id)].
Defined.

(** ** Archiving and the statistics *)

Section ArchiveFacts.
Import Model Controller.

Lemma toggle_owned (now : Z) (uid : string) (coll : list TaskDoc) (t : TaskDoc) :
  NoDup (map _id coll) -> In t coll -> user t = uid ->
  toggleArchiveTask now uid (_id t) coll
  = (Json 200 true
          (Some (if negb (isArchived t) then "Task archived successfully"
                 else "Task unarchived successfully"))
          (OneTask (set_updatedAt now (set_isArchived (negb (isArchived t)) t))),
     map (fun x => if String.eqb (_id x) (_id t)
                   then set_updatedAt now (set_isArchived (negb (isArchived t)) x)
                   else x) coll).
Proof.
  intros N Hin Hu. unfold toggleArchiveTask.
  rewrite (findOne_unique uid t coll N Hin Hu). cbv zeta.
  rewrite (update_by_id_unique _ _ _ N). reflexivity.
Qed.

Lemma in_map_at_id (t : TaskDoc) (g : TaskDoc -> TaskDoc) (coll : list TaskDoc) :
  In t coll ->
  In (g t) (map (fun x => if String.eqb (_id x) (_id t) then g x else x) coll).
Proof.
  intros Hin. apply in_map_iff. exists t. rewrite String.eqb_refl. auto.
Qed.

Lemma stats_total (now : Z) (uid : string) (coll : list TaskDoc) :
  total (Model.getTaskStats now uid coll)
  = Z.of_nat (List.length (filter (stats_match uid) coll)).
Proof.
  unfold Model.getTaskStats, aggregate_stats, stats_group.
  destruct (filter (stats_match uid) coll); reflexivity.
Qed.

(** The statistics read the owner, the archived flag, the status, the
    priority and the due date of a document, and nothing else. *)
Lemma stats_same_fields (now : Z) (uid : string) (h : TaskDoc -> TaskDoc)
    (coll : list TaskDoc) :
  (forall x, user (h x) = user x /\ isArchived (h x) = isArchived x
             /\ status (h x) = status x /\ priority (h x) = priority x
             /\ dueDate (h x) = dueDate x) ->
  Model.getTaskStats now uid (map h coll) = Model.getTaskStats now uid coll.
Proof.
  intros H. unfold Model.getTaskStats, aggregate_stats.
  assert (F : filter (stats_match uid) (map h coll) = map h (filter (stats_match uid) coll)).
  { assert (M : forall x, stats_match uid (h x) = stats_match uid x).
    { intros x. unfold stats_match. destruct (H x) as [-> [-> _]]. reflexivity. }
    induction coll as [|x coll IH]; [reflexivity|].
    cbn [map filter]. rewrite M.
    destruct (stats_match uid x); cbn [map]; rewrite IH; reflexivity. }
  rewrite F.
  assert (C : forall (p : TaskDoc -> bool) (l : list TaskDoc),
             (forall x, p (h x) = p x) -> count_if p (map h l) = count_if p l).
  { intros p l Hp. unfold count_if. f_equal.
    induction l as [|x l IH]; [reflexivity|].
    cbn [map filter]. rewrite Hp. destruct (p x); cbn [List.length]; rewrite IH; reflexivity. }
  destruct (filter (stats_match uid) coll) as [|y l]; [reflexivity|].
  cbn [map stats_group]. change (h y :: map h l) with (map h (y :: l)).
  rewrite length_map.
  rewrite !C; [reflexivity| | | | |]; intros x; destruct (H x) as [_ [_ [Hs [Hp Hd]]]];
    unfold overdue_cond; rewrite ?Hs, ?Hp, ?Hd; reflexivity.
Qed.

Lemma archive_one_less (now : Z) (uid : string) (coll : list TaskDoc) (t : TaskDoc) :
  NoDup (map _id coll) -> In t coll -> user t = uid -> isArchived t = false ->
  S (List.length
       (filter (stats_match uid)
          (map (fun x => if String.eqb (_id x) (_id t)
                         then set_updatedAt now (set_isArchived true x) else x) coll)))
  = List.length (filter (stats_match uid) coll).
Proof.
  intros N Hin Hu Ha. induction coll as [|x coll IH]; [destruct Hin|].
  cbn [map] in N. apply NoDup_cons_iff in N. destruct N as [Hx N].
  cbn [map filter]. destruct Hin as [->|Hin].
  - rewrite String.eqb_refl.
    assert (M1 : stats_match uid (set_updatedAt now (set_isArchived true t)) = false).
    { unfold stats_match. cbn. apply andb_false_r. }
    assert (M2 : stats_match uid t = true) by (apply stats_match_iff; auto).
    rewrite M1, M2. rewrite id_not_in_rest by exact Hx. reflexivity.
  - destruct (String.eqb_spec (_id x) (_id t)) as [E|Ne].
    + exfalso. apply Hx. rewrite E. apply in_map. exact Hin.
    + destruct (stats_match uid x); cbn [List.length]; rewrite (IH N Hin); reflexivity.
Qed.

Lemma same_id_same_doc (coll : list TaskDoc) (t x : TaskDoc) :
  NoDup (map _id coll) -> In t coll -> In x coll -> _id x = _id t -> x = t.
Proof.
  intros N Hin Hx E. induction coll as [|y coll IH]; [destruct Hin|].
  cbn [map] in N. apply NoDup_cons_iff in N. destruct N as [Hy N].
  destruct Hin as [->|Hin], Hx as [->|Hx]; auto.
  - exfalso. apply Hy. rewrite <- E. apply in_map. exact Hx.
  - exfalso. apply Hy. rewrite E. apply in_map. exact Hin.
Qed.

(** The toggle, with the stored task written out. *)
Lemma toggle_owned_task (now : Z) (uid : string) (coll : list TaskDoc) (t : TaskDoc) :
  NoDup (map _id coll) -> In t coll -> user t = uid ->
  toggleArchiveTask now uid (_id t) coll
  = (Json 200 true
          (Some (if negb (isArchived t) then "Task archived successfully"
                 else "Task unarchived successfully"))
          (OneTask (set_updatedAt now (set_isArchived (negb (isArchived t)) t))),
     map (fun x => if String.eqb (_id x) (_id t)
                   then set_updatedAt now (set_isArchived (negb (isArchived t)) t)
                   else x) coll).
Proof.
  intros N Hin Hu. rewrite (toggle_owned now uid coll t N Hin Hu). f_equal.
  apply map_ext_in. intros x Hx.
  destruct (String.eqb_spec (_id x) (_id t)) as [E|Ne]; [|reflexivity].
  rewrite (same_id_same_doc coll t x N Hin Hx E). reflexivity.
Qed.

(** Two toggles in a row. *)
Lemma toggle_twice (now now' : Z) (uid : string) (coll : list TaskDoc) (t : TaskDoc) :
  NoDup (map _id coll) -> In t coll -> user t = uid ->
  snd (toggleArchiveTask now' uid (_id t) (snd (toggleArchiveTask now uid (_id t) coll)))
  = map (fun x => if String.eqb (_id x) (_id t) then set_updatedAt now' t else x) coll.
Proof.
  intros N Hin Hu.
  set (t' := set_updatedAt now (set_isArchived (negb (isArchived t)) t)).
  rewrite (toggle_owned_task now uid coll t N Hin Hu). cbn [snd]. fold t'.
  set (coll1 := map (fun x => if String.eqb (_id x) (_id t) then t' else x) coll).
  assert (I1 : map _id coll1 = map _id coll).
  { unfold coll1. rewrite map_map. apply map_ext. intros x.
    destruct (String.eqb_spec (_id x) (_id t)) as [E|Ne]; [|reflexivity].
    rewrite E. reflexivity. }
  assert (N1 : NoDup (map _id coll1)) by (rewrite I1; exact N).
  assert (In1 : In t' coll1).
  { unfold coll1. apply in_map_iff. exists t. rewrite String.eqb_refl. auto. }
  change (_id t) with (_id t') at 1.
  rewrite (toggle_owned_task now' uid coll1 t' N1 In1 Hu). cbn [snd].
  unfold coll1. rewrite map_map. apply map_ext. intros x.
  change (_id t') with (_id t).
  destruct (String.eqb_spec (_id x) (_id t)) as [E|Ne].
  - change (_id t') with (_id t). rewrite String.eqb_refl.
    unfold t'. destruct t. cbn. rewrite negb_involutive. reflexivity.
  - destruct (String.eqb_spec (_id x) (_id t)); [contradiction | reflexivity].
Qed.

End ArchiveFacts.

(** X5.  With one document per identifier, the archive toggle by the
    owner flips the archived flag of that task and sets updatedAt; the
    status, completedAt, due date, owner and the other fields of the task
    and every other document stay as they were.  A second toggle puts the
    flag back, so that only updatedAt differs from the start. *)
Theorem toggle_flips_archived_only (now now' : Z) (uid : string) (coll : list Model.TaskDoc)
    (t : Model.TaskDoc)
    (Hunique : NoDup (map Model._id coll))
    (Hin : In t coll)
    (Howner : Model.user t = uid) :
  let t' := Model.set_updatedAt now (Model.set_isArchived (negb (Model.isArchived t)) t) in
  Controller.toggleArchiveTask now uid (Model._id t) coll
  = (Controller.Json 200 true
       (Some (if negb (Model.isArchived t) then "Task archived successfully"
              else "Task unarchived successfully"))
       (Controller.OneTask t'),
     map (fun x => if String.eqb (Model._id x) (Model._id t) then t' else x) coll)
  /\ Model.isArchived t' = negb (Model.isArchived t)
  /\ Model.status t' = Model.status t /\ Model.completedAt t' = Model.completedAt t
  /\ Model.dueDate t' = Model.dueDate t /\ Model.user t' = Model.user t
  /\ snd (Controller.toggleArchiveTask now' uid (Model._id t)
            (snd (Controller.toggleArchiveTask now uid (Model._id t) coll)))
     = map (fun x => if String.eqb (Model._id x) (Model._id t)
                     then Model.set_updatedAt now' t else x) coll.
Proof.
  intros t'. split; [apply toggle_owned_task; assumption|].
  repeat (split; [reflexivity|]).
  apply toggle_twice; assumption.
Qed.

Lemma toggle_flips_archived_only_witness :
  map Model.isArchived (snd (Controller.toggleArchiveTask 6 alice_id todo_id [todo_task; bobs_task]))
  = [true; false]
  /\ map Model.isArchived
       (snd (Controller.toggleArchiveTask 7 alice_id todo_id
               (snd (Controller.toggleArchiveTask 6 alice_id todo_id [todo_task; bobs_task]))))
     = [false; false].
Proof.
  assert (N : NoDup (map Model._id [todo_task; bobs_task]))
    by (repeat constructor; cbn; intuition discriminate).
  destruct (toggle_flips_archived_only 6 7 alice_id [todo_task; bobs_task] todo_task N
              (or_introl eq_refl) eq_refl) as [A [_ [_ [_ [_ [_ B]]]]]].
  split.
  - change todo_id with (Model._id todo_task). rewrite A. reflexivity.
  - change todo_id with (Model._id todo_task). rewrite B. reflexivity.
Defined.

(** X6.  With one document per identifier, archiving an unarchived task
    takes it out of its owner's statistics without removing a document:
    the collection keeps its length and total drops by one.  Unarchiving
    it again gives the statistics they had before. *)
Theorem archive_and_stats (now now' clock : Z) (uid : string) (coll : list Model.TaskDoc)
    (t : Model.TaskDoc)
    (Hunique : NoDup (map Model._id coll))
    (Hin : In t coll)
    (Howner : Model.user t = uid)
    (Hactive : Model.isArchived t = false) :
  let archived := snd (Controller.toggleArchiveTask now uid (Model._id t) coll) in
  let restored := snd (Controller.toggleArchiveTask now' uid (Model._id t) archived) in
  List.length archived = List.length coll
  /\ Model.total (Model.getTaskStats clock uid archived)
     = Model.total (Model.getTaskStats clock uid coll) - 1
  /\ Model.getTaskStats clock uid restored = Model.getTaskStats clock uid coll.
Proof.
  intros archived restored.
  assert (E : archived
              = map (fun x => if String.eqb (Model._id x) (Model._id t)
                              then Model.set_updatedAt now (Model.set_isArchived true x)
                              else x) coll).
  { unfold archived. rewrite (toggle_owned now uid coll t Hunique Hin Howner).
    rewrite Hactive. reflexivity. }
  split; [rewrite E; apply length_map|]. split.
  - rewrite !stats_total, E.
    rewrite <- (archive_one_less now uid coll t Hunique Hin Howner Hactive). lia.
  - unfold restored, archived. rewrite (toggle_twice now now' uid coll t Hunique Hin Howner).
    rewrite (map_ext_in _ (fun x => if String.eqb (Model._id x) (Model._id t)
                                    then Model.set_updatedAt now' x else x)).
    + apply stats_same_fields. intros x.
      destruct (String.eqb (Model._id x) (Model._id t)); repeat split.
    + intros x Hx. destruct (String.eqb_spec (Model._id x) (Model._id t)) as [Ei|Ni];
        [|reflexivity].
      rewrite (same_id_same_doc coll t x Hunique Hin Hx Ei). reflexivity.
Qed.

Lemma archive_and_stats_witness :
  Model.total (Model.getTaskStats 9 alice_id [todo_task; bobs_task]) = 1
  /\ Model.total (Model.getTaskStats 9 alice_id
                    (snd (Controller.toggleArchiveTask 6 alice_id todo_id [todo_task; bobs_task])))
     = 0
  /\ List.length (snd (Controller.toggleArchiveTask 6 alice_id todo_id [todo_task; bobs_task]))
     = 2%nat.
Proof.
  assert (N : NoDup (map Model._id [todo_task; bobs_task]))
    by (repeat constructor; cbn; intuition discriminate).
  destruct (archive_and_stats 6 7 9 alice_id [todo_task; bobs_task] todo_task N
              (or_introl eq_refl) eq_refl eq_refl) as [A [B _]].
  split; [reflexivity|]. split.
  - change todo_id with (Model._id todo_task). rewrite B. reflexivity.
  - change todo_id with (Model._id todo_task). rewrite A. reflexivity.
Defined.

Section StatsArithmetic.
Import Model.

Lemma count_by_status (l : list TaskDoc) :
  Z.of_nat (List.length l)
  = count_if (fun t => Status_eqb (status t) completed) l
    + count_if (fun t => Status_eqb (status t) in_progress) l
    + count_if (fun t => Status_eqb (status t) todo) l.
Proof.
  unfold count_if. induction l as [|x l IH]; [reflexivity|].
  cbn [filter List.length]. destruct (status x); cbn [Status_eqb List.length]; lia.
Qed.

Lemma count_if_le_length {A : Type} (p : A -> bool) (l : list A) :
  count_if p l <= Z.of_nat (List.length l).
Proof. unfold count_if. pose proof (filter_length_le p l). lia. Qed.

Lemma count_if_mono {A : Type} (p q : A -> bool) (l : list A) :
  (forall x, p x = true -> q x = true) -> count_if p l <= count_if q l.
Proof.
  intros H. unfold count_if. induction l as [|x l IH]; [reflexivity|].
  cbn [filter]. destruct (p x) eqn:P.
  - rewrite (H x P). cbn [List.length]. lia.
  - destruct (q x); cbn [List.length]; lia.
Qed.

Lemma count_not_completed (l : list TaskDoc) :
  count_if (fun t => negb (Status_eqb (status t) completed)) l
  = count_if (fun t => Status_eqb (status t) in_progress) l
    + count_if (fun t => Status_eqb (status t) todo) l.
Proof.
  unfold count_if. induction l as [|x l IH]; [reflexivity|].
  cbn [filter List.length]. destruct (status x); cbn [Status_eqb negb List.length]; lia.
Qed.

End StatsArithmetic.

(** X7.  In every statistics record the three status counts add up to
    total; highPriority is between 0 and total; and overdue is between 0
    and the number of tasks that are not completed. *)
Theorem stats_counts_add_up (now : Z) (uid : string) (coll : list Model.TaskDoc) :
  let s := Model.getTaskStats now uid coll in
  Model.total s = Model.s_completed s + Model.s_inProgress s + Model.s_todo s
  /\ 0 <= Model.s_completed s /\ 0 <= Model.s_inProgress s /\ 0 <= Model.s_todo s
  /\ 0 <= Model.s_highPriority s <= Model.total s
  /\ 0 <= Model.s_overdue s <= Model.s_inProgress s + Model.s_todo s.
Proof.
  unfold Model.getTaskStats, Model.aggregate_stats, Model.stats_group.
  destruct (filter (Model.stats_match uid) coll) as [|x l] eqn:F.
  - cbn. lia.
  - cbv zeta. cbn [Model.total Model.s_completed Model.s_inProgress Model.s_todo
                  Model.s_highPriority Model.s_overdue].
    split; [apply count_by_status|].
    repeat (split; [apply count_if_nonneg|]).
    split; [split; [apply count_if_nonneg | apply count_if_le_length]|].
    split; [apply count_if_nonneg|].
    rewrite <- count_not_completed. apply count_if_mono.
    intros y Hy. unfold Model.overdue_cond in Hy.
    apply andb_true_iff in Hy. destruct Hy as [Hy _].
    apply andb_true_iff in Hy. destruct Hy as [_ Hy]. exact Hy.
Qed.

(** ** The task list *)

Section ListingFacts.
Import Model Controller.

Variable regex_i : string -> string -> bool.

Lemma getTasks_data (uid : string) (q : TaskQuery) (coll : list TaskDoc) :
  page_data (getTasks regex_i uid q coll)
  = firstn (Z.to_nat (or_else (q_limit q) 10))
      (skipn (Z.to_nat ((or_else (q_page q) 1 - 1) * or_else (q_limit q) 10))
         (sort_by (sort_le (or_else (q_sortBy q) by_createdAt) (or_else (q_sortOrder q) desc))
                  (filter (query_match regex_i uid q) coll))).
Proof. reflexivity. Qed.

Lemma listTasks_data_incl (uid : string) (q : TaskQuery) (coll : list TaskDoc) :
  incl (page_data (listTasks regex_i uid q coll)) (filter (query_match regex_i uid q) coll).
Proof.
  unfold listTasks. destruct (validateTaskQuery q); [|intros x []].
  rewrite getTasks_data. intros x Hx. apply incl_firstn_skipn in Hx.
  revert Hx. apply Permutation_in. apply sort_by_perm.
Qed.

Lemma stored_compare_antisym (f : SortField) (a b : TaskDoc) :
  stored_compare f b a = CompOpp (stored_compare f a b).
Proof.
  destruct f; cbn [stored_compare];
    first [apply String.compare_antisym | apply Z.compare_antisym].
Qed.

Lemma sort_le_total (f : SortField) (o : SortOrder) (a b : TaskDoc) :
  sort_le f o a b = false -> sort_le f o b a = true.
Proof.
  unfold sort_le. rewrite (stored_compare_antisym f a b).
  destruct o, (stored_compare f a b); cbn; congruence.
Qed.

Lemma sort_le_in_order (f : SortField) (o : SortOrder) (a b : TaskDoc) :
  sort_le f o a b = true <-> in_order f o a b.
Proof.
  unfold sort_le, in_order. destruct o, (stored_compare f a b);
    split; intros; congruence.
Qed.

Lemma Sorted_skipn {A : Type} (R : A -> A -> Prop) (n : nat) (l : list A) :
  Sorted R l -> Sorted R (skipn n l).
Proof.
  revert l. induction n as [|n IH]; intros l S; [exact S|].
  destruct l as [|x l]; [constructor|]. cbn [skipn]. apply IH.
  inversion S; assumption.
Qed.

Lemma Sorted_firstn {A : Type} (R : A -> A -> Prop) (n : nat) (l : list A) :
  Sorted R l -> Sorted R (firstn n l).
Proof.
  revert l. induction n as [|n IH]; intros l S; [constructor|].
  destruct l as [|x l]; [constructor|]. cbn [firstn].
  inversion S as [|? ? S' Hd]; subst. constructor; [apply IH; exact S'|].
  destruct n; [constructor|]. destruct Hd; constructor. assumption.
Qed.

(** Cutting a list into [m] pieces of [L] elements loses nothing when
    [m] pieces are enough. *)
Lemma chunks_cover {A : Type} (L m : nat) (l : list A) :
  (List.length l <= m * L)%nat ->
  List.concat (map (fun k => firstn L (skipn (k * L) l)) (seq 0 m)) = l.
Proof.
  revert l. induction m as [|m IH]; intros l H.
  - destruct l; [reflexivity | cbn in H; lia].
  - cbn [seq map List.concat]. rewrite <- seq_shift, map_map.
    rewrite (map_ext _ (fun k => firstn L (skipn (k * L) (skipn L l)))).
    + rewrite IH; [apply firstn_skipn|]. rewrite length_skipn. lia.
    + intros k. rewrite skipn_skipn. f_equal. f_equal. lia.
Qed.

End ListingFacts.

(** X8.  Every task of a list response belongs to the caller, is a task
    of the collection, is unarchived unless includeArchived is the string
    'true', and has the priority and the status the query asks for. *)
Theorem list_shows_own_matching_tasks (regex_i : string -> string -> bool) (uid : string)
    (q : Controller.TaskQuery) (coll : list Model.TaskDoc) (t : Model.TaskDoc)
    (Hshown : In t (page_data (Controller.listTasks regex_i uid q coll))) :
  In t coll
  /\ Model.user t = uid
  /\ (Controller.q_includeArchived q <> Some "true" -> Model.isArchived t = false)
  /\ (forall p, Controller.q_priority q = Some p -> Model.priority t = p)
  /\ (forall s, Controller.q_status q = Some s -> Model.status t = s).
Proof.
  apply listTasks_data_incl in Hshown. apply filter_In in Hshown.
  destruct Hshown as [Hin M]. unfold Controller.query_match in M.
  apply andb_true_iff in M. destruct M as [M Hs].
  apply andb_true_iff in M. destruct M as [M Hp].
  apply andb_true_iff in M. destruct M as [M _].
  apply andb_true_iff in M. destruct M as [Hu Ha].
  split; [exact Hin|]. split; [apply String.eqb_eq; exact Hu|].
  split; [|split].
  - intros Hn. destruct (Controller.q_includeArchived q) as [v|] eqn:Ev.
    + destruct (String.eqb_spec v "true") as [E|Ne]; [congruence|].
      apply eqb_true_iff. exact Ha.
    + apply eqb_true_iff. exact Ha.
  - intros p Ep. rewrite Ep in Hp.
    destruct (Model.priority t), p; try discriminate; reflexivity.
  - intros v Ev. rewrite Ev in Hs.
    destruct (Model.status t), v; try discriminate; reflexivity.
Qed.

(** includeArchived=TRUE is not 'true': the archived task stays out. *)
Lemma list_shows_own_matching_tasks_witness :
  page_data (Controller.listTasks (fun _ _ => true) alice_id
               (Controller.mkQuery None None None None None None None (Some "TRUE"))
               [archived_task; todo_task; bobs_task])
  = [todo_task]
  /\ Model.user todo_task = alice_id /\ Model.isArchived todo_task = false.
Proof.
  split; [reflexivity|].
  destruct (list_shows_own_matching_tasks (fun _ _ => true) alice_id
              (Controller.mkQuery None None None None None None None (Some "TRUE"))
              [archived_task; todo_task; bobs_task] todo_task (or_introl eq_refl))
    as [_ [A [B _]]].
  split; [exact A|]. apply B. discriminate.
Defined.

(** X9.  A list response is in the order of the sort: by the stored value
    of the sorted field, ascending or descending as asked.  Without sort
    parameters that is newest first: createdAt never increases down the
    page. *)
Theorem list_is_sorted (regex_i : string -> string -> bool) (uid : string)
    (q : Controller.TaskQuery) (coll : list Model.TaskDoc) :
  Sorted (in_order (Controller.or_else (Controller.q_sortBy q) Controller.by_createdAt)
                   (Controller.or_else (Controller.q_sortOrder q) Controller.desc))
         (page_data (Controller.listTasks regex_i uid q coll))
  /\ (Controller.q_sortBy q = None -> Controller.q_sortOrder q = None ->
      Sorted (fun a b => Model.createdAt b <= Model.createdAt a)
             (page_data (Controller.listTasks regex_i uid q coll))).
Proof.
  set (f := Controller.or_else (Controller.q_sortBy q) Controller.by_createdAt).
  set (o := Controller.or_else (Controller.q_sortOrder q) Controller.desc).
  assert (S : Sorted (in_order f o) (page_data (Controller.listTasks regex_i uid q coll))).
  { unfold Controller.listTasks. destruct (Controller.validateTaskQuery q); [|constructor].
    rewrite getTasks_data. fold f o. apply Sorted_firstn, Sorted_skipn.
    pose proof (sort_by_sorted (Controller.sort_le f o) (sort_le_total f o)
                  (filter (Controller.query_match regex_i uid q) coll)) as K.
    induction K as [|x l K IH Hd]; constructor; [exact IH|].
    destruct Hd; constructor. apply sort_le_in_order. assumption. }
  split; [exact S|].
  intros Ef Eo. unfold f, o in S. rewrite Ef, Eo in S. cbn [Controller.or_else] in S.
  induction S as [|x l S IH Hd]; constructor; [exact IH|].
  destruct Hd as [|y l' Hxy]; constructor.
  unfold in_order in Hxy. cbn [Controller.stored_compare] in Hxy.
  destruct (Z.compare_spec (Model.createdAt x) (Model.createdAt y)); [lia | congruence | lia].
Qed.

Lemma list_is_sorted_witness :
  map Model.createdAt
      (page_data (Controller.listTasks (fun _ _ => true) alice_id
                    (Controller.mkQuery None (Some 3) None None None None None None) many_tasks))
  = [250; 249; 248]
  /\ Sorted (fun a b => Model.createdAt b <= Model.createdAt a)
       (page_data (Controller.listTasks (fun _ _ => true) alice_id
                     (Controller.mkQuery None (Some 3) None None None None None None)
                     many_tasks)).
Proof.
  split; [vm_compute; reflexivity|].
  apply (list_is_sorted (fun _ _ => true) alice_id
           (Controller.mkQuery None (Some 3) None None None None None None) many_tasks);
    reflexivity.
Defined.

Section PageFacts.
Import Model Controller.

Variable regex_i : string -> string -> bool.

(** The page [k] of a validated query: the [k]-th run of limit tasks of
    the sorted matches. *)
Lemma page_k_data (uid : string) (q : TaskQuery) (coll : list TaskDoc) (k : Z) :
  validateTaskQuery q = true -> 1 <= k ->
  page_data (listTasks regex_i uid (with_page k q) coll)
  = firstn (Z.to_nat (or_else (q_limit q) 10))
      (skipn (Z.to_nat (k - 1) * Z.to_nat (or_else (q_limit q) 10))
         (sort_by (sort_le (or_else (q_sortBy q) by_createdAt) (or_else (q_sortOrder q) desc))
                  (filter (query_match regex_i uid q) coll))).
Proof.
  intros V Hk. unfold listTasks.
  assert (V' : validateTaskQuery (with_page k q) = true).
  { unfold validateTaskQuery in *. cbn [with_page q_page q_limit].
    apply andb_true_iff in V. destruct V as [_ V]. rewrite V.
    apply andb_true_iff. split; [apply Z.leb_le; exact Hk | reflexivity]. }
  rewrite V', getTasks_data.
  change (q_limit (with_page k q)) with (q_limit q).
  change (q_page (with_page k q)) with (Some k).
  change (q_sortBy (with_page k q)) with (q_sortBy q).
  change (q_sortOrder (with_page k q)) with (q_sortOrder q).
  change (query_match regex_i uid (with_page k q)) with (query_match regex_i uid q).
  cbn [or_else]. f_equal. f_equal.
  assert (HL : 1 <= or_else (q_limit q) 10).
  { unfold validateTaskQuery in V. apply andb_true_iff in V. destruct V as [_ V].
    destruct (q_limit q) as [l|]; cbn [or_else]; [|lia].
    apply andb_true_iff in V. destruct V as [V _]. lia. }
  rewrite Z2Nat.inj_mul by lia. reflexivity.
Qed.

End PageFacts.

(** With no two tasks equal on the sorted field there is one sorted
    order only, so the order of a list response is fixed by the sort. *)
Section OneOrder.
Import Model Controller.

Lemma compare_le_trans {K : Type} (cmp : K -> K -> comparison) :
  (forall x y, cmp x y = Eq -> x = y) ->
  (forall x y z, cmp x y = Lt -> cmp y z = Lt -> cmp x z = Lt) ->
  forall x y z, cmp x y <> Gt -> cmp y z <> Gt -> cmp x z <> Gt.
Proof.
  intros Heq Hlt x y z Hxy Hyz.
  destruct (cmp x y) eqn:A; [| |congruence].
  - apply Heq in A. subst y. exact Hyz.
  - destruct (cmp y z) eqn:B; [| |congruence].
    + apply Heq in B. subst z. rewrite A. discriminate.
    + rewrite (Hlt x y z A B). discriminate.
Qed.

Lemma string_compare_le_trans (x y z : string) :
  String.compare x y <> Gt -> String.compare y z <> Gt -> String.compare x z <> Gt.
Proof.
  apply (compare_le_trans String.compare).
  - apply String.compare_eq_iff.
  - intros a b c A B. apply OrderedTypeEx.String_as_OT.cmp_lt.
    apply OrderedTypeEx.String_as_OT.cmp_lt in A, B.
    exact (OrderedTypeEx.String_as_OT.lt_trans _ _ _ A B).
Qed.

Lemma Z_compare_le_trans (x y z : Z) :
  (x ?= y) <> Gt -> (y ?= z) <> Gt -> (x ?= z) <> Gt.
Proof.
  intros A B. change (x <= y) in A. change (y <= z) in B. change (x <= z). lia.
Qed.

Lemma stored_compare_le_trans (f : SortField) (a b c : TaskDoc) :
  stored_compare f a b <> Gt -> stored_compare f b c <> Gt -> stored_compare f a c <> Gt.
Proof.
  destruct f; cbn [stored_compare];
    first [apply string_compare_le_trans | apply Z_compare_le_trans].
Qed.

Lemma in_order_flip (f : SortField) (a b : TaskDoc) :
  in_order f desc a b <-> in_order f asc b a.
Proof.
  unfold in_order. rewrite (stored_compare_antisym f a b).
  destruct (stored_compare f a b); cbn; split; congruence.
Qed.

Lemma in_order_trans (f : SortField) (o : SortOrder) (a b c : TaskDoc) :
  in_order f o a b -> in_order f o b c -> in_order f o a c.
Proof.
  destruct o.
  - apply stored_compare_le_trans.
  - rewrite !in_order_flip. intros A B. exact (stored_compare_le_trans f c b a B A).
Qed.

Lemma in_order_both (f : SortField) (o : SortOrder) (a b : TaskDoc) :
  in_order f o a b -> in_order f o b a -> stored_compare f a b = Eq.
Proof.
  unfold in_order. rewrite (stored_compare_antisym f a b).
  destruct o, (stored_compare f a b); cbn; congruence.
Qed.

Lemma one_sorted_order (f : SortField) (o : SortOrder) (l1 l2 : list TaskDoc) :
  (forall a b, In a l1 -> In b l1 -> stored_compare f a b = Eq -> a = b) ->
  Sorted (in_order f o) l1 -> Sorted (in_order f o) l2 -> Permutation l1 l2 -> l1 = l2.
Proof.
  intros D S1 S2.
  assert (T : Relations_1.Transitive (in_order f o)).
  { intros a b c. apply in_order_trans. }
  apply (Sorted_StronglySorted T) in S1. apply (Sorted_StronglySorted T) in S2.
  clear T. revert l2 S2 D.
  induction S1 as [|x l1 S1 IH Fx]; intros l2 S2 D P.
  - apply Permutation_nil in P. subst l2. reflexivity.
  - destruct S2 as [|y l2 S2 Fy].
    + apply Permutation_sym, Permutation_nil in P. discriminate P.
    + assert (E : x = y).
      { assert (Hx : In x (y :: l2)) by (apply (Permutation_in x P); left; reflexivity).
        assert (Hy : In y (x :: l1))
          by (apply (Permutation_in y (Permutation_sym P)); left; reflexivity).
        destruct Hx as [Hx|Hx]; [congruence|].
        destruct Hy as [Hy|Hy]; [congruence|].
        apply D; [left; reflexivity | right; exact Hy |].
        apply (in_order_both f o).
        - rewrite Forall_forall in Fx. apply Fx. exact Hy.
        - rewrite Forall_forall in Fy. apply Fy. exact Hx. }
      subst y. f_equal. apply IH; [exact S2 | |].
      * intros a b Ha Hb. apply D; right; assumption.
      * exact (Permutation_cons_inv P).
Qed.

End OneOrder.

(** X10.  When no two matching tasks have the same value in the sorted
    field, the pages of a validated query cut the one sorted order of the
    matches into consecutive runs: read one after the other, pages 1 to
    the reported page count give every matching task exactly once, in
    the order of the sort, whatever the order of the collection; every
    page after the last is empty. *)
Theorem pages_cover_the_matches (regex_i : string -> string -> bool) (uid : string)
    (q : Controller.TaskQuery) (coll : list Model.TaskDoc)
    (Hvalid : Controller.validateTaskQuery q = true)
    (Hdistinct : forall a b,
        In a (filter (Controller.query_match regex_i uid q) coll) ->
        In b (filter (Controller.query_match regex_i uid q) coll) ->
        Controller.stored_compare
          (Controller.or_else (Controller.q_sortBy q) Controller.by_createdAt) a b = Eq ->
        a = b) :
  let L := Controller.or_else (Controller.q_limit q) 10 in
  let f := Controller.or_else (Controller.q_sortBy q) Controller.by_createdAt in
  let o := Controller.or_else (Controller.q_sortOrder q) Controller.desc in
  let matched := filter (Controller.query_match regex_i uid q) coll in
  let pages := ceil_div (Z.of_nat (List.length matched)) L in
  let all_pages :=
    List.concat
      (map (fun k => page_data (Controller.listTasks regex_i uid (with_page (Z.of_nat k) q) coll))
           (seq 1 (Z.to_nat pages))) in
  Permutation all_pages matched
  /\ Sorted (in_order f o) all_pages
  /\ (forall ordered, Permutation ordered matched -> Sorted (in_order f o) ordered ->
      all_pages = ordered)
  /\ (forall k, pages < k ->
      page_data (Controller.listTasks regex_i uid (with_page k q) coll) = []).
Proof.
  intros L f o matched pages all_pages.
  assert (S0 : Sorted (in_order f o) (sort_by (Controller.sort_le f o) matched)).
  { pose proof (sort_by_sorted (Controller.sort_le f o) (sort_le_total f o) matched) as K.
    induction K as [|x l K IH Hd]; constructor; [exact IH|].
    destruct Hd as [|y l' Hxy]; constructor. apply sort_le_in_order. exact Hxy. }
  set (sorted := sort_by (Controller.sort_le f o) matched) in *.
  assert (HL : 1 <= L).
  { unfold L. unfold Controller.validateTaskQuery in Hvalid.
    apply andb_true_iff in Hvalid. destruct Hvalid as [_ V].
    destruct (Controller.q_limit q) as [l|]; cbn [Controller.or_else]; [|lia].
    apply andb_true_iff in V. destruct V as [V _]. lia. }
  destruct (ceil_div_spec (Z.of_nat (List.length matched)) L ltac:(lia) HL) as [Hhi Hlo].
  fold pages in Hhi, Hlo.
  assert (Hp : 0 <= pages) by nia.
  assert (Hlen : List.length sorted = List.length matched) by apply sort_by_length.
  assert (E : all_pages = sorted).
  { unfold all_pages. rewrite <- seq_shift, map_map.
    rewrite (map_ext_in _ (fun k => firstn (Z.to_nat L) (skipn (k * Z.to_nat L) sorted))).
    - apply chunks_cover. rewrite Hlen. nia.
    - intros k _. rewrite (page_k_data regex_i uid q coll (Z.of_nat (S k)) Hvalid) by lia.
      fold L f o matched sorted. f_equal. f_equal. f_equal. lia. }
  assert (P : Permutation all_pages matched) by (rewrite E; apply sort_by_perm).
  assert (S : Sorted (in_order f o) all_pages) by (rewrite E; exact S0).
  split; [exact P|]. split; [exact S|]. split.
  - intros ordered Po So. apply (one_sorted_order f o); [|exact S|exact So|].
    + intros a b Ha Hb. apply Hdistinct; apply (Permutation_in _ P); assumption.
    + apply (Permutation_trans P). apply Permutation_sym. exact Po.
  - intros k Hk. rewrite (page_k_data regex_i uid q coll k Hvalid) by lia.
    fold L f o matched sorted. rewrite skipn_all2; [destruct (Z.to_nat L); reflexivity|].
    rewrite Hlen. nia.
Qed.

(** Seven tasks created at seven instants, newest first in pages of
    three: 3 + 3 + 1, nothing on page 4, and the pages in a row are the
    tasks from the newest to the oldest. *)
Lemma pages_cover_the_matches_witness :
  map (fun k => List.length
                  (page_data (Controller.listTasks (fun _ _ => true) alice_id
                                (with_page k (query_with_limit 3)) (firstn 7 many_tasks))))
      [1; 2; 3; 4]
  = [3; 3; 1; 0]%nat
  /\ List.concat
       (map (fun k => page_data (Controller.listTasks (fun _ _ => true) alice_id
                                   (with_page (Z.of_nat k) (query_with_limit 3))
                                   (firstn 7 many_tasks)))
            [1; 2; 3]%nat)
     = rev (firstn 7 many_tasks).
Proof.
  split; [vm_compute; reflexivity|].
  assert (D : forall a b,
             In a (filter (Controller.query_match (fun _ _ => true) alice_id
                             (query_with_limit 3)) (firstn 7 many_tasks)) ->
             In b (filter (Controller.query_match (fun _ _ => true) alice_id
                             (query_with_limit 3)) (firstn 7 many_tasks)) ->
             Controller.stored_compare
               (Controller.or_else (Controller.q_sortBy (query_with_limit 3))
                                   Controller.by_createdAt) a b = Eq ->
             a = b).
  { intros a b Ha Hb E. vm_compute in Ha, Hb.
    repeat (destruct Ha as [Ha|Ha]; [subst a|]); try contradiction;
      repeat (destruct Hb as [Hb|Hb]; [subst b|]); try contradiction;
      first [reflexivity | vm_compute in E; discriminate E]. }
  apply (proj1 (proj2 (proj2 (pages_cover_the_matches (fun _ _ => true) alice_id
                                (query_with_limit 3) (firstn 7 many_tasks) eq_refl D)))).
  - vm_compute. apply Permutation_rev.
  - vm_compute. repeat constructor; discriminate.
Defined.

(** * Further properties of the client store *)

(** ** Users *)

Section UserFacts.

Lemma find_email_none (email : string) (l : list Api.StoredUser) :
  find (fun x => String.eqb (Api.su_email x) email) l = None
  <-> ~ In email (map Api.su_email l).
Proof.
  induction l as [|x l IH]; [cbn; tauto|].
  cbn [find map In]. destruct (String.eqb_spec (Api.su_email x) email) as [E|N].
  - split; [discriminate | intros H; exfalso; apply H; left; exact E].
  - rewrite IH. tauto.
Qed.

Lemma emails_after_call (sha256_hex : string -> string) (st : Api.Store) (c : ApiCall) :
  NoDup (map Api.su_email (Api.users st)) ->
  NoDup (map Api.su_email (Api.users (after_call sha256_hex st c))).
Proof.
  intros N. destruct c as [now created issued un em pw| | | |]; cbn [after_call].
  - unfold Api.register.
    destruct (find (fun x => String.eqb (Api.su_email x) em) (Api.users st)) eqn:F;
      cbn [snd Api.users]; [exact N|].
    apply find_email_none in F. rewrite map_app. cbn [map Api.su_email].
    apply NoDup_app; [exact N | repeat constructor; intros [] |].
    intros x Hx [<-|[]]. exact (F Hx).
  - exact N.
  - exact N.
  - unfold Api.updateTask. destruct (Api.findIndex _ _); [|exact N].
    destruct (nth_error _ _); exact N.
  - unfold Api.deleteTask. destruct (Api.findIndex _ _); exact N.
Qed.

End UserFacts.

(** X11.  The store never holds two users with one email: a register with
    an email some user has throws "User already exists with this email"
    and changes nothing, a register with a new email appends the user, and
    emails that are unique stay unique through every sequence of calls. *)
Theorem emails_stay_unique (sha256_hex : string -> string) (now created issued : Z)
    (username email password : string) (st : Api.Store) (calls : list ApiCall)
    (Hunique : NoDup (map Api.su_email (Api.users st))) :
  (In email (map Api.su_email (Api.users st)) ->
   Api.register sha256_hex now created issued username email password st
   = (Throw "User already exists with this email", st))
  /\ (~ In email (map Api.su_email (Api.users st)) ->
      Api.register sha256_hex now created issued username email password st
      = (Ok (Auth.mkUser (show_Z now) username email created,
             Auth.generateToken issued (Auth.mkUser (show_Z now) username email created)),
         Api.mkStore (Api.users st
                        ++ [Api.mkStored (show_Z now) username email
                                         (Auth.hashPassword sha256_hex password) created])%list
                     (Api.tasks st)))
  /\ NoDup (map Api.su_email (Api.users (after_calls sha256_hex st calls))).
Proof.
  split; [|split].
  - intros Hin. unfold Api.register.
    destruct (find (fun x => String.eqb (Api.su_email x) email) (Api.users st)) eqn:F;
      [reflexivity|].
    apply find_email_none in F. contradiction.
  - intros Hnot. unfold Api.register.
    rewrite (proj2 (find_email_none email (Api.users st)) Hnot). reflexivity.
  - revert st Hunique. induction calls as [|c calls IH]; intros st N; [exact N|].
    cbn [after_calls fold_left]. apply (IH (after_call sha256_hex st c)).
    apply emails_after_call. exact N.
Qed.

(** Registering a@x.com twice. *)
Lemma emails_stay_unique_witness :
  let st1 := snd (Api.register (fun s => s) 10 10 10 "alice" "a@x.com" "Passw0rd" empty_store) in
  Api.register (fun s => s) 20 20 20 "alice2" "a@x.com" "Other1pw" st1
  = (Throw "User already exists with this email", st1).
Proof.
  cbv zeta.
  refine (proj1 (emails_stay_unique (fun s => s) 20 20 20 "alice2" "a@x.com" "Other1pw"
                   (snd (Api.register (fun s => s) 10 10 10 "alice" "a@x.com" "Passw0rd"
                           empty_store)) [] _) _).
  - repeat constructor. intros [].
  - left. reflexivity.
Defined.

(** X12.  generateToken writes the instant and the identity into the token
    and nothing is lost: two tokens are the same text only when they were
    issued at the same instant for the same id, username and email. *)
Theorem generateToken_tells_claims_apart (now now' : Z) (u u' : Auth.User)
    (Hsame : Auth.generateToken now u = Auth.generateToken now' u') :
  now = now' /\ Auth.id u = Auth.id u' /\ Auth.username u = Auth.username u'
  /\ Auth.email u = Auth.email u'.
Proof.
  assert (D : Base64.atob (Auth.generateToken now u) = Base64.atob (Auth.generateToken now' u'))
    by (rewrite Hsame; reflexivity).
  rewrite !decode_issued in D.
  assert (T : Json.JSON_stringify (Auth.payload_of now u)
              = Json.JSON_stringify (Auth.payload_of now' u')) by congruence.
  assert (P : Json.JSON_parse (Json.JSON_stringify (Auth.payload_of now u))
              = Json.JSON_parse (Json.JSON_stringify (Auth.payload_of now' u')))
    by (rewrite T; reflexivity).
  rewrite !parse_payload in P. unfold Auth.payload_of in P.
  injection P as Hi Hn He Hx. unfold Auth.TTL in Hx. repeat split; try assumption; lia.
Qed.

Lemma generateToken_tells_claims_apart_witness :
  Auth.generateToken 1000 alice <> Auth.generateToken 1001 alice.
Proof.
  intros E. destruct (generateToken_tells_claims_apart 1000 1001 alice alice E) as [H _].
  discriminate H.
Defined.

(** X13.  After a successful register, and whatever calls of the store
    follow it, login decides by the digests alone: a password whose
    salted digest differs from that of the registered password throws
    "Invalid credentials", and a password with the same salted digest,
    the registered one or any other, is given the registered user and a
    token. *)
Theorem login_compares_digests (sha256_hex : string -> string)
    (now created issued issued' : Z) (username email password given : string)
    (st st' : Api.Store) (u : Auth.User) (tok : string) (calls : list ApiCall)
    (Hreg : Api.register sha256_hex now created issued username email password st
            = (Ok (u, tok), st')) :
  (sha256_hex (given ++ "salt") <> sha256_hex (password ++ "salt") ->
   Api.login sha256_hex issued' email given (after_calls sha256_hex st' calls)
   = Throw "Invalid credentials")
  /\ (sha256_hex (given ++ "salt") = sha256_hex (password ++ "salt") ->
      Api.login sha256_hex issued' email given (after_calls sha256_hex st' calls)
      = Ok (u, Auth.generateToken issued' u)).
Proof.
  unfold Api.register in Hreg.
  destruct (find (fun x => String.eqb (Api.su_email x) email) (Api.users st)) eqn:F;
    [discriminate|].
  injection Hreg as Eu _ Est. subst u st'.
  set (su := Api.mkStored (show_Z now) username email
                          (Auth.hashPassword sha256_hex password) created).
  assert (G : find (fun x => String.eqb (Api.su_email x) email)
                   (Api.users (Api.mkStore (Api.users st ++ [su])%list (Api.tasks st)))
              = Some su).
  { cbn [Api.users]. rewrite (find_app_none _ _ _ F). cbn [find su Api.su_email].
    rewrite String.eqb_refl. reflexivity. }
  unfold Api.login. rewrite (after_calls_keep_user sha256_hex calls _ email su G).
  unfold Auth.comparePassword, Auth.hashPassword. cbn [su Api.su_password].
  unfold Auth.hashPassword.
  destruct (String.eqb_spec (sha256_hex (given ++ "salt")) (sha256_hex (password ++ "salt")))
    as [E|N]; split; intros H; try contradiction; reflexivity.
Qed.

(** With a digest that keeps the length of its input only, "passw0rd"
    passes for "Passw0rd" and "pass" does not. *)
Lemma login_compares_digests_witness :
  Api.login length_digest 50 "a@x.com" "pass"
            (snd (Api.register length_digest 10 10 10 "alice" "a@x.com" "Passw0rd" empty_store))
  = Throw "Invalid credentials"
  /\ Api.login length_digest 50 "a@x.com" "passw0rd"
       (snd (Api.register length_digest 10 10 10 "alice" "a@x.com" "Passw0rd" empty_store))
     = Ok (Auth.mkUser "10" "alice" "a@x.com" 10,
           Auth.generateToken 50 (Auth.mkUser "10" "alice" "a@x.com" 10)).
Proof.
  split.
  - refine (proj1 (login_compares_digests length_digest 10 10 10 50 "alice" "a@x.com"
                     "Passw0rd" "pass" empty_store _ _ _ [] eq_refl) _).
    vm_compute. discriminate.
  - refine (proj2 (login_compares_digests length_digest 10 10 10 50 "alice" "a@x.com"
                     "Passw0rd" "passw0rd" empty_store _ _ _ [] eq_refl) _).
    reflexivity.
Defined.

(** ** Tasks of the client store and the task context *)

Section ClientTaskFacts.
Import Api.

Lemma findIndex_some {A : Type} (p : A -> bool) (l : list A) (i : nat) :
  findIndex p l = Some i -> exists x, nth_error l i = Some x /\ p x = true.
Proof.
  revert i. induction l as [|y l IH]; intros i H; [discriminate|].
  cbn [findIndex] in H. destruct (p y) eqn:P.
  - injection H as <-. exists y. auto.
  - destruct (findIndex p l) as [j|]; [|discriminate]. injection H as <-.
    apply (IH j eq_refl).
Qed.

Lemma filter_set_nth_out {A : Type} (p : A -> bool) (i : nat) (old new : A) (l : list A) :
  nth_error l i = Some old -> p old = false -> p new = false ->
  filter p (set_nth i new l) = filter p l.
Proof.
  revert i. induction l as [|y l IH]; intros [|i] E Ho Hn; try discriminate.
  - cbn in E. injection E as ->. cbn [set_nth filter]. rewrite Ho, Hn. reflexivity.
  - cbn [set_nth filter]. rewrite (IH i E Ho Hn). reflexivity.
Qed.

Lemma filter_remove_nth_out {A : Type} (p : A -> bool) (i : nat) (old : A) (l : list A) :
  nth_error l i = Some old -> p old = false ->
  filter p (remove_nth i l) = filter p l.
Proof.
  revert i. induction l as [|y l IH]; intros [|i] E Ho; try discriminate.
  - cbn in E. injection E as ->. cbn [remove_nth filter]. rewrite Ho. reflexivity.
  - cbn [remove_nth filter]. rewrite (IH i E Ho). reflexivity.
Qed.

Lemma no_id_map_same (id : string) (new : Task) (l : list Task) :
  ~ In id (map t_id l) ->
  map (fun x => if String.eqb (t_id x) id then new else x) l = l.
Proof.
  induction l as [|y l IH]; intros H; [reflexivity|].
  cbn [map]. destruct (String.eqb_spec (t_id y) id) as [E|N].
  - exfalso. apply H. left. exact E.
  - rewrite IH; [reflexivity|]. intros Hin. apply H. right. exact Hin.
Qed.

Lemma no_id_filter_same (id : string) (l : list Task) :
  ~ In id (map t_id l) ->
  filter (fun x => negb (String.eqb (t_id x) id)) l = l.
Proof.
  induction l as [|y l IH]; intros H; [reflexivity|].
  cbn [filter]. destruct (String.eqb_spec (t_id y) id) as [E|N].
  - exfalso. apply H. left. exact E.
  - cbn [negb]. rewrite IH; [reflexivity|]. intros Hin. apply H. right. exact Hin.
Qed.

(** The user's own tasks after the store replaced the task it found. *)
Lemma own_view_set_nth (uid id : string) (new : Task) (l : list Task) (i : nat) :
  findIndex (owns uid id) l = Some i ->
  t_userId new = uid ->
  NoDup (map t_id (filter (fun x => String.eqb (t_userId x) uid) l)) ->
  filter (fun x => String.eqb (t_userId x) uid) (set_nth i new l)
  = map (fun x => if String.eqb (t_id x) id then new else x)
        (filter (fun x => String.eqb (t_userId x) uid) l).
Proof.
  intros F Hn. revert i F. induction l as [|y l IH]; intros i F N; [discriminate|].
  cbn [findIndex] in F. unfold owns in F at 1.
  destruct (String.eqb_spec (t_id y) id) as [Ei|Ni];
    destruct (String.eqb_spec (t_userId y) uid) as [Eu|Nu]; cbn [andb] in F.
  - injection F as <-. cbn [set_nth filter]. rewrite Hn, String.eqb_refl.
    destruct (String.eqb_spec (t_userId y) uid) as [_|C]; [|contradiction].
    cbn [map]. destruct (String.eqb_spec (t_id y) id) as [_|C]; [|contradiction].
    cbn [filter] in N. destruct (String.eqb_spec (t_userId y) uid) as [_|C]; [|contradiction].
    cbn [map] in N. apply NoDup_cons_iff in N. destruct N as [Hy _].
    rewrite no_id_map_same; [reflexivity|]. rewrite <- Ei. exact Hy.
  - destruct (findIndex (owns uid id) l) as [j|] eqn:Fj; [|discriminate].
    injection F as <-. cbn [set_nth filter].
    destruct (String.eqb_spec (t_userId y) uid) as [C|_]; [contradiction|].
    apply (IH j eq_refl). cbn [filter] in N.
    destruct (String.eqb_spec (t_userId y) uid) as [C|_]; [contradiction | exact N].
  - destruct (findIndex (owns uid id) l) as [j|] eqn:Fj; [|discriminate].
    injection F as <-. cbn [set_nth filter].
    destruct (String.eqb_spec (t_userId y) uid) as [_|C]; [|contradiction].
    cbn [map]. destruct (String.eqb_spec (t_id y) id) as [C|_]; [contradiction|].
    f_equal. apply (IH j eq_refl). cbn [filter] in N.
    destruct (String.eqb_spec (t_userId y) uid) as [_|C]; [|contradiction].
    cbn [map] in N. apply NoDup_cons_iff in N. tauto.
  - destruct (findIndex (owns uid id) l) as [j|] eqn:Fj; [|discriminate].
    injection F as <-. cbn [set_nth filter].
    destruct (String.eqb_spec (t_userId y) uid) as [C|_]; [contradiction|].
    apply (IH j eq_refl). cbn [filter] in N.
    destruct (String.eqb_spec (t_userId y) uid) as [C|_]; [contradiction | exact N].
Qed.

(** The user's own tasks after the store removed the task it found. *)
Lemma own_view_remove_nth (uid id : string) (l : list Task) (i : nat) :
  findIndex (owns uid id) l = Some i ->
  NoDup (map t_id (filter (fun x => String.eqb (t_userId x) uid) l)) ->
  filter (fun x => String.eqb (t_userId x) uid) (remove_nth i l)
  = filter (fun x => negb (String.eqb (t_id x) id))
           (filter (fun x => String.eqb (t_userId x) uid) l).
Proof.
  revert i. induction l as [|y l IH]; intros i F N; [discriminate|].
  cbn [findIndex] in F. unfold owns in F at 1.
  destruct (String.eqb_spec (t_id y) id) as [Ei|Ni];
    destruct (String.eqb_spec (t_userId y) uid) as [Eu|Nu]; cbn [andb] in F.
  - injection F as <-. cbn [remove_nth filter].
    destruct (String.eqb_spec (t_userId y) uid) as [_|C]; [|contradiction].
    cbn [filter]. destruct (String.eqb_spec (t_id y) id) as [_|C]; [|contradiction].
    cbn [negb]. cbn [filter] in N.
    destruct (String.eqb_spec (t_userId y) uid) as [_|C]; [|contradiction].
    cbn [map] in N. apply NoDup_cons_iff in N. destruct N as [Hy _].
    rewrite no_id_filter_same; [reflexivity|]. rewrite <- Ei. exact Hy.
  - destruct (findIndex (owns uid id) l) as [j|] eqn:Fj; [|discriminate].
    injection F as <-. cbn [remove_nth filter].
    destruct (String.eqb_spec (t_userId y) uid) as [C|_]; [contradiction|].
    apply (IH j eq_refl). cbn [filter] in N.
    destruct (String.eqb_spec (t_userId y) uid) as [C|_]; [contradiction | exact N].
  - destruct (findIndex (owns uid id) l) as [j|] eqn:Fj; [|discriminate].
    injection F as <-. cbn [remove_nth filter].
    destruct (String.eqb_spec (t_userId y) uid) as [_|C]; [|contradiction].
    cbn [filter]. destruct (String.eqb_spec (t_id y) id) as [C|_]; [contradiction|].
    cbn [negb]. f_equal. apply (IH j eq_refl). cbn [filter] in N.
    destruct (String.eqb_spec (t_userId y) uid) as [_|C]; [|contradiction].
    cbn [map] in N. apply NoDup_cons_iff in N. tauto.
  - destruct (findIndex (owns uid id) l) as [j|] eqn:Fj; [|discriminate].
    injection F as <-. cbn [remove_nth filter].
    destruct (String.eqb_spec (t_userId y) uid) as [C|_]; [contradiction|].
    apply (IH j eq_refl). cbn [filter] in N.
    destruct (String.eqb_spec (t_userId y) uid) as [C|_]; [contradiction | exact N].
Qed.

End ClientTaskFacts.

(** X14.  What one user does to tasks never shows in another user's
    list: a create, a delete, and an update whose body has no userId,
    leave getTasks of every other user as it was, and a create puts the
    new task at the end of the creator's own list. *)
Theorem other_users_lists_untouched (now stamp : Z) (userId other taskId : string)
    (data : Api.TaskData) (up : Api.Updates) (st : Api.Store)
    (Hother : other <> userId)
    (Hup : Api.u_userId up = None) :
  Api.getTasks other (snd (Api.createTask now stamp userId data st)) = Api.getTasks other st
  /\ Api.getTasks userId (snd (Api.createTask now stamp userId data st))
     = (Api.getTasks userId st ++ [fst (Api.createTask now stamp userId data st)])%list
  /\ Api.getTasks other (snd (Api.updateTask stamp userId taskId up st)) = Api.getTasks other st
  /\ Api.getTasks other (snd (Api.deleteTask userId taskId st)) = Api.getTasks other st.
Proof.
  assert (Ne : forall x, Api.t_userId x = userId -> String.eqb (Api.t_userId x) other = false).
  { intros x E. rewrite E. destruct (String.eqb_spec userId other); [congruence | reflexivity]. }
  unfold Api.getTasks. split; [|split; [|split]].
  - cbn. rewrite filter_app. cbn.
    destruct (String.eqb_spec userId other); [congruence|]. apply app_nil_r.
  - cbn. rewrite filter_app. cbn. rewrite String.eqb_refl. reflexivity.
  - unfold Api.updateTask.
    destruct (Api.findIndex (Api.owns userId taskId) (Api.tasks st)) as [i|] eqn:F;
      [|reflexivity].
    destruct (findIndex_some _ _ _ F) as [old [E O]]. rewrite E. cbn [snd Api.tasks].
    unfold Api.owns in O. apply andb_true_iff in O. destruct O as [_ O].
    apply String.eqb_eq in O.
    apply (filter_set_nth_out _ i old); [exact E | apply Ne; exact O |].
    apply Ne. unfold Api.merge. cbn. rewrite Hup. exact O.
  - unfold Api.deleteTask.
    destruct (Api.findIndex (Api.owns userId taskId) (Api.tasks st)) as [i|] eqn:F;
      [|reflexivity].
    destruct (findIndex_some _ _ _ F) as [old [E O]]. cbn [snd Api.tasks].
    unfold Api.owns in O. apply andb_true_iff in O. destruct O as [_ O].
    apply String.eqb_eq in O.
    apply (filter_remove_nth_out _ i old); [exact E | apply Ne; exact O].
Qed.

Lemma other_users_lists_untouched_witness :
  Api.getTasks "1700000000002"
               (snd (Api.deleteTask "1700000000001" "7"
                       (Api.mkStore [] [client_task "7" Model.low Model.todo; bobs_client_task])))
  = [bobs_client_task].
Proof.
  refine (eq_trans
            (proj2 (proj2 (proj2
               (other_users_lists_untouched 1 1 "1700000000001" "1700000000002" "7"
                  (Api.mkData "x" "y" Model.low Model.todo) no_updates
                  (Api.mkStore [] [client_task "7" Model.low Model.todo; bobs_client_task])
                  _ eq_refl)))) _).
  - discriminate.
  - reflexivity.
Defined.

(** X15.  The task list of the context follows the store.  If it shows
    the signed-in user's tasks of the store, and those have distinct ids,
    it still does after a create, after an update whose body has no
    userId, and after a delete made through the context; when the store
    throws, the list and the store stay, the message is kept as the error
    and thrown again.  getTasks establishes the agreement from any
    state. *)
Theorem context_follows_store (now stamp : Z) (u : Auth.User) (id : string)
    (data : Api.TaskData) (up : Api.Updates) (st : Api.Store) (c : TaskContext.Ctx)
    (Hshown : TaskContext.tasks c = Api.getTasks (Auth.id u) st)
    (Hdistinct : NoDup (map Api.t_id (Api.getTasks (Auth.id u) st)))
    (Hup : Api.u_userId up = None) :
  (forall c0, TaskContext.tasks (TaskContext.getTasks (Some u) st c0)
              = Api.getTasks (Auth.id u) st)
  /\ (let '(_, c', st') := TaskContext.createTask now stamp (Some u) data st c in
      TaskContext.tasks c' = Api.getTasks (Auth.id u) st')
  /\ (let '(r, c', st') := TaskContext.updateTask stamp (Some u) id up st c in
      TaskContext.tasks c' = Api.getTasks (Auth.id u) st'
      /\ (forall msg, r = Throw msg ->
          TaskContext.error c' = Some msg /\ TaskContext.tasks c' = TaskContext.tasks c
          /\ st' = st))
  /\ (let '(r, c', st') := TaskContext.deleteTask (Some u) id st c in
      TaskContext.tasks c' = Api.getTasks (Auth.id u) st'
      /\ (forall msg, r = Throw msg ->
          TaskContext.error c' = Some msg /\ TaskContext.tasks c' = TaskContext.tasks c
          /\ st' = st)).
Proof.
  split; [intros c0; reflexivity|]. split; [|split].
  - cbn. rewrite Hshown. unfold Api.getTasks. cbn. rewrite filter_app. cbn.
    rewrite String.eqb_refl. reflexivity.
  - unfold TaskContext.updateTask, Api.updateTask.
    destruct (Api.findIndex (Api.owns (Auth.id u) id) (Api.tasks st)) as [i|] eqn:F.
    + destruct (findIndex_some _ _ _ F) as [old [E O]]. rewrite E.
      cbn [TaskContext.tasks]. split; [|intros msg D; discriminate D].
      rewrite Hshown. unfold Api.getTasks. cbn [Api.tasks]. symmetry.
      apply own_view_set_nth; [exact F | | exact Hdistinct].
      unfold Api.owns in O. apply andb_true_iff in O. destruct O as [_ O].
      apply String.eqb_eq in O. unfold Api.merge. cbn. rewrite Hup. exact O.
    + cbn [TaskContext.tasks TaskContext.error]. split; [exact Hshown|].
      intros msg D. injection D as <-. auto.
  - unfold TaskContext.deleteTask, Api.deleteTask.
    destruct (Api.findIndex (Api.owns (Auth.id u) id) (Api.tasks st)) as [i|] eqn:F.
    + cbn [TaskContext.tasks]. split; [|intros msg D; discriminate D].
      rewrite Hshown. unfold Api.getTasks. cbn [Api.tasks]. symmetry.
      apply own_view_remove_nth; [exact F | exact Hdistinct].
    + cbn [TaskContext.tasks TaskContext.error]. split; [exact Hshown|].
      intros msg D. injection D as <-. auto.
Qed.

Lemma context_follows_store_witness :
  let st := Api.mkStore [] [client_task "7" Model.low Model.todo; bobs_client_task;
                            client_task "8" Model.high Model.todo] in
  let u := Auth.mkUser "1700000000001" "alice" "a@x.com" 0 in
  let c := TaskContext.getTasks (Some u) st TaskContext.initial in
  let '(_, c', st') := TaskContext.deleteTask (Some u) "7" st c in
  TaskContext.tasks c' = [client_task "8" Model.high Model.todo]
  /\ TaskContext.tasks c' = Api.getTasks "1700000000001" st'.
Proof.
  cbv zeta.
  pose proof (context_follows_store 1 1 (Auth.mkUser "1700000000001" "alice" "a@x.com" 0) "7"
                (Api.mkData "x" "y" Model.low Model.todo) no_updates
                (Api.mkStore [] [client_task "7" Model.low Model.todo; bobs_client_task;
                                 client_task "8" Model.high Model.todo])
                (TaskContext.getTasks (Some (Auth.mkUser "1700000000001" "alice" "a@x.com" 0))
                   (Api.mkStore [] [client_task "7" Model.low Model.todo; bobs_client_task;
                                    client_task "8" Model.high Model.todo])
                   TaskContext.initial)
                eq_refl
                ltac:(repeat constructor; cbn; intuition discriminate)
                eq_refl) as [_ [_ [_ H]]].
  cbn in H |- *. destruct H as [H _]. split; [reflexivity | exact H].
Defined.

(** ** The session *)

Section SessionFacts.

Lemma generateToken_not_empty (now : Z) (u : Auth.User) :
  String.eqb (Auth.generateToken now u) "" = false.
Proof.
  unfold Auth.generateToken, Base64.btoa.
  cbn [Json.JSON_stringify Auth.payload_of append].
  match goal with |- context [Base64.btoa_data (String ?c ?s)] => generalize s end.
  intros s. destruct s as [|[] [|[] [|[] s]]]; reflexivity.
Qed.

Lemma login_ok_token (sha256_hex : string -> string) (issued : Z) (email password : string)
    (st : Api.Store) (u : Auth.User) (tok : string) :
  Api.login sha256_hex issued email password st = Ok (u, tok) ->
  tok = Auth.generateToken issued u.
Proof.
  unfold Api.login. destruct (find _ _); [|discriminate].
  destruct (Auth.comparePassword _ _ _); [|discriminate].
  intros H. injection H as <- <-. reflexivity.
Qed.

End SessionFacts.

(** X16.  A successful login puts the user and the token into the state
    and the token into localStorage.  A page that mounts afterwards finds
    the session again from the saved token alone, with the same id,
    username and email, until 24 hours after the login; later than that,
    and after a logout, it starts signed out with the saved token
    removed.  A login the store refuses leaves user, token and saved
    token as they were and throws the store's error on. *)
Theorem session_survives_reload (sha256_hex : string -> string) (issued later : Z)
    (email password : string) (st : Api.Store) (c : AuthContext.Ctx) :
  match Api.login sha256_hex issued email password st with
  | Ok (u, tok) =>
      AuthContext.login sha256_hex issued email password st c
      = (Ok tt, AuthContext.mkCtx (Some (AuthContext.FromStore u)) (Some tok) false (Some tok))
      /\ (later <= issued + Auth.TTL ->
          AuthContext.mount later (AuthContext.initial (Some tok))
          = AuthContext.mkCtx
              (Some (AuthContext.FromToken
                       (Auth.mkVerified (Some (Json.JStr (Auth.id u)))
                                        (Some (Json.JStr (Auth.username u)))
                                        (Some (Json.JStr (Auth.email u)))
                                        (Auth.IsoOfNow later))))
              (Some tok) false (Some tok))
      /\ (issued + Auth.TTL < later ->
          AuthContext.mount later (AuthContext.initial (Some tok))
          = AuthContext.mkCtx None None false None)
      /\ AuthContext.mount later
           (AuthContext.initial
              (AuthContext.saved
                 (AuthContext.logout
                    (snd (AuthContext.login sha256_hex issued email password st c)))))
         = AuthContext.mkCtx None None false None
  | Throw msg =>
      AuthContext.login sha256_hex issued email password st c
      = (Throw msg,
         AuthContext.mkCtx (AuthContext.user c) (AuthContext.token c) false (AuthContext.saved c))
  end.
Proof.
  destruct (Api.login sha256_hex issued email password st) as [[u tok]|msg] eqn:L.
  - pose proof (login_ok_token _ _ _ _ _ _ _ L) as ->.
    unfold AuthContext.login. rewrite L.
    split; [reflexivity|]. split; [|split].
    + intros H. unfold AuthContext.mount, AuthContext.initial. cbn [AuthContext.saved].
      rewrite generateToken_not_empty, verify_issued.
      destruct (Z.ltb_spec (issued + Auth.TTL) later); [lia | reflexivity].
    + intros H. unfold AuthContext.mount, AuthContext.initial. cbn [AuthContext.saved].
      rewrite generateToken_not_empty, verify_issued.
      destruct (Z.ltb_spec (issued + Auth.TTL) later); [reflexivity | lia].
    + reflexivity.
  - unfold AuthContext.login. rewrite L. reflexivity.
Qed.

(** Register, log in at 1000, reload at 5000 and at 86401001. *)
Lemma session_survives_reload_witness :
  let st := snd (Api.register (fun s => s) 10 10 10 "alice" "a@x.com" "Passw0rd" empty_store) in
  let tok := Auth.generateToken 1000 (Auth.mkUser "10" "alice" "a@x.com" 10) in
  AuthContext.user (AuthContext.mount 5000 (AuthContext.initial (Some tok)))
  = Some (AuthContext.FromToken
            (Auth.mkVerified (Some (Json.JStr "10")) (Some (Json.JStr "alice"))
                             (Some (Json.JStr "a@x.com")) (Auth.IsoOfNow 5000)))
  /\ AuthContext.mount 86401001 (AuthContext.initial (Some tok))
     = AuthContext.mkCtx None None false None.
Proof.
  cbv zeta.
  pose proof (session_survives_reload (fun s => s) 1000 5000 "a@x.com" "Passw0rd"
                (snd (Api.register (fun s => s) 10 10 10 "alice" "a@x.com" "Passw0rd" empty_store))
                (AuthContext.initial None)) as H1.
  pose proof (session_survives_reload (fun s => s) 1000 86401001 "a@x.com" "Passw0rd"
                (snd (Api.register (fun s => s) 10 10 10 "alice" "a@x.com" "Passw0rd" empty_store))
                (AuthContext.initial None)) as H2.
  change (Api.login (fun s => s) 1000 "a@x.com" "Passw0rd"
            (snd (Api.register (fun s => s) 10 10 10 "alice" "a@x.com" "Passw0rd" empty_store)))
    with (@Ok (Auth.User * string)
              (Auth.mkUser "10" "alice" "a@x.com" 10,
               Auth.generateToken 1000 (Auth.mkUser "10" "alice" "a@x.com" 10))) in H1, H2.
  cbv iota in H1, H2.
  destruct H1 as [_ [A _]]. destruct H2 as [_ [_ [B _]]].
  split.
  - rewrite A; [reflexivity | vm_compute; discriminate].
  - apply B. reflexivity.
Defined.

(** ** The Dashboard's view *)

Section ViewFacts.
Import Model Api Dashboard.

Lemma ltb_asym (a b : string) : String.ltb a b = true -> String.ltb b a = false.
Proof.
  unfold String.ltb. rewrite (String.compare_antisym a b).
  destruct (String.compare b a); cbn; congruence.
Qed.

Lemma compareFn_total (filters : FilterOptions) (a b : Task) :
  (compareFn filters a b <? 0) = false -> (compareFn filters b a <? 0) = true.
Proof.
  unfold compareFn.
  assert (G : forall x y, gt x y = true -> gt y x = false).
  { intros [x|x] [y|y]; cbn; try congruence.
    - intros H. apply Z.ltb_lt in H. apply Z.ltb_ge. lia.
    - apply ltb_asym. }
  destruct (sortOrder filters).
  - destruct (gt (sort_value (sortBy filters) a) (sort_value (sortBy filters) b)) eqn:E;
      [|discriminate]. intros _. rewrite (G _ _ E). reflexivity.
  - destruct (gt (sort_value (sortBy filters) b) (sort_value (sortBy filters) a)) eqn:E;
      [|discriminate]. intros _. rewrite (G _ _ E). reflexivity.
Qed.

End ViewFacts.

(** X17.  The Dashboard shows exactly the tasks that pass the filters,
    each once: the view is a rearrangement of the matching tasks.  A
    shown task has the priority and the status of a non-empty filter,
    and with the search, priority and status filters all empty every
    task is shown. *)
Theorem dashboard_shows_matching_tasks (tasks : list Api.Task)
    (filters : Dashboard.FilterOptions) :
  Permutation (Dashboard.filteredAndSortedTasks tasks filters)
              (filter (Dashboard.matches filters) tasks)
  /\ (forall t, In t (Dashboard.filteredAndSortedTasks tasks filters) ->
        In t tasks
        /\ (Dashboard.f_priority filters <> "" ->
            Model.priority_str (Api.t_priority t) = Dashboard.f_priority filters)
        /\ (Dashboard.f_status filters <> "" ->
            Model.status_str (Api.t_status t) = Dashboard.f_status filters))
  /\ (Dashboard.search filters = "" -> Dashboard.f_priority filters = "" ->
      Dashboard.f_status filters = "" ->
      Permutation (Dashboard.filteredAndSortedTasks tasks filters) tasks).
Proof.
  assert (P : Permutation (Dashboard.filteredAndSortedTasks tasks filters)
                          (filter (Dashboard.matches filters) tasks))
    by apply sort_by_perm.
  split; [exact P|]. split.
  - intros t Ht. apply (Permutation_in t P) in Ht. apply filter_In in Ht.
    destruct Ht as [Hin M]. split; [exact Hin|].
    unfold Dashboard.matches in M.
    apply andb_true_iff in M. destruct M as [M Hs].
    apply andb_true_iff in M. destruct M as [_ Hp]. split.
    + intros Ne. apply orb_true_iff in Hp. destruct Hp as [Hp|Hp].
      * apply String.eqb_eq in Hp. contradiction.
      * apply String.eqb_eq. exact Hp.
    + intros Ne. apply orb_true_iff in Hs. destruct Hs as [Hs|Hs].
      * apply String.eqb_eq in Hs. contradiction.
      * apply String.eqb_eq. exact Hs.
  - intros E1 E2 E3. rewrite P.
    rewrite (filter_all (Dashboard.matches filters) tasks); [apply Permutation_refl|].
    apply Forall_forall. intros t _. unfold Dashboard.matches.
    rewrite E1, E2, E3. reflexivity.
Qed.

Lemma dashboard_shows_matching_tasks_witness :
  map Api.t_id
      (Dashboard.filteredAndSortedTasks
         [client_task "a" Model.low Model.todo; client_task "b" Model.high Model.todo;
          client_task "c" Model.high Model.completed]
         (Dashboard.mkFilters "" "high" "" Controller.by_title Controller.asc))
  = ["b"; "c"]
  /\ Model.priority_str (Api.t_priority (client_task "b" Model.high Model.todo)) = "high".
Proof.
  split; [reflexivity|].
  destruct (dashboard_shows_matching_tasks
              [client_task "a" Model.low Model.todo; client_task "b" Model.high Model.todo;
               client_task "c" Model.high Model.completed]
              (Dashboard.mkFilters "" "high" "" Controller.by_title Controller.asc))
    as [_ [H _]].
  destruct (H (client_task "b" Model.high Model.todo) (or_introl eq_refl)) as [_ [A _]].
  apply A. discriminate.
Defined.

(** X18.  The Dashboard's view is in the order of the sort field, for
    titles too: going down an ascending view no task has a value above
    the next one's, and going down a descending view none has a value
    below the next one's, values being compared as the comparator
    compares them (numbers for priority, status and dates, code units
    for titles). *)
Theorem dashboard_view_in_order (tasks : list Api.Task) (filters : Dashboard.FilterOptions) :
  Sorted (fun a b =>
            match Dashboard.sortOrder filters with
            | Controller.asc =>
                Dashboard.gt (Dashboard.sort_value (Dashboard.sortBy filters) a)
                             (Dashboard.sort_value (Dashboard.sortBy filters) b) = false
            | Controller.desc =>
                Dashboard.gt (Dashboard.sort_value (Dashboard.sortBy filters) b)
                             (Dashboard.sort_value (Dashboard.sortBy filters) a) = false
            end)
         (Dashboard.filteredAndSortedTasks tasks filters)
  /\ (Dashboard.sortBy filters = Controller.by_title ->
      Dashboard.sortOrder filters = Controller.asc ->
      Sorted (fun a b => String.ltb (Api.t_title b) (Api.t_title a) = false)
             (Dashboard.filteredAndSortedTasks tasks filters)).
Proof.
  assert (S : Sorted (fun a b =>
            match Dashboard.sortOrder filters with
            | Controller.asc =>
                Dashboard.gt (Dashboard.sort_value (Dashboard.sortBy filters) a)
                             (Dashboard.sort_value (Dashboard.sortBy filters) b) = false
            | Controller.desc =>
                Dashboard.gt (Dashboard.sort_value (Dashboard.sortBy filters) b)
                             (Dashboard.sort_value (Dashboard.sortBy filters) a) = false
            end)
         (Dashboard.filteredAndSortedTasks tasks filters)).
  { unfold Dashboard.filteredAndSortedTasks. cbv zeta.
    pose proof (sort_by_sorted (fun a b => Dashboard.compareFn filters a b <? 0)
                  (compareFn_total filters)
                  (filter (Dashboard.matches filters) tasks)) as K.
    induction K as [|x l K IH Hd]; constructor; [exact IH|].
    destruct Hd as [|y l' Hxy]; constructor.
    unfold Dashboard.compareFn in Hxy.
    destruct (Dashboard.sortOrder filters).
    - destruct (Dashboard.gt _ _); [discriminate | reflexivity].
    - destruct (Dashboard.gt _ _); [discriminate | reflexivity]. }
  split; [exact S|].
  intros Ef Eo. rewrite Ef, Eo in S. exact S.
Qed.

Lemma dashboard_view_in_order_witness :
  map Api.t_title
      (Dashboard.filteredAndSortedTasks
         [client_task "pear" Model.low Model.todo; client_task "Zebra" Model.high Model.todo;
          client_task "apple" Model.high Model.completed]
         (Dashboard.mkFilters "" "" "" Controller.by_title Controller.asc))
  = ["Zebra"; "apple"; "pear"]
  /\ Sorted (fun a b => String.ltb (Api.t_title b) (Api.t_title a) = false)
       (Dashboard.filteredAndSortedTasks
          [client_task "pear" Model.low Model.todo; client_task "Zebra" Model.high Model.todo;
           client_task "apple" Model.high Model.completed]
          (Dashboard.mkFilters "" "" "" Controller.by_title Controller.asc)).
Proof.
  split; [reflexivity|].
  apply (dashboard_view_in_order
           [client_task "pear" Model.low Model.todo; client_task "Zebra" Model.high Model.todo;
            client_task "apple" Model.high Model.completed]
           (Dashboard.mkFilters "" "" "" Controller.by_title Controller.asc)); reflexivity.
Defined.

(** X19.  ageInDays counts the whole days since the creation: it is [n]
    exactly while the elapsed time is at least [n] and less than [n + 1]
    times 86,400,000 ms, so it is 0 on the first day, never negative for
    a task created in the past, and never goes down as the clock goes
    on. *)
Theorem age_counts_whole_days (now now' : Z) (t : Model.TaskDoc) :
  (forall n, Model.ageInDays now t = n <->
             n * 86400000 <= now - Model.createdAt t < (n + 1) * 86400000)
  /\ (Model.createdAt t <= now -> 0 <= Model.ageInDays now t)
  /\ (now <= now' -> Model.ageInDays now t <= Model.ageInDays now' t).
Proof.
  unfold Model.ageInDays. change (1000 * 60 * 60 * 24) with 86400000.
  split; [|split].
  - intros n.
    pose proof (Z.div_mod (now - Model.createdAt t) 86400000 ltac:(lia)) as D.
    pose proof (Z.mod_pos_bound (now - Model.createdAt t) 86400000 ltac:(lia)) as M.
    split; intros H; nia.
  - intros H. apply Z.div_pos; lia.
  - intros H. apply Z.div_le_mono; lia.
Qed.

Lemma age_counts_whole_days_witness :
  Model.ageInDays 86400000 todo_task = 0 /\ Model.ageInDays 86400001 todo_task = 1.
Proof.
  destruct (age_counts_whole_days 86400000 86400001 todo_task) as [A _].
  destruct (age_counts_whole_days 86400001 86400001 todo_task) as [B _].
  split; [apply A | apply B]; cbn; lia.
Defined.
